(** * mpdspl: smart playlists out of an MPD database

    A shallow embedding of the rule grammar, the three rule classes, the
    rule factory and the playlist evaluation of [mpdspl.py], followed by the
    properties of the specification that concern them.

    Python [str] values are [string]s; the pattern engine works on
    [list ascii].  Exceptions are values of [exn] carried by [result]. *)

From Stdlib Require Import String Ascii List ZArith Bool Lia Arith Permutation.
Import ListNotations.

Local Open Scope string_scope.
Local Open Scope Z_scope.

(** ** Exceptions *)

Inductive exn : Type :=
| Exception (msg : string)
| KeyError (k : string)
| AttributeError (attr : string)
| ValueError
| TypeError
| OverflowError
| re_error.

Inductive result (A : Type) : Type :=
| Ok (a : A)
| Raise (e : exn).

Arguments Ok {A} a.
Arguments Raise {A} e.

Definition bind {A B : Type} (m : result A) (f : A -> result B) : result B :=
  match m with
  | Ok a => f a
  | Raise e => Raise e
  end.

Notation "x <- m ;; k" := (bind m (fun x => k))
  (at level 61, m at next level, right associativity).

Definition raises {A : Type} (m : result A) : Prop := exists e, m = Raise e.

(** ** Characters and strings *)

Definition chars (s : string) : list ascii := list_ascii_of_string s.
Definition str (l : list ascii) : string := string_of_list_ascii l.

Definition code (c : ascii) : nat := nat_of_ascii c.

Definition between (lo hi : nat) (c : ascii) : bool :=
  (Nat.leb lo (code c) && Nat.leb (code c) hi)%bool.

(** [\d] on byte strings. *)
Definition is_digit (c : ascii) : bool := between 48 57 c.

Definition is_upper (c : ascii) : bool := between 65 90 c.
Definition is_lower (c : ascii) : bool := between 97 122 c.

(** [\w] on byte strings, without LOCALE or UNICODE: [[a-zA-Z0-9_]]. *)
Definition is_word (c : ascii) : bool :=
  (is_digit c || is_upper c || is_lower c || Ascii.eqb c "_")%bool.

(** [\s] on byte strings: space, tab, newline, return, form feed, vertical tab. *)
Definition is_space (c : ascii) : bool :=
  (Ascii.eqb c " " || between 9 13 c)%bool.

Definition newline : ascii := ascii_of_nat 10.

(** [.] without DOTALL: anything but a newline. *)
Definition is_dot (c : ascii) : bool := negb (Ascii.eqb c newline).

Definition one_of (l : list ascii) (c : ascii) : bool :=
  existsb (Ascii.eqb c) l.

Definition lower_char (c : ascii) : ascii :=
  if is_upper c then ascii_of_nat (code c + 32) else c.

(** [str.lower()] *)
Definition lower (s : string) : string := str (map lower_char (chars s)).

Fixpoint ends_with_s (l : list ascii) : bool :=
  match l with
  | [] => false
  | [c] => Ascii.eqb c "s"
  | _ :: l' => ends_with_s l'
  end.

(** [str.endswith('s')] *)
Definition endswith_s (s : string) : bool := ends_with_s (chars s).

(** ['\n'.join(l)] *)
Fixpoint join (sep : string) (l : list string) : string :=
  match l with
  | [] => ""
  | [x] => x
  | x :: l' => x ++ sep ++ join sep l'
  end.

(** ** The pattern engine

    The fragment of Python's [re] that the program's own patterns use:
    character classes, concatenation, ordered alternation, greedy
    repetition of a class, a greedy optional part, numbered groups and a
    back-reference.  Matching is by backtracking with a continuation, in
    the order of Python's engine: a greedy repetition first tries the
    longest run and gives characters back one at a time. *)

Inductive regex : Type :=
| Class (p : ascii -> bool)
| Seq (r1 r2 : regex)
| Alt (r1 r2 : regex)
| Star (p : ascii -> bool)
| Opt (r : regex)
| Group (n : nat) (r : regex)
| Backref (n : nat).

Definition Lit (c : ascii) : regex := Class (Ascii.eqb c).
Definition Plus (p : ascii -> bool) : regex := Seq (Class p) (Star p).

(** The groups matched so far, most recent first. *)
Definition groups : Type := list (nat * list ascii).

Fixpoint group (n : nat) (g : groups) : option (list ascii) :=
  match g with
  | [] => None
  | (m, t) :: g' => if Nat.eqb n m then Some t else group n g'
  end.

Fixpoint strip_prefix (t s : list ascii) : option (list ascii) :=
  match t, s with
  | [], _ => Some s
  | a :: t', b :: s' => if Ascii.eqb a b then strip_prefix t' s' else None
  | _ :: _, [] => None
  end.

(** The text between two positions of the subject, both given as the
    remaining input. *)
Definition consumed (s s' : list ascii) : list ascii :=
  firstn (length s - length s') s.

Section Engine.
Context {A : Type}.

Fixpoint star (p : ascii -> bool) (s : list ascii)
         (k : list ascii -> option A) : option A :=
  match s with
  | c :: s' =>
      if p c then
        match star p s' k with
        | Some x => Some x
        | None => k s
        end
      else k s
  | [] => k s
  end.

Fixpoint rmatch (r : regex) (s : list ascii) (g : groups)
         (k : list ascii -> groups -> option A) : option A :=
  match r with
  | Class p =>
      match s with
      | c :: s' => if p c then k s' g else None
      | [] => None
      end
  | Seq r1 r2 => rmatch r1 s g (fun s' g' => rmatch r2 s' g' k)
  | Alt r1 r2 =>
      match rmatch r1 s g k with
      | Some x => Some x
      | None => rmatch r2 s g k
      end
  | Star p => star p s (fun s' => k s' g)
  | Opt r1 =>
      match rmatch r1 s g k with
      | Some x => Some x
      | None => k s g
      end
  | Group n r1 =>
      rmatch r1 s g (fun s' g' => k s' ((n, consumed s s') :: g'))
  | Backref n =>
      match group n g with
      | Some t =>
          match strip_prefix t s with
          | Some s' => k s' g
          | None => None
          end
      | None => None
      end
  end.
End Engine.

(** A match object: the groups and the input left after the match. *)
Record Match : Type := mkMatch { m_groups : groups; m_rest : list ascii }.

(** [re.match(pattern, string)]: anchored at the start, not at the end. *)
Definition re_match (r : regex) (s : string) : option Match :=
  rmatch r (chars s) [] (fun s' g => Some (mkMatch g s')).

(** [m.group(n)], [None] for a group that took no part in the match. *)
Definition m_group (m : Match) (n : nat) : option string :=
  option_map str (group n (m_groups m)).

(** ** The field registry *)

Definition KEYWORDS : list (string * (string * string)) :=
  [ ("ar", ("Artist", "Artist"));
    ("al", ("Album", "Album"));
    ("ti", ("Title", "Title"));
    ("tn", ("Track", "Track number"));
    ("ge", ("Genre", "Genre"));
    ("ye", ("Date", "Track year"));
    ("le", ("Time", "Track duration (in seconds)"));
    ("fp", ("file", "File full path"));
    ("fn", ("key", "File name"));
    ("mt", ("mtime", "File modification time"));
    ("ra", ("Rating", "Track rating")) ].

(** [d[k]] on a dictionary with string keys. *)
Fixpoint lookup {V : Type} (d : list (string * V)) (k : string) : option V :=
  match d with
  | [] => None
  | (k', v) :: d' => if String.eqb k k' then Some v else lookup d' k
  end.

Definition getitem {V : Type} (d : list (string * V)) (k : string) : result V :=
  match lookup d k with
  | Some v => Ok v
  | None => Raise (KeyError k)
  end.

(** ** The rule grammar *)

(** The keys of [RuleFactory.DELIMITER_TO_RULE]. *)
Definition DELIMITERS : list ascii := ["/"; "%"; "@"]%char.

(** [(?P<key>\w+)(?P<operator>.)(?P<delimiter>[/%@])(?P<value>.+)\3(?P<flags>\w+)?] *)
Definition RULE_REGEX : regex :=
  Seq (Group 1 (Plus is_word))
 (Seq (Group 2 (Class is_dot))
 (Seq (Group 3 (Class (one_of DELIMITERS)))
 (Seq (Group 4 (Plus is_dot))
 (Seq (Backref 3)
      (Opt (Group 5 (Plus is_word))))))).

(** ** Track records *)

Module Track.
(** The attributes that [Track.__init__] creates, one per registry entry
    (the lower-cased attribute name).  All values are text. *)
Record t : Type := mk {
  artist : string;
  album : string;
  title : string;
  track : string;
  genre : string;
  date : string;
  time : string;
  file : string;
  key : string;
  mtime : string;
  rating : string
}.

(** [Track()]: every attribute is the empty string. *)
Definition __init__ : t := mk "" "" "" "" "" "" "" "" "" "" "".

Definition getattr (tr : t) (name : string) : result string :=
  if String.eqb name "artist" then Ok (artist tr)
  else if String.eqb name "album" then Ok (album tr)
  else if String.eqb name "title" then Ok (title tr)
  else if String.eqb name "track" then Ok (track tr)
  else if String.eqb name "genre" then Ok (genre tr)
  else if String.eqb name "date" then Ok (date tr)
  else if String.eqb name "time" then Ok (time tr)
  else if String.eqb name "file" then Ok (file tr)
  else if String.eqb name "key" then Ok (key tr)
  else if String.eqb name "mtime" then Ok (mtime tr)
  else if String.eqb name "rating" then Ok (rating tr)
  else Raise (AttributeError name).
End Track.

(** ** Numbers from text *)

Fixpoint drop_while (p : ascii -> bool) (l : list ascii) : list ascii :=
  match l with
  | c :: l' => if p c then drop_while p l' else l
  | [] => []
  end.

Definition strip (l : list ascii) : list ascii :=
  rev (drop_while is_space (rev (drop_while is_space l))).

Definition digit_value (c : ascii) : Z := Z.of_nat (code c) - 48.

Fixpoint digits_value (l : list ascii) (acc : Z) : option Z :=
  match l with
  | [] => Some acc
  | c :: l' =>
      if is_digit c then digits_value l' (10 * acc + digit_value c) else None
  end.

Definition unsigned_literal (l : list ascii) : result Z :=
  match l with
  | [] => Raise ValueError
  | _ :: _ =>
      match digits_value l 0 with
      | Some n => Ok n
      | None => Raise ValueError
      end
  end.

(** [int(s)] for a [str] in base ten: surrounding whitespace, an optional
    sign, and at least one digit; anything else is a [ValueError]. *)
Definition py_int (s : string) : result Z :=
  match strip (chars s) with
  | "-"%char :: l => n <- unsigned_literal l ;; Ok (- n)
  | "+"%char :: l => unsigned_literal l
  | l => unsigned_literal l
  end.

(** [float(s)] as the program uses it, on a field holding a whole number of
    seconds (the form in which MPD writes [mtime]); the result is that
    number.  Text in another notation of [float] is outside this embedding
    and no statement below depends on it. *)
Definition py_float (s : string) : result Z := py_int s.

(** ** datetime.timedelta *)

Record timedelta : Type := mkTimedelta {
  days : Z;
  seconds : Z;
  microseconds : Z
}.

(** The keyword arguments of [timedelta], each in microseconds. *)
Definition TIMEDELTA_KEYWORDS : list (string * Z) :=
  [ ("days", 86400000000);
    ("seconds", 1000000);
    ("microseconds", 1);
    ("milliseconds", 1000);
    ("minutes", 60000000);
    ("hours", 3600000000);
    ("weeks", 604800000000) ].

(** [timedelta] called with the single keyword [unit] set to [number]: an
    unknown keyword is a [TypeError];
    the duration is normalised to days, seconds in [0, 86400) and
    microseconds in [0, 10^6); more than 999999999 days in magnitude is an
    [OverflowError]. *)
Definition timedelta_kw (unit : string) (number : Z) : result timedelta :=
  match lookup TIMEDELTA_KEYWORDS unit with
  | None => Raise TypeError
  | Some us =>
      let total := number * us in
      let d := total / 86400000000 in
      let r := total mod 86400000000 in
      if Z.abs d >? 999999999 then Raise OverflowError
      else Ok (mkTimedelta d (r / 1000000) (r mod 1000000))
  end.

(** [timedelta.total_seconds()], rounded down to whole seconds. *)
Definition total_seconds (td : timedelta) : Z :=
  days td * 86400 + seconds td.

(** ** The time module

    Instants are whole seconds since the epoch.  The local time zone is a
    fixed offset [tz], in seconds east of UTC. *)

Record struct_time : Type := mkTime {
  tm_year : Z;
  tm_mon : Z;
  tm_mday : Z;
  tm_hour : Z;
  tm_min : Z;
  tm_sec : Z
}.

Definition is_leap (y : Z) : bool :=
  ((y mod 4 =? 0) && (negb (y mod 100 =? 0) || (y mod 400 =? 0)))%bool.

Definition days_in_month (y m : Z) : Z :=
  if m =? 2 then (if is_leap y then 29 else 28)
  else if (m =? 4) || (m =? 6) || (m =? 9) || (m =? 11) then 30
  else 31.

(** Days from 1970-01-01 to the given day of the proleptic Gregorian
    calendar. *)
Definition days_from_civil (y m d : Z) : Z :=
  let y' := if m <=? 2 then y - 1 else y in
  let era := y' / 400 in
  let yoe := y' - era * 400 in
  let mp := (m + 9) mod 12 in
  let doy := (153 * mp + 2) / 5 + d - 1 in
  let doe := yoe * 365 + yoe / 4 - yoe / 100 + doy in
  era * 146097 + doe - 719468.

(** The day of the proleptic Gregorian calendar that many days after
    1970-01-01. *)
Definition civil_from_days (z : Z) : Z * Z * Z :=
  let z' := z + 719468 in
  let era := z' / 146097 in
  let doe := z' - era * 146097 in
  let yoe := (doe - doe / 1460 + doe / 36524 - doe / 146096) / 365 in
  let doy := doe - (365 * yoe + yoe / 4 - yoe / 100) in
  let mp := (5 * doy + 2) / 153 in
  let d := doy - (153 * mp + 2) / 5 + 1 in
  let m := if mp <? 10 then mp + 3 else mp - 9 in
  let y := yoe + era * 400 in
  (if m <=? 2 then y + 1 else y, m, d).

(** How [time.mktime] and [time.strftime] read the year of their argument
    in Python 2 (with [accept2dyear] at its default): a year below 1900 is
    taken as a two-digit year when it is one, and refused otherwise. *)
Definition gettmarg_year (y : Z) : result Z :=
  if y <? 1900 then
    if (69 <=? y) && (y <=? 99) then Ok (y + 1900)
    else if (0 <=? y) && (y <=? 68) then Ok (y + 2000)
    else Raise ValueError
  else Ok y.

(** [time.mktime]: the broken-down time is local time. *)
Definition mktime (tz : Z) (tm : struct_time) : result Z :=
  y <- gettmarg_year (tm_year tm) ;;
  let tt := days_from_civil y (tm_mon tm) (tm_mday tm) * 86400
            + tm_hour tm * 3600 + tm_min tm * 60 + tm_sec tm - tz in
  if tt =? -1 then Raise OverflowError else Ok tt.

(** [time.gmtime]: the broken-down time is UTC. *)
Definition gmtime (v : Z) : struct_time :=
  let '(y, m, d) := civil_from_days (v / 86400) in
  let r := v mod 86400 in
  mkTime y m d (r / 3600) ((r mod 3600) / 60) (r mod 60).

Definition digit_char (d : Z) : ascii := ascii_of_nat (48 + Z.to_nat d).

Fixpoint decimal_aux (fuel : nat) (n : Z) (acc : list ascii) : list ascii :=
  match fuel with
  | O => acc
  | S f =>
      if n <? 10 then digit_char n :: acc
      else decimal_aux f (n / 10) (digit_char (n mod 10) :: acc)
  end.

Definition decimal (n : Z) : list ascii :=
  decimal_aux (S (Z.to_nat (Z.log2 n))) n [].

Definition two_digits (n : Z) : list ascii :=
  [digit_char (n / 10); digit_char (n mod 10)].

(** [time.strftime('%Y-%m-%d', tm)] *)
Definition strftime (tm : struct_time) : result string :=
  y <- gettmarg_year (tm_year tm) ;;
  Ok (str (decimal y ++ "-"%char :: two_digits (tm_mon tm)
                     ++ "-"%char :: two_digits (tm_mday tm))).

(** The patterns that [time.strptime] has for the directives [%Y], [%m]
    and [%d]:
    [(?P<Y>\d\d\d\d)], [(?P<m>1[0-2]|0[1-9]|[1-9])] and
    [(?P<d>3[0-1]|[1-2]\d|0[1-9]|[1-9]| [1-9])]. *)
Definition YEAR_REGEX : regex :=
  Group 1 (Seq (Class is_digit) (Seq (Class is_digit)
          (Seq (Class is_digit) (Class is_digit)))).

Definition MONTH_REGEX : regex :=
  Group 2 (Alt (Seq (Lit "1") (Class (between 48 50)))
          (Alt (Seq (Lit "0") (Class (between 49 57)))
               (Class (between 49 57)))).

Definition DAY_REGEX : regex :=
  Group 3 (Alt (Seq (Lit "3") (Class (between 48 49)))
          (Alt (Seq (Class (between 49 50)) (Class is_digit))
          (Alt (Seq (Lit "0") (Class (between 49 57)))
          (Alt (Class (between 49 57))
               (Seq (Lit " ") (Class (between 49 57))))))).

(** The pattern that [time.strptime] builds for ['%Y-%m-%d']. *)
Definition TIME_STAMP_REGEX : regex :=
  Seq YEAR_REGEX
 (Seq (Lit "-")
 (Seq MONTH_REGEX
 (Seq (Lit "-")
      DAY_REGEX))).

(** A group that takes part in every match of its pattern. *)
Definition required (o : option string) : result string :=
  match o with
  | Some s => Ok s
  | None => Raise TypeError
  end.

(** [time.strptime(s, '%Y-%m-%d')]: the text must match the pattern and
    leave nothing over, and the day must exist ([datetime.date] is used for
    the day of the year), else [ValueError]. *)
Definition strptime (s : string) : result struct_time :=
  match re_match TIME_STAMP_REGEX s with
  | None => Raise ValueError
  | Some m =>
      match m_rest m with
      | _ :: _ => Raise ValueError
      | [] =>
          ys <- required (m_group m 1) ;;
          ms <- required (m_group m 2) ;;
          ds <- required (m_group m 3) ;;
          y <- py_int ys ;;
          mo <- py_int ms ;;
          d <- py_int ds ;;
          if (1 <=? y) && (1 <=? d) && (d <=? days_in_month y mo)
          then Ok (mkTime y mo d 0 0 0)
          else Raise ValueError
      end
  end.

(** ** Rules *)

(** The attributes that [AbstractRule.__init__] sets.  [value] starts as
    the text between the delimiters; the time rules replace it by a
    number. *)
Record AbstractRule (V : Type) : Type := mkAbstractRule {
  key : string;
  operator : string;
  delimiter : string;
  value : V;
  flags : list ascii;
  negate : bool
}.

Arguments mkAbstractRule {V}.
Arguments key {V}.
Arguments operator {V}.
Arguments delimiter {V}.
Arguments value {V}.
Arguments flags {V}.
Arguments negate {V}.

Definition set_value {V W : Type} (self : AbstractRule V) (v : W)
  : AbstractRule W :=
  mkAbstractRule (key self) (operator self) (delimiter self) v
                 (flags self) (negate self).

Definition AbstractRule_init (key operator delimiter value : string)
           (flags : option string) : AbstractRule string :=
  let flags :=
    match flags with
    | Some f => chars f
    | None => []
    end in
  mkAbstractRule key operator delimiter value flags
                 (existsb (Ascii.eqb "n") flags).

(** A rule object, by class. *)
Inductive Rule : Type :=
| RegexRule (self : AbstractRule string) (reFlags : Z)
| TimeDeltaRule (self : AbstractRule Z) (number : Z) (unit : string)
                (timeDelta : timedelta)
| TimeStampRule (self : AbstractRule Z).

Definition rule_key (r : Rule) : string :=
  match r with
  | RegexRule self _ => key self
  | TimeDeltaRule self _ _ _ => key self
  | TimeStampRule self => key self
  end.

Definition rule_operator (r : Rule) : string :=
  match r with
  | RegexRule self _ => operator self
  | TimeDeltaRule self _ _ _ => operator self
  | TimeStampRule self => operator self
  end.

Definition rule_flags (r : Rule) : list ascii :=
  match r with
  | RegexRule self _ => flags self
  | TimeDeltaRule self _ _ _ => flags self
  | TimeStampRule self => flags self
  end.

Definition rule_negate (r : Rule) : bool :=
  match r with
  | RegexRule self _ => negate self
  | TimeDeltaRule self _ _ _ => negate self
  | TimeStampRule self => negate self
  end.

(** [re.IGNORECASE] and [re.LOCALE] *)
Definition RegexRule_FLAGS : list (string * Z) := [ ("i", 2); ("l", 4) ].

(** [OPERATORS] of the two time rules: [operator.eq], [operator.le] and
    [operator.ge]. *)
Definition TIME_OPERATORS : list (string * (Z -> Z -> bool)) :=
  [ ("=", Z.eqb); ("<", Z.leb); (">", Z.geb) ].

(** [(?P<number>\d+)\s*(?P<unit>\w+)] *)
Definition TIME_DELTA_REGEX : regex :=
  Seq (Group 1 (Plus is_digit))
 (Seq (Star is_space)
      (Group 2 (Plus is_word))).

Fixpoint RegexRule_reFlags (fl : list ascii) (reFlags : Z) : result Z :=
  match fl with
  | [] => Ok reFlags
  | reFlag :: fl' =>
      f <- getitem RegexRule_FLAGS (String reFlag "") ;;
      RegexRule_reFlags fl' (Z.lor reFlags f)
  end.

Definition RegexRule_init (k o d v : string) (f : option string)
  : result Rule :=
  let self := AbstractRule_init k o d v f in
  reFlags <- RegexRule_reFlags (flags self) 0 ;;
  Ok (RegexRule self reFlags).

Definition TimeDeltaRule_init (k o d v : string) (f : option string)
  : result Rule :=
  let self := AbstractRule_init k o d v f in
  match re_match TIME_DELTA_REGEX (value self) with
  | None => Raise (Exception "Could not parse duration")
  | Some m =>
      ns <- required (m_group m 1) ;;
      us <- required (m_group m 2) ;;
      number <- py_int ns ;;
      let unit := lower us in
      let unit := if endswith_s unit then unit else unit ++ "s" in
      timeDelta <- timedelta_kw unit number ;;
      Ok (TimeDeltaRule (set_value self (seconds timeDelta))
                        number unit timeDelta)
  end.

Section Program.
(** The local time zone of the process, in seconds east of UTC. *)
Variable tz : Z.

(** [re.search(pattern, string, flags)] of Python's library, as a truth
    value: whether a match was found, or the error of a pattern that
    does not compile. *)
Variable re_search : string -> string -> Z -> result bool.

Definition TimeStampRule_init (k o d v : string) (f : option string)
  : result Rule :=
  let self := AbstractRule_init k o d v f in
  ts <- strptime (value self) ;;
  v <- mktime tz ts ;;
  Ok (TimeStampRule (set_value self v)).

Definition RegexRule_OPERATORS
  : list (string * (string -> string -> Z -> result bool)) :=
  [ ("=", re_search) ].

Definition RegexRule_match (self : AbstractRule string) (reFlags : Z)
           (v : string) : result bool :=
  op <- getitem RegexRule_OPERATORS (operator self) ;;
  op (value self) v reFlags.

Definition TimeDeltaRule_match (self : AbstractRule Z) (v : string)
  : result bool :=
  op <- getitem TIME_OPERATORS (operator self) ;;
  n <- py_int v ;;
  Ok (op n (value self)).

Definition TimeStampRule_match (self : AbstractRule Z) (v : string)
  : result bool :=
  f <- py_float v ;;
  s <- strftime (gmtime f) ;;
  ts <- strptime s ;;
  day <- mktime tz ts ;;
  op <- getitem TIME_OPERATORS (operator self) ;;
  Ok (op day (value self)).

(** [rule.__match__(value)], by class. *)
Definition Rule__match__ (r : Rule) (v : string) : result bool :=
  match r with
  | RegexRule self reFlags => RegexRule_match self reFlags v
  | TimeDeltaRule self _ _ _ => TimeDeltaRule_match self v
  | TimeStampRule self => TimeStampRule_match self v
  end.

(** [AbstractRule.match] *)
Definition Rule_match (r : Rule) (track : Track.t) : result bool :=
  kw <- getitem KEYWORDS (rule_key r) ;;
  v <- Track.getattr track (lower (fst kw)) ;;
  matched <- Rule__match__ r v ;;
  Ok (if rule_negate r then negb matched else matched).

(** ** The rule factory *)

Definition DELIMITER_TO_RULE
  : list (string * (string -> string -> string -> string ->
                    option string -> result Rule)) :=
  [ ("/", RegexRule_init);
    ("%", TimeDeltaRule_init);
    ("@", TimeStampRule_init) ].

Definition getRule (ruleString : string) : result Rule :=
  match re_match RULE_REGEX ruleString with
  | None =>
      Raise (Exception ("Could not parse rule '" ++ ruleString ++ "'"))
  | Some m =>
      k <- required (m_group m 1) ;;
      o <- required (m_group m 2) ;;
      d <- required (m_group m 3) ;;
      v <- required (m_group m 4) ;;
      ruleClass <- getitem DELIMITER_TO_RULE d ;;
      ruleClass k o d v (m_group m 5)
  end.

(** ** Playlists *)

Record Playlist : Type := mkPlaylist {
  name : string;
  rules : list Rule;
  tracks : list Track.t;
  m3u : option string
}.

(** [re.split] on a pattern that is one or more characters of a class. *)
Fixpoint split_plus (p : ascii -> bool) (s cur : list ascii)
         (in_sep : bool) : list (list ascii) :=
  match s with
  | [] => [rev cur]
  | c :: s' =>
      if p c then
        if in_sep then split_plus p s' cur true
        else rev cur :: split_plus p s' [] true
      else split_plus p s' (c :: cur) false
  end.

(** [Playlist.REGEX.split(ruleString)], with [REGEX] the pattern [\s+]. *)
Definition REGEX_split (ruleString : string) : list string :=
  map str (split_plus is_space (chars ruleString) [] false).

Fixpoint getRules (segments : list string) : result (list Rule) :=
  match segments with
  | [] => Ok []
  | r :: rest =>
      rule <- getRule r ;;
      rules <- getRules rest ;;
      Ok (rule :: rules)
  end.

Definition Playlist_init (name ruleString : string) : result Playlist :=
  rules <- getRules (REGEX_split ruleString) ;;
  Ok (mkPlaylist name rules [] None).

Definition setM3u (self : Playlist) : Playlist :=
  mkPlaylist (name self) (rules self) (tracks self)
    (Some (join (String newline "") (map Track.file (tracks self))
           ++ String newline "")).

(** The inner loop of [findMatchingTracks]: the value of [toAdd] when
    the loop over the rules ends. *)
Fixpoint toAdd (rules : list Rule) (track : Track.t) : result bool :=
  match rules with
  | [] => Ok true
  | rule :: rest =>
      b <- Rule_match rule track ;;
      if b then toAdd rest track else Ok false
  end.

(** The outer loop: the tracks appended to [self.tracks]. *)
Fixpoint matching (rules : list Rule) (values : list Track.t)
  : result (list Track.t) :=
  match values with
  | [] => Ok []
  | track :: rest =>
      b <- toAdd rules track ;;
      found <- matching rules rest ;;
      Ok (if b then track :: found else found)
  end.

(** The record set is a dictionary from file path to track;
    [tracks.values()] lists its tracks in the dictionary's order. *)
Definition findMatchingTracks (self : Playlist)
           (tracks : list (string * Track.t)) : result Playlist :=
  let self := mkPlaylist (name self) (rules self) [] (m3u self) in
  found <- matching (rules self) (map snd tracks) ;;
  Ok (setM3u (mkPlaylist (name self) (rules self) found (m3u self))).
End Program.

(** A pattern engine to run the examples with: it finds the pattern as a
    literal substring, which is what [re.search] does for a pattern without
    special characters and without flags. *)
Fixpoint literal_at (p s : list ascii) : bool :=
  match strip_prefix p s with
  | Some _ => true
  | None =>
      match s with
      | [] => false
      | _ :: s' => literal_at p s'
      end
  end.

Definition literal_search (p s : string) (f : Z) : result bool :=
  Ok (literal_at (chars p) (chars s)).

(** ** When matching cannot raise *)

(** The first and the last instant whose year in UTC lies between 1900 and
    9999, the years that [strftime] and [strptime] both take. *)
Definition MIN_INSTANT : Z := -2208988800.
Definition MAX_INSTANT : Z := 253402300799.

(** The operator of the rule is a key of the [OPERATORS] of its class. *)
Definition operator_known (r : Rule) : bool :=
  match r with
  | RegexRule self _ => String.eqb (operator self) "="
  | TimeDeltaRule self _ _ _ =>
      match lookup TIME_OPERATORS (operator self) with
      | Some _ => true
      | None => false
      end
  | TimeStampRule self =>
      match lookup TIME_OPERATORS (operator self) with
      | Some _ => true
      | None => false
      end
  end.

(** The text of a field is one that the class of the rule can work on: a
    subject on which the pattern engine raises no error, a whole number,
    or a whole number of seconds between [MIN_INSTANT] and
    [MAX_INSTANT]. *)
Definition field_valid (re_search : string -> string -> Z -> result bool)
           (r : Rule) (v : string) : bool :=
  match r with
  | RegexRule self reFlags =>
      match re_search (value self) v reFlags with
      | Ok _ => true
      | Raise _ => false
      end
  | TimeDeltaRule _ _ _ _ =>
      match py_int v with
      | Ok _ => true
      | Raise _ => false
      end
  | TimeStampRule _ =>
      match py_float v with
      | Ok n => (MIN_INSTANT <=? n) && (n <=? MAX_INSTANT)
      | Raise _ => false
      end
  end.

(** ** Dictionaries *)

(** [d[k] = v] on a dictionary with string keys: the entry of [k] is
    replaced where it stands, or added.  The order of the entries stands
    for the order in which Python lists the dictionary, which no statement
    below depends on. *)
Fixpoint dict_set {V : Type} (d : list (string * V)) (k : string) (v : V)
  : list (string * V) :=
  match d with
  | [] => [(k, v)]
  | (k', v') :: d' =>
      if String.eqb k k' then (k, v) :: d' else (k', v') :: dict_set d' k v
  end.

(** ** Text operations of the adapters *)

(** [s.startswith(p)] *)
Definition startswith (p s : string) : bool :=
  match strip_prefix (chars p) (chars s) with
  | Some _ => true
  | None => false
  end.

(** The text before and after the first occurrence of [sep], if any. *)
Fixpoint partition (sep s : list ascii) : option (list ascii * list ascii) :=
  match strip_prefix sep s with
  | Some rest => Some ([], rest)
  | None =>
      match s with
      | [] => None
      | c :: s' =>
          match partition sep s' with
          | Some (a, b) => Some (c :: a, b)
          | None => None
          end
      end
  end.

(** [s.split(sep)] for a separator of one character. *)
Fixpoint split_char (sep : ascii) (s cur : list ascii) : list (list ascii) :=
  match s with
  | [] => [rev cur]
  | c :: s' =>
      if Ascii.eqb c sep then rev cur :: split_char sep s' []
      else split_char sep s' (c :: cur)
  end.

Definition upper_char (c : ascii) : ascii :=
  if is_lower c then ascii_of_nat (code c - 32) else c.

(** [s.capitalize()] *)
Definition capitalize (s : list ascii) : list ascii :=
  match s with
  | [] => []
  | c :: s' => upper_char c :: map lower_char s'
  end.

(** [s.replace(old, new)] for [old] of one character. *)
Fixpoint replace_char (old : ascii) (new s : list ascii) : list ascii :=
  match s with
  | [] => []
  | c :: s' =>
      if Ascii.eqb c old then new ++ replace_char old new s'
      else c :: replace_char old new s'
  end.

(** The double quote character. *)
Definition quote : ascii := ascii_of_nat 34.

Fixpoint remove_last_quote (s : list ascii) : list ascii :=
  match s with
  | [] => []
  | [c] => if Ascii.eqb c quote then [] else [c]
  | c :: s' => c :: remove_last_quote s'
  end.

(** [re.sub] of the pattern that is a quote at the start or a quote at
    the end, by nothing, on text that does not end with a newline: a quote
    at the start and a quote at the end are removed. *)
Definition unquote (value : list ascii) : list ascii :=
  match value with
  | c :: rest =>
      if Ascii.eqb c quote then remove_last_quote rest
      else remove_last_quote value
  | [] => []
  end.

Fixpoint ends_with (x : ascii) (l : list ascii) : bool :=
  match l with
  | [] => false
  | [c] => Ascii.eqb c x
  | _ :: l' => ends_with x l'
  end.

(** [s.endswith('/')] *)
Definition endswith_slash (s : string) : bool := ends_with "/" (chars s).

(** [os.path.join(a, b)] of [posixpath]. *)
Definition path_join (a b : string) : string :=
  if startswith "/" b then b
  else if String.eqb a "" || endswith_slash a then (a ++ b)%string
  else (a ++ "/" ++ b)%string.

(** ** Where a playlist is saved *)

Definition getSaveFile (self : Playlist) (dataDir : string) : string :=
  path_join dataDir (name self).

Definition getM3uPath (self : Playlist) (playlistDir : string) : string :=
  path_join playlistDir (name self ++ ".m3u").

Definition rule_delimiter (r : Rule) : string :=
  match r with
  | RegexRule self _ => delimiter self
  | TimeDeltaRule self _ _ _ => delimiter self
  | TimeStampRule self => delimiter self
  end.

(** ** Track objects

    A [Track] as the database parser builds it: the attributes of
    [Track.__init__], and the other attributes that [setattr] has added. *)

Record TrackObject : Type := mkObject {
  attrs : Track.t;
  others : list (string * string)
}.

(** [Track()] *)
Definition Track_new : TrackObject := mkObject Track.__init__ [].

(** The track with its attribute [name] set to [value]: what
    [setattr(track, name, value)] leaves for a name that a track lets one
    set, see [py_setattr]. *)
Definition setattr (o : TrackObject) (name value : string) : TrackObject :=
  let t := attrs o in
  let set (t' : Track.t) := mkObject t' (others o) in
  if String.eqb name "artist" then
    set (Track.mk value (Track.album t) (Track.title t) (Track.track t)
           (Track.genre t) (Track.date t) (Track.time t) (Track.file t)
           (Track.key t) (Track.mtime t) (Track.rating t))
  else if String.eqb name "album" then
    set (Track.mk (Track.artist t) value (Track.title t) (Track.track t)
           (Track.genre t) (Track.date t) (Track.time t) (Track.file t)
           (Track.key t) (Track.mtime t) (Track.rating t))
  else if String.eqb name "title" then
    set (Track.mk (Track.artist t) (Track.album t) value (Track.track t)
           (Track.genre t) (Track.date t) (Track.time t) (Track.file t)
           (Track.key t) (Track.mtime t) (Track.rating t))
  else if String.eqb name "track" then
    set (Track.mk (Track.artist t) (Track.album t) (Track.title t) value
           (Track.genre t) (Track.date t) (Track.time t) (Track.file t)
           (Track.key t) (Track.mtime t) (Track.rating t))
  else if String.eqb name "genre" then
    set (Track.mk (Track.artist t) (Track.album t) (Track.title t)
           (Track.track t) value (Track.date t) (Track.time t)
           (Track.file t) (Track.key t) (Track.mtime t) (Track.rating t))
  else if String.eqb name "date" then
    set (Track.mk (Track.artist t) (Track.album t) (Track.title t)
           (Track.track t) (Track.genre t) value (Track.time t)
           (Track.file t) (Track.key t) (Track.mtime t) (Track.rating t))
  else if String.eqb name "time" then
    set (Track.mk (Track.artist t) (Track.album t) (Track.title t)
           (Track.track t) (Track.genre t) (Track.date t) value
           (Track.file t) (Track.key t) (Track.mtime t) (Track.rating t))
  else if String.eqb name "file" then
    set (Track.mk (Track.artist t) (Track.album t) (Track.title t)
           (Track.track t) (Track.genre t) (Track.date t) (Track.time t)
           value (Track.key t) (Track.mtime t) (Track.rating t))
  else if String.eqb name "key" then
    set (Track.mk (Track.artist t) (Track.album t) (Track.title t)
           (Track.track t) (Track.genre t) (Track.date t) (Track.time t)
           (Track.file t) value (Track.mtime t) (Track.rating t))
  else if String.eqb name "mtime" then
    set (Track.mk (Track.artist t) (Track.album t) (Track.title t)
           (Track.track t) (Track.genre t) (Track.date t) (Track.time t)
           (Track.file t) (Track.key t) value (Track.rating t))
  else if String.eqb name "rating" then
    set (Track.mk (Track.artist t) (Track.album t) (Track.title t)
           (Track.track t) (Track.genre t) (Track.date t) (Track.time t)
           (Track.file t) (Track.key t) (Track.mtime t) value)
  else mkObject t (dict_set (others o) name value).

(** The two names that an instance of a classic class refuses to set to a
    string: [__dict__] must be set to a dictionary and [__class__] to a
    class. *)
Definition setattr_refused (name : string) : bool :=
  String.eqb name "__dict__" || String.eqb name "__class__".

(** [setattr(o, name, value)], where [o] is a track or [None] and [value]
    is a string.  [None] has no attribute that can be set: the name
    [__class__] is refused for its value, any other name is not an
    attribute. *)
Definition py_setattr (o : option TrackObject) (name value : string)
  : result TrackObject :=
  match o with
  | Some t =>
      if setattr_refused name then Raise TypeError
      else Ok (setattr t name value)
  | None =>
      if String.eqb name "__class__" then Raise TypeError
      else Raise (AttributeError name)
  end.

(** ** The database parser *)

(** The variables of the loop of [parsedatabase]. *)
Record db_state : Type := mkDb {
  parsing : bool;
  track : option TrackObject;
  db_tracks : list (string * TrackObject)
}.

(** The body of the loop, for one line of the file. *)
Definition parsedatabase_line (st : db_state) (raw : string)
  : result db_state :=
  let line := str (strip (chars raw)) in
  if String.eqb line "songList begin" then
    Ok (mkDb true (track st) (db_tracks st))
  else if String.eqb line "songList end" then
    Ok (mkDb false (track st) (db_tracks st))
  else if parsing st then
    let st :=
      if startswith "key: " line then
        mkDb (parsing st) (Some Track_new)
             match track st with
             | Some t => dict_set (db_tracks st) (Track.file (attrs t)) t
             | None => db_tracks st
             end
      else st in
    match partition (chars ": ") (chars line) with
    | None => Raise ValueError
    | Some (key, value) =>
        t <- py_setattr (track st) (lower (str key)) (str value) ;;
        Ok (mkDb (parsing st) (Some t) (db_tracks st))
    end
  else Ok st.

Fixpoint parsedatabase_loop (st : db_state) (lines : list string)
  : result db_state :=
  match lines with
  | [] => Ok st
  | raw :: rest =>
      st' <- parsedatabase_line st raw ;;
      parsedatabase_loop st' rest
  end.

(** [parsedatabase], on the lines of the database file. *)
Definition parsedatabase (lines : list string)
  : result (list (string * TrackObject)) :=
  st <- parsedatabase_loop (mkDb false None []) lines ;;
  Ok (db_tracks st).

(** ** The sticker database *)

(** A row of the table [sticker]. *)
Record sticker_row : Type := mkRow {
  st_type : string;
  st_uri : string;
  st_name : string;
  st_value : string
}.

(** The rows that the query selects: those of type [song] and name
    [rating]. *)
Definition select_ratings (table : list sticker_row) : list sticker_row :=
  filter (fun row => String.eqb (st_type row) "song"
                     && String.eqb (st_name row) "rating") table.

Fixpoint parseStickerDB_loop (rows : list sticker_row)
         (tracks : list (string * TrackObject))
  : list (string * TrackObject) :=
  match rows with
  | [] => tracks
  | row :: rest =>
      let filePath := st_uri row in
      parseStickerDB_loop rest
        match lookup tracks filePath with
        | Some o => dict_set tracks filePath (setattr o "rating" (st_value row))
        | None => tracks
        end
  end.

(** [parseStickerDB], on the content of the table [sticker].  The paths of
    the rows are compared with the keys character by character, as Python
    compares them when they are ASCII text. *)
Definition parseStickerDB (table : list sticker_row)
           (tracks : list (string * TrackObject))
  : list (string * TrackObject) :=
  parseStickerDB_loop (select_ratings table) tracks.

(** ** The configuration file *)

Fixpoint camel_tokens (tokens : list (list ascii)) : list ascii :=
  match tokens with
  | [] => []
  | token :: rest => capitalize token ++ camel_tokens rest
  end.

Definition _underscoreToCamelCase (s : string) : string :=
  match split_char "_" (chars s) [] with
  | [] => ""
  | first :: tokens => str (first ++ camel_tokens tokens)
  end.

(** [re.split] of a line at its first run of whitespace, with [maxsplit] 1:
    nothing when the line has no whitespace. *)
Fixpoint split_first_space (s key : list ascii)
  : option (list ascii * list ascii) :=
  match s with
  | [] => None
  | c :: s' =>
      if is_space c then Some (rev key, drop_while is_space s')
      else split_first_space s' (c :: key)
  end.

(** [re.search] of one of the characters [#], [{] and [}]. *)
Definition has_comment_char (line : list ascii) : bool :=
  existsb (one_of ["#"; "{"; "}"]%char) line.

Definition has_tilde_slash (value : list ascii) : bool :=
  match partition (chars "~/") value with
  | Some _ => true
  | None => false
  end.

Section Config.
(** [os.path.expanduser], which reads the environment of the process. *)
Variable expanduser : string -> string.

(** The body of the loop of [parsempdconf], for one line of the file. *)
Definition parsempdconf_line (user : option string)
           (configDict : list (string * string)) (raw : string)
  : result (list (string * string)) :=
  let line := strip (chars raw) in
  match line with
  | [] => Ok configDict
  | _ :: _ =>
      if has_comment_char line then Ok configDict
      else
        match split_first_space line [] with
        | None => Raise ValueError
        | Some (key, value) =>
            let key := _underscoreToCamelCase (str key) in
            let value := unquote value in
            let value :=
              if String.eqb (str value) "~" || has_tilde_slash value then
                match user with
                | Some (String c u) =>
                    replace_char "~" (chars (String c u)) value
                | _ => chars (expanduser (str value))
                end
              else value in
            Ok (dict_set configDict key (str value))
        end
  end.

Fixpoint parsempdconf_loop (user : option string)
         (configDict : list (string * string)) (lines : list string)
  : result (list (string * string)) :=
  match lines with
  | [] => Ok configDict
  | raw :: rest =>
      configDict' <- parsempdconf_line user configDict raw ;;
      parsempdconf_loop user configDict' rest
  end.

(** [parsempdconf], on the lines of the configuration file. *)
Definition parsempdconf (lines : list string) (user : option string)
  : result (list (string * string)) :=
  parsempdconf_loop user [] lines.
End Config.

(** The first character of the text, if any, is not in the class. *)
Definition stops (p : ascii -> bool) (rest : list ascii) : Prop :=
  match rest with
  | c :: _ => p c = false
  | [] => True
  end.

Definition underscore : ascii := "_"%char.

(** What the loop keeps true of the dictionary. *)
Definition keyed_by_file (tracks : list (string * TrackObject)) : Prop :=
  NoDup (map fst tracks) /\
  forall k o, In (k, o) tracks -> Track.file (attrs o) = k.

(** A line that sets an attribute: it is not one of the two marks of a
    song list, does not start a track, has a colon and a space, and the
    name before them, in lower case, is one that a track lets one set. *)
Definition attribute_line (raw : string) : bool :=
  let line := str (strip (chars raw)) in
  negb (String.eqb line "songList begin") &&
  negb (String.eqb line "songList end") &&
  negb (startswith "key: " line) &&
  match partition (chars ": ") (chars line) with
  | Some (key, _) => negb (setattr_refused (lower (str key)))
  | None => false
  end.

(** The longest prefix of the text whose characters are in the class. *)
Fixpoint take_while (p : ascii -> bool) (l : list ascii) : list ascii :=
  match l with
  | c :: l' => if p c then c :: take_while p l' else []
  | [] => []
  end.

(** * Properties *)

(** ** Text *)

Lemma str_chars (s : string) : str (chars s) = s.
Proof. apply string_of_list_ascii_of_string. Qed.

Lemma chars_str (l : list ascii) : chars (str l) = l.
Proof. apply list_ascii_of_string_of_list_ascii. Qed.

Lemma str_app (a b : list ascii) : str (a ++ b) = (str a ++ str b)%string.
Proof.
  induction a as [|c a IH]; simpl; [reflexivity|].
  now rewrite <- IH.
Qed.

Lemma chars_app (a b : string) : chars (a ++ b)%string = (chars a ++ chars b)%list.
Proof.
  unfold chars. induction a as [|c a IH]; simpl; [reflexivity|].
  now rewrite IH.
Qed.

Lemma chars_inj (a b : string) : chars a = chars b -> a = b.
Proof.
  intros H. rewrite <- (str_chars a), <- (str_chars b). now rewrite H.
Qed.

Lemma consumed_app (run rest : list ascii) : consumed (run ++ rest) rest = run.
Proof.
  unfold consumed. rewrite length_app.
  replace (length run + length rest - length rest)%nat with (length run) by lia.
  rewrite firstn_app, Nat.sub_diag, firstn_all. simpl. apply app_nil_r.
Qed.

Lemma consumed_cons (c : ascii) (rest : list ascii) :
  consumed (c :: rest) rest = [c].
Proof. apply (consumed_app [c] rest). Qed.

Lemma strip_prefix_one (c : ascii) (s : list ascii) :
  strip_prefix [c] s =
  match s with
  | b :: s' => if Ascii.eqb c b then Some s' else None
  | [] => None
  end.
Proof. destruct s; reflexivity. Qed.

(** ** The pattern engine *)

Section StarFacts.
Context {A : Type}.
Variable p : ascii -> bool.
Variable k : list ascii -> option A.

(** When a greedy repetition fails, the continuation fails after every
    run it could have taken. *)
Lemma star_none (s : list ascii) :
  star p s k = None ->
  forall run rest, s = (run ++ rest)%list -> forallb p run = true ->
                   k rest = None.
Proof.
  induction s as [|c s IH]; simpl; intros H run rest E Hrun.
  - destruct run; [simpl in E; now subst|discriminate].
  - destruct run as [|c' run]; simpl in E.
    + subst rest. destruct (p c); [|exact H].
      destruct (star p s k); [discriminate|exact H].
    + injection E as Ec Es. subst c'. simpl in Hrun.
      apply andb_prop in Hrun as [Hc Hrun]. rewrite Hc in H.
      destruct (star p s k) eqn:Hs; [discriminate|].
      now apply (IH eq_refl run rest).
Qed.

(** When it succeeds, it took some run, the continuation succeeded after
    it, and failed after every longer run. *)
Lemma star_some (s : list ascii) (x : A) :
  star p s k = Some x ->
  exists run rest,
    s = (run ++ rest)%list /\ forallb p run = true /\ k rest = Some x /\
    forall more rest', more <> [] -> rest = (more ++ rest')%list ->
                       forallb p more = true -> k rest' = None.
Proof.
  induction s as [|c s IH]; simpl; intros H.
  - exists [], []. repeat split; auto.
    intros more rest' Hne E. destruct more; [congruence|discriminate].
  - destruct (p c) eqn:Hc.
    + destruct (star p s k) eqn:Hs.
      * injection H as ->. destruct (IH eq_refl) as (run & rest & E & Hr & Hk & Hmax).
        exists (c :: run), rest. subst s. simpl. rewrite Hc.
        repeat split; auto.
      * exists [], (c :: s). repeat split; auto.
        intros more rest' Hne E Hm.
        destruct more as [|c' more]; [congruence|].
        simpl in E. injection E as <- E. simpl in Hm.
        apply andb_prop in Hm as [_ Hm].
        now apply (star_none s Hs more rest').
    + exists [], (c :: s). repeat split; auto.
      intros more rest' Hne E Hm.
      destruct more as [|c' more]; [congruence|].
      simpl in E. injection E as <- E. simpl in Hm.
      rewrite Hc in Hm. discriminate.
Qed.
End StarFacts.

Lemma consumed_cons_app (c : ascii) (run rest : list ascii) :
  consumed (c :: run ++ rest) rest = c :: run.
Proof. apply (consumed_app (c :: run) rest). Qed.

(** The shape of a segment that the rule pattern matches, and what each
    group holds. *)
Lemma rule_regex_inv (s : string) (m : Match) :
  re_match RULE_REGEX s = Some m ->
  exists k o d v fl rest,
    chars s = (k ++ o :: d :: v ++ d :: fl ++ rest)%list /\
    k <> [] /\ forallb is_word k = true /\
    is_dot o = true /\ one_of DELIMITERS d = true /\
    v <> [] /\ forallb is_dot v = true /\
    forallb is_word fl = true /\
    (forall pre post, (fl ++ rest)%list = (pre ++ d :: post)%list ->
                      forallb is_dot pre = false) /\
    m_group m 1 = Some (str k) /\
    m_group m 2 = Some (String o "") /\
    m_group m 3 = Some (String d "") /\
    m_group m 4 = Some (str v) /\
    m_group m 5 = match fl with [] => None | _ :: _ => Some (str fl) end /\
    m_rest m = rest.
Proof.
  unfold re_match, RULE_REGEX, Plus. cbn [rmatch].
  destruct (chars s) as [|c1 s1] eqn:Es; [discriminate|].
  destruct (is_word c1) eqn:Hc1; [|discriminate].
  intros H. apply star_some in H as (k & r1 & E1 & Hk & H & _).
  destruct r1 as [|o r2]; [discriminate|].
  destruct (is_dot o) eqn:Ho; [|discriminate].
  destruct r2 as [|d r3]; [discriminate|].
  destruct (one_of DELIMITERS d) eqn:Hd; [|discriminate].
  destruct r3 as [|c4 r4]; [discriminate|].
  destruct (is_dot c4) eqn:Hc4; [|discriminate].
  apply star_some in H as (v & r5 & E4 & Hv & H & Hmax).
  cbn [group Nat.eqb] in H, Hmax.
  rewrite consumed_cons in H, Hmax. rewrite strip_prefix_one in H.
  destruct r5 as [|d' r6]; [discriminate|].
  destruct (Ascii.eqb d d') eqn:Hdd; [|discriminate].
  apply Ascii.eqb_eq in Hdd. subst d'.
  assert (Hlast : forall pre post, r6 = (pre ++ d :: post)%list ->
                                   forallb is_dot pre = false).
  { intros pre post E. destruct (forallb is_dot pre) eqn:Hpre; [|reflexivity].
    exfalso.
    assert (Hdot : is_dot d = true).
    { unfold one_of, DELIMITERS in Hd. simpl in Hd.
      repeat (apply orb_prop in Hd as [Hd|Hd]);
        try discriminate; apply Ascii.eqb_eq in Hd; subst d; reflexivity. }
    specialize (Hmax (d :: pre) (d :: post)).
    rewrite strip_prefix_one, Ascii.eqb_refl in Hmax.
    assert (Hn : d :: pre <> []) by discriminate.
    specialize (Hmax Hn). simpl in Hmax. rewrite E, Hdot, Hpre in Hmax.
    specialize (Hmax eq_refl eq_refl).
    destruct post as [|c post]; [discriminate|].
    destruct (is_word c); [|discriminate].
    destruct (star is_word post _); discriminate. }
  subst r4 s1.
  assert (G1 : consumed (c1 :: k ++ o :: d :: c4 :: v ++ d :: r6)
                        (o :: d :: c4 :: v ++ d :: r6) = c1 :: k)
    by apply consumed_cons_app.
  assert (G4 : consumed (c4 :: v ++ d :: r6) (d :: r6) = c4 :: v)
    by apply consumed_cons_app.
  rewrite G1, G4, !consumed_cons in H.
  destruct r6 as [|c6 r7].
  - injection H as <-.
    exists (c1 :: k), o, d, (c4 :: v), [], [].
    simpl. rewrite Hc1, Hc4. repeat split; eauto; try discriminate.
  - destruct (is_word c6) eqn:Hc6.
    + destruct (star is_word r7 _) eqn:Hs;
        [|now apply star_none with (run := []) (rest := r7) in Hs].
      injection H as <-.
      apply star_some in Hs as (fl & rest & E7 & Hfl & Hs & _).
      injection Hs as <-.
      exists (c1 :: k), o, d, (c4 :: v), (c6 :: fl), rest.
      subst r7. rewrite consumed_cons_app.
      simpl. rewrite Hc1, Hc4, Hc6. repeat split; eauto; try discriminate.
    + injection H as <-.
      exists (c1 :: k), o, d, (c4 :: v), [], (c6 :: r7).
      simpl. rewrite Hc1, Hc4. repeat split; eauto; try discriminate.
Qed.

(** The shape of a value that the duration pattern matches, with the word
    taken whole. *)
Lemma time_delta_regex_whole (v : string) (m : Match) :
  re_match TIME_DELTA_REGEX v = Some m ->
  exists ds ws us rest,
    chars v = (ds ++ ws ++ us ++ rest)%list /\
    ds <> [] /\ forallb is_digit ds = true /\
    forallb is_space ws = true /\
    us <> [] /\ forallb is_word us = true /\
    stops is_word rest /\
    m_group m 1 = Some (str ds) /\
    m_group m 2 = Some (str us).
Proof.
  unfold re_match, TIME_DELTA_REGEX, Plus. cbn [rmatch].
  destruct (chars v) as [|c1 s1] eqn:Es; [discriminate|].
  destruct (is_digit c1) eqn:Hc1; [|discriminate].
  intros H. apply star_some in H as (ds & r1 & E1 & Hds & H & _).
  apply star_some in H as (ws & r2 & E2 & Hws & H & _).
  destruct r2 as [|c3 r3]; [discriminate|].
  destruct (is_word c3) eqn:Hc3; [|discriminate].
  apply star_some in H as (us & rest & E3 & Hus & H & Hmax).
  injection H as <-. subst r3 r1 s1.
  exists (c1 :: ds), ws, (c3 :: us), rest.
  rewrite consumed_cons_app.
  assert (G : consumed (c1 :: ds ++ ws ++ c3 :: us ++ rest)
                       (ws ++ c3 :: us ++ rest) = c1 :: ds)
    by apply consumed_cons_app.
  assert (S : stops is_word rest).
  { destruct rest as [|c rest]; [exact I|]. cbn [stops].
    destruct (is_word c) eqn:Hc; [|reflexivity].
    specialize (Hmax [c] rest ltac:(discriminate) eq_refl).
    cbn [forallb] in Hmax. rewrite Hc in Hmax.
    specialize (Hmax eq_refl). discriminate. }
  unfold m_group. simpl. rewrite Hc1, Hc3, G. simpl.
  repeat split; auto; discriminate.
Qed.

(** The shape of a value that the duration pattern matches. *)
Lemma time_delta_regex_inv (v : string) (m : Match) :
  re_match TIME_DELTA_REGEX v = Some m ->
  exists ds ws us rest,
    chars v = (ds ++ ws ++ us ++ rest)%list /\
    ds <> [] /\ forallb is_digit ds = true /\
    forallb is_space ws = true /\
    us <> [] /\ forallb is_word us = true /\
    m_group m 1 = Some (str ds) /\
    m_group m 2 = Some (str us).
Proof.
  intros H. apply time_delta_regex_whole in H
    as (ds & ws & us & rest & E & H1 & H2 & H3 & H4 & H5 & _ & G1 & G2).
  exists ds, ws, us, rest. repeat split; assumption.
Qed.

Lemma digits_value_nonneg (l : list ascii) :
  forall acc n, digits_value l acc = Some n -> 0 <= acc -> 0 <= n.
Proof.
  induction l as [|c l IH]; cbn [digits_value]; intros acc n H Hacc.
  - injection H as <-. exact Hacc.
  - destruct (is_digit c) eqn:Hc; [|discriminate].
    apply (IH _ _ H). unfold digit_value.
    unfold is_digit, between in Hc. apply andb_prop in Hc as [Hlo _].
    apply Nat.leb_le in Hlo. lia.
Qed.

Lemma digit_not_space (c : ascii) : is_digit c = true -> is_space c = false.
Proof.
  destruct c as [[] [] [] [] [] [] [] []]; vm_compute; intros H;
    first [reflexivity | discriminate H].
Qed.

Lemma space_not_digit (c : ascii) : is_space c = true -> is_digit c = false.
Proof.
  intros H. destruct (is_digit c) eqn:E; [|reflexivity].
  apply digit_not_space in E. congruence.
Qed.

Lemma word_not_space (c : ascii) : is_word c = true -> is_space c = false.
Proof.
  destruct c as [[] [] [] [] [] [] [] []]; vm_compute; intros H;
    first [reflexivity | discriminate H].
Qed.

Lemma digit_lower_char (c : ascii) : is_digit c = true -> lower_char c = c.
Proof.
  destruct c as [[] [] [] [] [] [] [] []]; vm_compute; intros H;
    first [reflexivity | discriminate H].
Qed.

Lemma take_while_app (p : ascii -> bool) (a b : list ascii) :
  forallb p a = true -> stops p b -> take_while p (a ++ b) = a.
Proof.
  intros Ha Hb. induction a as [|c a IH]; cbn [app].
  - destruct b as [|c b]; [reflexivity|]. cbn [stops] in Hb.
    cbn [take_while]. now rewrite Hb.
  - cbn [forallb] in Ha. apply andb_prop in Ha as [Hc Ha].
    cbn [take_while]. now rewrite Hc, (IH Ha).
Qed.

Lemma drop_while_app (p : ascii -> bool) (a b : list ascii) :
  forallb p a = true -> stops p b -> drop_while p (a ++ b) = b.
Proof.
  intros Ha Hb. induction a as [|c a IH]; cbn [app].
  - destruct b as [|c b]; [reflexivity|]. cbn [stops] in Hb.
    cbn [drop_while]. now rewrite Hb.
  - cbn [forallb] in Ha. apply andb_prop in Ha as [Hc Ha].
    cbn [drop_while]. now rewrite Hc, (IH Ha).
Qed.

Lemma drop_while_head (p : ascii -> bool) (c : ascii) (l : list ascii) :
  p c = false -> drop_while p (c :: l) = c :: l.
Proof. intros H. simpl. now rewrite H. Qed.

Lemma strip_digits (l : list ascii) :
  forallb is_digit l = true -> strip l = l.
Proof.
  intros H. unfold strip.
  assert (D : forall l', forallb is_digit l' = true -> drop_while is_space l' = l').
  { intros [|c l'] Hl; [reflexivity|]. simpl in Hl.
    apply andb_prop in Hl as [Hc _].
    apply drop_while_head. now apply digit_not_space. }
  rewrite (D l H), D, rev_involutive; [reflexivity|].
  rewrite forallb_forall in *. intros x Hx. apply H. now apply in_rev.
Qed.

(** [int] of a run of digits is a number that is not negative. *)
Lemma py_int_digits (ds : list ascii) :
  ds <> [] -> forallb is_digit ds = true ->
  exists n, py_int (str ds) = Ok n /\ 0 <= n /\ digits_value ds 0 = Some n.
Proof.
  intros Hne Hds. unfold py_int. rewrite chars_str, strip_digits by exact Hds.
  destruct ds as [|c ds]; [congruence|].
  assert (Hv : exists n, digits_value (c :: ds) 0 = Some n).
  { generalize 0. revert Hds. generalize (c :: ds). clear.
    induction l as [|a l IH]; cbn [digits_value forallb]; intros H acc; [eauto|].
    apply andb_prop in H as [Ha Hl]. rewrite Ha. now apply IH. }
  destruct Hv as [n Hn].
  assert (Hu : unsigned_literal (c :: ds) = Ok n).
  { unfold unsigned_literal. now rewrite Hn. }
  assert (Hc : is_digit c = true) by (simpl in Hds; now apply andb_prop in Hds).
  exists n. split; [|split; [apply (digits_value_nonneg _ _ _ Hn); lia|exact Hn]].
  destruct (Ascii.eqb c "-") eqn:E1; [apply Ascii.eqb_eq in E1; subst c; discriminate|].
  destruct (Ascii.eqb c "+") eqn:E2; [apply Ascii.eqb_eq in E2; subst c; discriminate|].
  destruct c as [[] [] [] [] [] [] [] []]; try discriminate; exact Hu.
Qed.

(** ** Durations *)

Lemma timedelta_keyword_positive (unit : string) (us : Z) :
  lookup TIMEDELTA_KEYWORDS unit = Some us -> 0 < us.
Proof.
  unfold TIMEDELTA_KEYWORDS. cbn [lookup].
  repeat (destruct (String.eqb unit _);
          [intros H; injection H as <-; reflexivity|]).
  discriminate.
Qed.

(** A unit that [timedelta] accepts does not start with a digit. *)
Lemma timedelta_keyword_letter (c : ascii) (w : list ascii) (us : Z) :
  lookup TIMEDELTA_KEYWORDS
         (let u := lower (str (c :: w)) in
          if endswith_s u then u else (u ++ "s")%string) = Some us ->
  is_digit c = false.
Proof.
  intros H. destruct (is_digit c) eqn:Hc; [exfalso|reflexivity].
  assert (E : exists tail,
             (let u := lower (str (c :: w)) in
              if endswith_s u then u else (u ++ "s")%string)
             = String c tail).
  { cbv zeta. unfold lower. rewrite chars_str. cbn [map str string_of_list_ascii].
    rewrite (digit_lower_char c Hc).
    destruct (endswith_s _); eexists; reflexivity. }
  destruct E as [tail E]. rewrite E in H. clear E.
  unfold TIMEDELTA_KEYWORDS in H. cbn [lookup] in H.
  repeat match type of H with
         | (if String.eqb ?a ?b then _ else _) = _ =>
             let Q := fresh "Q" in
             destruct (String.eqb a b) eqn:Q;
             [apply String.eqb_eq in Q; injection Q as -> _;
              discriminate Hc|]
         end.
  discriminate.
Qed.

Lemma timedelta_kw_seconds (unit : string) (n : Z) (td : timedelta) :
  timedelta_kw unit n = Ok td -> 0 <= n ->
  exists us,
    lookup TIMEDELTA_KEYWORDS unit = Some us /\
    total_seconds td = n * us / 1000000 /\
    seconds td = total_seconds td mod 86400 /\
    0 <= seconds td < 86400.
Proof.
  unfold timedelta_kw. intros H Hn.
  destruct (lookup TIMEDELTA_KEYWORDS unit) as [us|] eqn:Hus; [|discriminate].
  pose proof (timedelta_keyword_positive _ _ Hus) as Hpos.
  destruct (Z.abs (n * us / 86400000000) >? 999999999); [discriminate|].
  injection H as <-. exists us. split; [reflexivity|].
  unfold total_seconds. cbn [days seconds].
  set (T := n * us).
  pose proof (Z.div_mod T 86400000000 ltac:(lia)) as HT.
  pose proof (Z.mod_pos_bound T 86400000000 ltac:(lia)) as HR.
  set (D := T / 86400000000) in *. set (R := T mod 86400000000) in *.
  assert (HRs : 0 <= R / 1000000 < 86400).
  { split; [apply Z.div_pos; lia|apply Z.div_lt_upper_bound; lia]. }
  assert (HTs : T / 1000000 = D * 86400 + R / 1000000).
  { rewrite HT. replace (86400000000 * D + R) with (D * 86400 * 1000000 + R) by lia.
    rewrite Z.div_add_l by lia. reflexivity. }
  split; [symmetry; exact HTs|]. split; [|exact HRs].
  rewrite Z.add_comm, Z.mod_add by lia. symmetry. apply Z.mod_small. exact HRs.
Qed.

(** C1: the threshold of a relative-time-span rule is the [seconds]
    component of its duration, that is the total span in whole seconds
    modulo one day, and not the total span.  The duration is built from
    the whole run of digits that starts the value and from the whole word
    after the white space that follows it; the value [3days] gives the
    threshold 0 although the span is 259200 seconds. *)
Theorem C1_threshold_is_subday_seconds :
  (forall k o d v f r,
     TimeDeltaRule_init k o d v f = Ok r ->
     let ds := take_while is_digit (chars v) in
     let w := take_while is_word
                (drop_while is_space (drop_while is_digit (chars v))) in
     exists self number unit td us,
       r = TimeDeltaRule self number unit td /\
       ds <> [] /\ w <> [] /\
       digits_value ds 0 = Some number /\
       unit = (let u := lower (str w) in
               if endswith_s u then u else (u ++ "s")%string) /\
       timedelta_kw unit number = Ok td /\
       lookup TIMEDELTA_KEYWORDS unit = Some us /\
       total_seconds td = number * us / 1000000 /\
       value self = seconds td /\
       value self = (number * us / 1000000) mod 86400 /\
       0 <= value self < 86400) /\
  (forall k o d f,
     exists self td,
       TimeDeltaRule_init k o d "3days" f
       = Ok (TimeDeltaRule self 3 "days" td) /\
       value self = 0 /\ total_seconds td = 259200).
Proof.
  split.
  - intros k o d v f r. unfold TimeDeltaRule_init. cbn [value AbstractRule_init].
    destruct (re_match TIME_DELTA_REGEX v) as [m|] eqn:Hm; [|discriminate].
    apply time_delta_regex_whole in Hm
      as (ds & ws & w & rest & Ev & Hne & Hds & Hws & Hwne & Hw & Hstop & G1 & G2).
    rewrite G1, G2. cbn [required bind].
    destruct (py_int_digits ds Hne Hds) as (n & Hn & Hpos & Hdv).
    rewrite Hn. cbn [bind].
    set (unit := if endswith_s (lower (str w)) then _ else _).
    destruct (timedelta_kw unit n) as [td|] eqn:Htd; [|discriminate].
    cbn [bind]. intros H. injection H as <-.
    destruct (timedelta_kw_seconds _ _ _ Htd Hpos) as (us & Hus & Ht & Hs & Hb).
    destruct w as [|cw w]; [congruence|].
    pose proof (timedelta_keyword_letter cw w us Hus) as Hcw.
    assert (Hcw' : is_word cw = true)
      by (cbn [forallb] in Hw; now apply andb_prop in Hw).
    assert (S1 : stops is_digit (ws ++ (cw :: w) ++ rest)).
    { destruct ws as [|c ws]; cbn [app stops]; [exact Hcw|].
      cbn [forallb] in Hws. apply andb_prop in Hws as [Hc _].
      now apply space_not_digit. }
    assert (S2 : stops is_space ((cw :: w) ++ rest)).
    { cbn [app stops]. now apply word_not_space. }
    cbv zeta. rewrite Ev.
    rewrite (take_while_app _ _ _ Hds S1), (drop_while_app _ _ _ Hds S1).
    rewrite (drop_while_app _ _ _ Hws S2), (take_while_app _ _ _ Hw Hstop).
    eexists _, n, unit, td, us.
    cbn [value set_value].
    split; [reflexivity|]. split; [exact Hne|]. split; [discriminate|].
    split; [exact Hdv|]. split; [reflexivity|]. split; [exact Htd|].
    split; [exact Hus|]. split; [exact Ht|]. split; [reflexivity|].
    split; [now rewrite <- Ht|exact Hb].
  - intros k o d f. eexists _, _. split; [vm_compute; reflexivity|].
    split; reflexivity.
Qed.

Lemma C1_witness :
  exists r,
    TimeDeltaRule_init "mt" "<" "%" "36 Hour" (Some "n") = Ok r /\
    exists self td,
      r = TimeDeltaRule self 36 "hours" td /\
      total_seconds td = 129600 /\
      value self = 43200.
Proof.
  eexists. split; [vm_compute; reflexivity|].
  destruct (proj1 C1_threshold_is_subday_seconds
              "mt" "<" "%" "36 Hour" (Some "n") _ eq_refl)
    as (self & number & unit & td & us & Hr & _ & _ & Hn & Hu & _ & Hus & Ht & _ & Hv & _).
  vm_compute in Hn. injection Hn as <-.
  vm_compute in Hu. subst unit.
  vm_compute in Hus. injection Hus as <-.
  exists self, td. split; [exact Hr|]. split; [exact Ht|exact Hv].
Defined.

(** ** Playlists *)

Section PlaylistFacts.
Variable tz : Z.
Variable re_search : string -> string -> Z -> result bool.

Lemma split_plus_nonempty (p : ascii -> bool) (s : list ascii) :
  forall cur in_sep, split_plus p s cur in_sep <> [].
Proof.
  induction s as [|c s IH]; simpl; intros cur in_sep; [discriminate|].
  destruct (p c); [destruct in_sep|]; try apply IH; discriminate.
Qed.

Lemma split_plus_all (p : ascii -> bool) (s : list ascii) :
  forallb p s = true ->
  forall in_sep, exists rest, split_plus p s [] in_sep = [] :: rest.
Proof.
  induction s as [|c s IH]; simpl; intros H in_sep; [eauto|].
  apply andb_prop in H as [Hc Hs]. rewrite Hc.
  destruct in_sep; [apply (IH Hs)|eauto].
Qed.

Lemma getRules_length (segments : list string) (rs : list Rule) :
  getRules tz segments = Ok rs -> length rs = length segments.
Proof.
  revert rs. induction segments as [|r segments IH]; simpl; intros rs H.
  - now injection H as <-.
  - destruct (getRule tz r); [|discriminate]. simpl in H.
    destruct (getRules tz segments) as [rs'|]; [|discriminate].
    simpl in H. injection H as <-. simpl. now rewrite (IH rs').
Qed.

Lemma matching_no_rules (values : list Track.t) :
  matching tz re_search [] values = Ok values.
Proof.
  induction values as [|t values IH]; simpl; [reflexivity|].
  now rewrite IH.
Qed.
End PlaylistFacts.

(** C6: a playlist without rules matches every record of the record set,
    in the order of the record set, whatever tracks it held before. *)
Theorem C6_no_rules_match_all :
  forall tz re_search (self : Playlist) (records : list (string * Track.t)),
    rules self = [] ->
    exists self',
      findMatchingTracks tz re_search self records = Ok self' /\
      tracks self' = map snd records /\
      (forall t, In t (map snd records) -> In t (tracks self')).
Proof.
  intros tz re_search self records Hr. unfold findMatchingTracks.
  cbn [rules name m3u]. rewrite Hr, matching_no_rules. cbn [bind].
  eexists. split; [reflexivity|]. unfold setM3u. cbn [tracks]. auto.
Qed.

Lemma C6_witness :
  let a := Track.mk "Fred" "" "The Band and Me" "" "" "" "" "a.mp3" "" "" "" in
  let b := Track.mk "George" "" "Nothing" "" "" "" "" "b.mp3" "" "" "" in
  let old := mkPlaylist "all" [] [b; b] (Some "stale") in
  let records := [("a.mp3", a); ("b.mp3", b)] in
  rules old = [] /\
  exists self',
    findMatchingTracks 3600 literal_search old records = Ok self' /\
    tracks self' = map snd records /\
    (forall t, In t (map snd records) -> In t (tracks self')).
Proof.
  intros a b old records. split; [reflexivity|].
  apply (C6_no_rules_match_all 3600 literal_search old records). reflexivity.
Defined.

(** [join] is the concatenation with a separator of the library. *)
Lemma join_concat (sep : string) (l : list string) :
  join sep l = String.concat sep l.
Proof.
  induction l as [|x l IH]; [reflexivity|].
  destruct l as [|y l]; [reflexivity|].
  cbn [join String.concat] in *. now rewrite IH.
Qed.

Lemma string_app_assoc (a b c : string) : ((a ++ b) ++ c = a ++ b ++ c)%string.
Proof. induction a as [|x a IH]; cbn; [reflexivity|now rewrite IH]. Qed.

(** The joined lines with the newline at the end are the lines, each
    one ended by a newline, when there is one line at least. *)
Lemma join_lines (l : list string) :
  l <> [] ->
  (join (String newline "") l ++ String newline "")%string
  = fold_right (fun x text => x ++ String newline text)%string "" l.
Proof.
  induction l as [|x l IH]; [congruence|]. intros _.
  destruct l as [|y l]; [reflexivity|].
  cbn [join fold_right] in *. rewrite string_app_assoc.
  rewrite <- IH by discriminate. 
  rewrite string_app_assoc. reflexivity.
Qed.

(** C8: after an evaluation the rendered text is the file paths of the
    matched tracks joined by newlines, followed by one newline: with one
    matched track at least it is each file path followed by a newline, in
    the order of the tracks, and for no matched track it is a single
    newline. *)
Theorem C8_rendering :
  forall tz re_search (self self' : Playlist) (records : list (string * Track.t)),
    findMatchingTracks tz re_search self records = Ok self' ->
    m3u self' = Some (String.concat (String newline "")
                        (map Track.file (tracks self'))
                      ++ String newline "")%string /\
    (tracks self' <> [] ->
     m3u self' = Some (fold_right
                         (fun t text => Track.file t ++ String newline text)%string
                         "" (tracks self'))) /\
    (tracks self' = [] -> m3u self' = Some (String newline "")).
Proof.
  intros tz re_search self self' records. unfold findMatchingTracks.
  destruct (matching _ _ _ _) as [found|]; [|discriminate].
  cbn [bind]. intros H. injection H as <-. unfold setM3u. cbn [m3u tracks].
  split; [now rewrite join_concat|]. split.
  - intros Hne. rewrite join_lines.
    + f_equal. clear. induction found as [|t found IH]; cbn [map fold_right];
        [reflexivity|now rewrite IH].
    + destruct found; [congruence|discriminate].
  - intros ->. reflexivity.
Qed.

Lemma C8_witness :
  let a := Track.mk "Fred" "" "The Band and Me" "" "" "" "" "a.mp3" "" "" "" in
  let b := Track.mk "George" "" "Nothing" "" "" "" "" "b.mp3" "" "" "" in
  let c := Track.mk "Anna" "" "Nothing" "" "" "" "" "c.mp3" "" "" "" in
  let records := [("a.mp3", a); ("c.mp3", c); ("b.mp3", b)] in
  exists self self',
    Playlist_init 3600 "e" "ar=/e/" = Ok self /\
    findMatchingTracks 3600 literal_search self records = Ok self' /\
    tracks self' = [a; b] /\
    m3u self' = Some ("a.mp3" ++ String newline ("b.mp3" ++ String newline ""))%string.
Proof.
  intros a b c records. eexists _, _.
  split; [vm_compute; reflexivity|].
  assert (H : findMatchingTracks 3600 literal_search
                (mkPlaylist "e"
                   [RegexRule (mkAbstractRule "ar" "=" "/" "e" [] false) 0]
                   [] None) records
              = Ok (mkPlaylist "e"
                   [RegexRule (mkAbstractRule "ar" "=" "/" "e" [] false) 0]
                   [a; b] (Some ("a.mp3" ++ String newline ("b.mp3" ++ String newline ""))%string))).
  { vm_compute. reflexivity. }
  split; [exact H|]. split; [reflexivity|].
  exact (proj1 (proj2 (C8_rendering 3600 literal_search _ _ records H))
           ltac:(discriminate)).
Defined.

(** C10: a rule string that is empty or all whitespace makes the playlist
    constructor raise, its first segment being the empty string, which the
    rule grammar refuses; and a playlist that the constructor returns has
    at least one rule. *)
Theorem C10_no_playlist_without_rules :
  forall tz (name ruleString : string),
    (forallb is_space (chars ruleString) = true ->
     Playlist_init tz name ruleString
     = Raise (Exception "Could not parse rule ''")) /\
    (forall self, Playlist_init tz name ruleString = Ok self ->
                  rules self <> []).
Proof.
  intros tz name ruleString. unfold Playlist_init, REGEX_split. split.
  - intros H. destruct (split_plus_all is_space _ H false) as [rest ->].
    reflexivity.
  - intros self H.
    destruct (getRules tz _) as [rs|] eqn:Hrs; [|discriminate].
    cbn [bind] in H. injection H as <-. cbn [rules].
    apply getRules_length in Hrs. rewrite length_map in Hrs.
    pose proof (split_plus_nonempty is_space (chars ruleString) [] false) as Hne.
    destruct (split_plus _ _ _ _); [congruence|].
    destruct rs; [discriminate|discriminate].
Qed.

Lemma C10_witness :
  forallb is_space (chars "  ") = true /\
  Playlist_init 3600 "none" "  " = Raise (Exception "Could not parse rule ''") /\
  exists self,
    Playlist_init 3600 "week" "mt<%7days%" = Ok self /\ rules self <> [].
Proof.
  split; [reflexivity|]. split.
  - apply (proj1 (C10_no_playlist_without_rules 3600 "none" "  ")). reflexivity.
  - eexists. split; [vm_compute; reflexivity|].
    apply (proj2 (C10_no_playlist_without_rules 3600 "week" "mt<%7days%")).
    vm_compute. reflexivity.
Defined.

(** ** Matching *)

(** Every attribute named in the registry is an attribute of a track. *)
Lemma keyword_attribute (k : string) (kw : string * string) (t : Track.t) :
  lookup KEYWORDS k = Some kw ->
  exists v, Track.getattr t (lower (fst kw)) = Ok v.
Proof.
  unfold KEYWORDS. cbn [lookup].
  repeat (destruct (String.eqb k _);
          [intros H; injection H as <-; eexists; reflexivity|]).
  discriminate.
Qed.

Lemma not_in_flags (fl : list ascii) :
  existsb (Ascii.eqb "n") fl = true ->
  exists e, RegexRule_reFlags fl 0 = Raise e.
Proof.
  generalize 0.
  induction fl as [|c fl IH]; cbn [existsb RegexRule_reFlags]; intros acc H;
    [discriminate|].
  unfold getitem, RegexRule_FLAGS. cbn [lookup].
  destruct (String.eqb (String c "") "i") eqn:Ei.
  - apply String.eqb_eq in Ei. injection Ei as ->. cbn [bind].
    simpl in H. now apply IH.
  - destruct (String.eqb (String c "") "l") eqn:El; [|cbn [bind]; eauto].
    apply String.eqb_eq in El. injection El as ->. cbn [bind].
    simpl in H. now apply IH.
Qed.

(** A Pattern rule whose flags contain [n] cannot be constructed. *)
Lemma pattern_rule_refuses_n (k o d v f : string) :
  existsb (Ascii.eqb "n") (chars f) = true ->
  exists e, RegexRule_init k o d v (Some f) = Raise e.
Proof.
  intros H. unfold RegexRule_init. cbn [flags AbstractRule_init].
  destruct (not_in_flags _ H) as [e ->]. cbn [bind]. eauto.
Qed.

(** The sibling classes accept [n]: on a relative-time-span rule the flag
    inverts the result. *)
Lemma time_delta_negation (tz : Z)
      (re_search : string -> string -> Z -> result bool)
      (k o d v : string) (r : Rule) (t : Track.t) (b : bool) :
  TimeDeltaRule_init k o d v None = Ok r ->
  Rule_match tz re_search r t = Ok b ->
  exists r', TimeDeltaRule_init k o d v (Some "n") = Ok r' /\
             Rule_match tz re_search r' t = Ok (negb b).
Proof.
  unfold TimeDeltaRule_init. cbn [value AbstractRule_init].
  destruct (re_match TIME_DELTA_REGEX v) as [m|]; [|discriminate].
  destruct (required (m_group m 1)) as [ns|]; [|discriminate]. cbn [bind].
  destruct (required (m_group m 2)) as [us|]; [|discriminate]. cbn [bind].
  destruct (py_int ns) as [n|]; [|discriminate]. cbn [bind].
  destruct (timedelta_kw _ n) as [td|]; [|discriminate]. cbn [bind].
  intros H. injection H as <-. intros H.
  eexists. split; [reflexivity|]. revert H.
  unfold Rule_match. cbn [Rule__match__]. unfold TimeDeltaRule_match.
  cbn [rule_key rule_negate set_value key negate operator
       value AbstractRule_init].
  change (existsb (Ascii.eqb "n") []) with false.
  change (existsb (Ascii.eqb "n") (chars "n")) with true.
  destruct (getitem KEYWORDS k); [|discriminate]. cbn [bind].
  destruct (Track.getattr t _); [|discriminate]. cbn [bind].
  destruct (getitem TIME_OPERATORS o); [|cbn [bind]; discriminate].
  cbn [bind].
  destruct (py_int a0); [|cbn [bind]; discriminate]. cbn [bind].
  intros H. now injection H as <-.
Qed.

(** C3: the flag [n] is not in the flag table of the Pattern rule, whose
    constructor looks up every flag there: the segment [ar=/foo/] compiles
    and the same segment with [n] appended raises [KeyError], so there is
    no negated Pattern rule whose result could be compared. *)
Theorem C3_pattern_rule_refuses_negation :
  (exists r, getRule 0 "ar=/foo/" = Ok r) /\
  getRule 0 "ar=/foo/n" = Raise (KeyError "n").
Proof.
  split; [eexists; vm_compute; reflexivity|vm_compute; reflexivity].
Qed.

Lemma C4_counterexample :
  getRule 0 "ar</foo/"
  = Ok (RegexRule (mkAbstractRule "ar" "<" "/" "foo" [] false) 0).
Proof. vm_compute. reflexivity. Qed.

(** C4 (amended): [=] is the only operator in the table of the Pattern
    rule, but the constructor does not look at the operator: a Pattern rule
    constructs with one operator exactly when it does with any other, and a
    Pattern rule with another operator than [=], whatever its field code in
    the registry, raises [KeyError] when it is matched against a track. *)
Theorem C4_operator_looked_up_when_matching :
  (forall k o o' d v f r,
     RegexRule_init k o d v f = Ok r ->
     rule_operator r = o /\
     exists r', RegexRule_init k o' d v f = Ok r' /\ rule_operator r' = o') /\
  (forall tz re_search self reFlags kw track,
     operator self <> "=" ->
     lookup KEYWORDS (key self) = Some kw ->
     Rule_match tz re_search (RegexRule self reFlags) track
     = Raise (KeyError (operator self))).
Proof.
  split.
  - intros k o o' d v f r. unfold RegexRule_init.
    cbn [flags AbstractRule_init].
    destruct (RegexRule_reFlags _ 0) as [fl|]; [|discriminate]. cbn [bind].
    intros H. injection H as <-. split; [reflexivity|].
    eexists. split; reflexivity.
  - intros tz re_search self reFlags kw track Hop Hkw.
    unfold Rule_match. cbn [rule_key Rule__match__]. unfold getitem at 1.
    rewrite Hkw. cbn [bind].
    destruct (keyword_attribute _ _ track Hkw) as [v ->]. cbn [bind].
    unfold RegexRule_match, getitem, RegexRule_OPERATORS. cbn [lookup].
    apply String.eqb_neq in Hop. rewrite Hop. reflexivity.
Qed.

Lemma C4_witness :
  (exists r, RegexRule_init "ar" "<" "/" "foo" None = Ok r /\
     rule_operator r = "<" /\
     exists r', RegexRule_init "ar" "=" "/" "foo" None = Ok r' /\
                rule_operator r' = "=") /\
  Rule_match 3600 literal_search
    (RegexRule (mkAbstractRule "ar" "<" "/" "foo" [] false) 0) Track.__init__
  = Raise (KeyError "<").
Proof.
  split.
  - eexists. split; [reflexivity|].
    apply (proj1 C4_operator_looked_up_when_matching "ar" "<" "=" "/" "foo" None).
    reflexivity.
  - apply (proj2 C4_operator_looked_up_when_matching 3600 literal_search
             (mkAbstractRule "ar" "<" "/" "foo" [] false) 0
             ("Artist", "Artist") Track.__init__).
    + discriminate.
    + reflexivity.
Defined.

Lemma C5_counterexample :
  lookup KEYWORDS "zz" = None /\
  getRule 0 "zz=/foo/"
  = Ok (RegexRule (mkAbstractRule "zz" "=" "/" "foo" [] false) 0).
Proof. split; vm_compute; reflexivity. Qed.

(** C5 (amended): the registry is consulted when a rule is matched, not
    when it is constructed: each rule class constructs with one field code
    exactly when it does with any other, and a rule whose field code is not
    in the registry raises [KeyError] when it is matched against a track. *)
Theorem C5_registry_consulted_when_matching :
  (forall tz delim ruleClass k k' o d v f r,
     lookup (DELIMITER_TO_RULE tz) delim = Some ruleClass ->
     ruleClass k o d v f = Ok r ->
     rule_key r = k /\
     exists r', ruleClass k' o d v f = Ok r' /\ rule_key r' = k') /\
  (forall tz re_search r track,
     lookup KEYWORDS (rule_key r) = None ->
     Rule_match tz re_search r track = Raise (KeyError (rule_key r))).
Proof.
  split.
  - intros tz delim ruleClass k k' o d v f r. unfold DELIMITER_TO_RULE.
    cbn [lookup].
    destruct (String.eqb delim "/");
      [|destruct (String.eqb delim "%");
        [|destruct (String.eqb delim "@"); [|discriminate]]];
      intros H; injection H as <-.
    + unfold RegexRule_init. cbn [flags AbstractRule_init].
      destruct (RegexRule_reFlags _ 0); [|discriminate]. cbn [bind].
      intros H. injection H as <-. split; [reflexivity|].
      eexists. split; reflexivity.
    + unfold TimeDeltaRule_init. cbn [value AbstractRule_init].
      destruct (re_match TIME_DELTA_REGEX v) as [m|]; [|discriminate].
      destruct (required (m_group m 1)); [|discriminate]. cbn [bind].
      destruct (required (m_group m 2)); [|discriminate]. cbn [bind].
      destruct (py_int _); [|discriminate]. cbn [bind].
      destruct (timedelta_kw _ _); [|discriminate]. cbn [bind].
      intros H. injection H as <-. split; [reflexivity|].
      eexists. split; reflexivity.
    + unfold TimeStampRule_init. cbn [value AbstractRule_init].
      destruct (strptime v); [|discriminate]. cbn [bind].
      destruct (mktime tz _); [|discriminate]. cbn [bind].
      intros H. injection H as <-. split; [reflexivity|].
      eexists. split; reflexivity.
  - intros tz re_search r track H. unfold Rule_match, getitem.
    rewrite H. reflexivity.
Qed.

Lemma C5_witness :
  (exists r, RegexRule_init "zz" "=" "/" "foo" None = Ok r /\
     rule_key r = "zz" /\
     exists r', RegexRule_init "ar" "=" "/" "foo" None = Ok r' /\
                rule_key r' = "ar") /\
  Rule_match 3600 literal_search
    (RegexRule (mkAbstractRule "zz" "=" "/" "foo" [] false) 0) Track.__init__
  = Raise (KeyError "zz").
Proof.
  split.
  - eexists. split; [reflexivity|].
    apply (proj1 C5_registry_consulted_when_matching 3600 "/" RegexRule_init
             "zz" "ar" "=" "/" "foo" None); reflexivity.
  - apply (proj2 C5_registry_consulted_when_matching 3600 literal_search
             (RegexRule (mkAbstractRule "zz" "=" "/" "foo" [] false) 0)
             Track.__init__).
    reflexivity.
Defined.

(** ** The rule grammar *)

Lemma is_dot_newline (c : ascii) : is_dot c = false -> c = newline.
Proof.
  unfold is_dot. intros H. apply negb_false_iff in H.
  now apply Ascii.eqb_eq in H.
Qed.

Lemma all_dot_no_newline (l : list ascii) :
  forallb is_dot l = true -> ~ In newline l.
Proof.
  intros H Hin. rewrite forallb_forall in H. specialize (H _ Hin).
  discriminate.
Qed.

Lemma not_all_dot_newline (l : list ascii) :
  forallb is_dot l = false -> In newline l.
Proof.
  induction l as [|c l IH]; simpl; [discriminate|].
  destruct (is_dot c) eqn:Hc; simpl; intros H.
  - right. now apply IH.
  - left. now rewrite (is_dot_newline c Hc).
Qed.

Lemma C9_counterexample :
  exists m,
    re_match RULE_REGEX "fp=/rock/live/" = Some m /\
    m_group m 3 = Some "/" /\
    m_group m 4 = Some "rock/live" /\
    In "/"%char (chars "rock/live") /\
    getRule 0 "fp=/rock/live/"
    = Ok (RegexRule (mkAbstractRule "fp" "=" "/" "rock/live" [] false) 0).
Proof.
  eexists. split; [vm_compute; reflexivity|].
  repeat split; try reflexivity. simpl. tauto.
Qed.

(** C9 (amended): in a segment that parses, the value is not empty, holds
    no newline, and ends at the last occurrence of the delimiter on its
    line: what follows the closing delimiter holds no further delimiter
    before a newline (none at all in a segment without newline).  The value
    itself may hold the delimiter. *)
Theorem C9_value_ends_at_last_delimiter :
  forall (s : string) (m : Match),
    re_match RULE_REGEX s = Some m ->
    exists (k : string) (o d : ascii) (v tail : string),
      m_group m 1 = Some k /\
      m_group m 2 = Some (String o "") /\
      m_group m 3 = Some (String d "") /\
      m_group m 4 = Some v /\
      s = (k ++ String o (String d (v ++ String d tail)))%string /\
      one_of DELIMITERS d = true /\
      v <> "" /\
      ~ In newline (chars v) /\
      (forall pre post, tail = (pre ++ String d post)%string ->
                        In newline (chars pre)) /\
      (~ In newline (chars s) -> ~ In d (chars tail)).
Proof.
  intros s m H.
  apply rule_regex_inv in H
    as (k & o & d & v & fl & rest & Es & _ & _ & _ & Hd & Hv & Hdot & _
        & Hlast & G1 & G2 & G3 & G4 & _).
  assert (Htail : forall pre post,
             str (fl ++ rest) = (pre ++ String d post)%string ->
             In newline (chars pre)).
  { intros pre post E. apply not_all_dot_newline.
    apply (Hlast (chars pre) (chars post)).
    rewrite <- (chars_str (fl ++ rest)), E, chars_app. reflexivity. }
  exists (str k), o, d, (str v), (str (fl ++ rest)).
  repeat split; auto.
  - apply chars_inj. rewrite Es, chars_app. cbn [chars list_ascii_of_string].
    fold (chars (str v ++ String d (str (fl ++ rest)))).
    rewrite chars_app. cbn [chars list_ascii_of_string].
    fold (chars (str k)) (chars (str v)) (chars (str (fl ++ rest))).
    now rewrite !chars_str.
  - intros E. apply Hv. rewrite <- (chars_str v), E. reflexivity.
  - rewrite chars_str. now apply all_dot_no_newline.
  - intros Hs Hin. rewrite chars_str in Hin.
    apply in_split in Hin as (pre & post & E).
    apply Hs. rewrite Es.
    pose proof (Hlast pre post E) as Hpre.
    apply not_all_dot_newline in Hpre.
    rewrite E. apply in_or_app. right. right. right.
    apply in_or_app. right. right. apply in_or_app. now left.
Qed.

Lemma C9_witness :
  exists m,
    re_match RULE_REGEX "fp=/rock/live/il" = Some m /\
    exists (k : string) (o d : ascii) (v tail : string),
      m_group m 1 = Some k /\
      m_group m 2 = Some (String o "") /\
      m_group m 3 = Some (String d "") /\
      m_group m 4 = Some v /\
      "fp=/rock/live/il" = (k ++ String o (String d (v ++ String d tail)))%string /\
      one_of DELIMITERS d = true /\
      v <> "" /\
      ~ In newline (chars v) /\
      (forall pre post, tail = (pre ++ String d post)%string ->
                        In newline (chars pre)) /\
      (~ In newline (chars "fp=/rock/live/il") -> ~ In d (chars tail)).
Proof.
  eexists. split; [vm_compute; reflexivity|].
  apply C9_value_ends_at_last_delimiter. vm_compute. reflexivity.
Defined.

(** ** Calendar dates *)

Ltac bool_to_prop :=
  repeat match goal with
         | H : (_ <=? _) = true |- _ => apply Z.leb_le in H
         | H : (_ <=? _) = false |- _ => apply Z.leb_gt in H
         | H : (_ <? _) = true |- _ => apply Z.ltb_lt in H
         | H : (_ <? _) = false |- _ => apply Z.ltb_ge in H
         | H : (_ =? _) = true |- _ => apply Z.eqb_eq in H
         | H : (_ =? _) = false |- _ => apply Z.eqb_neq in H
         end.

Ltac case_tests :=
  repeat match goal with
         | |- context [if ?b then _ else _] => destruct b eqn:?
         | |- context [?a && _] => destruct a eqn:?; cbn [andb orb negb]
         | |- context [?a || _] => destruct a eqn:?; cbn [andb orb negb]
         | |- context [negb ?a] => destruct a eqn:?; cbn [andb orb negb]
         end.

Lemma is_leap_era (y era : Z) : is_leap (y + era * 400) = is_leap y.
Proof.
  unfold is_leap.
  replace (y + era * 400) with (y + (era * 100) * 4) at 1 by lia.
  replace (y + era * 400) with (y + (era * 4) * 100) at 1 by lia.
  now rewrite !Z.mod_add by lia.
Qed.

Lemma days_in_month_era (y era m : Z) :
  days_in_month (y + era * 400) m = days_in_month y m.
Proof. unfold days_in_month. now rewrite is_leap_era. Qed.

Lemma days_in_month_le (y m : Z) : days_in_month y m <= 31.
Proof. unfold days_in_month. case_tests; lia. Qed.

(** The date of a day is the date of its day number within the 400-year
    era, moved by the years of the eras before. *)
Lemma civil_from_days_era (z : Z) :
  let era := (z + 719468) / 146097 in
  let doe := (z + 719468) mod 146097 in
  civil_from_days z =
  let '(y, m, d) := civil_from_days (doe - 719468) in (y + era * 400, m, d).
Proof.
  intros era doe.
  assert (Hdoe : 0 <= doe < 146097) by (apply Z.mod_pos_bound; lia).
  assert (E : z + 719468 - era * 146097 = doe).
  { unfold era, doe. rewrite Z.mod_eq by lia. lia. }
  unfold civil_from_days. fold era. rewrite E.
  replace (doe - 719468 + 719468) with doe by lia.
  rewrite (Z.div_small doe 146097) by lia.
  replace (doe - 0 * 146097) with doe by lia.
  cbv zeta.
  destruct (_ <=? 2); f_equal; f_equal; lia.
Qed.

(** Within the era that starts on 0000-03-01 every day number has a date
    that exists; the year is at least 300 from 1900-01-01 on and at most
    399 up to 0399-12-31. *)
Lemma civil_from_days_era0 (doe : Z) :
  0 <= doe < 146097 ->
  let '(y, m, d) := civil_from_days (doe - 719468) in
  1 <= m <= 12 /\ 1 <= d <= days_in_month y m /\ 0 <= y <= 400 /\
  (109513 <= doe -> 300 <= y) /\ (doe <= 146036 -> y <= 399).
Proof.
  intros H. unfold civil_from_days.
  replace (doe - 719468 + 719468) with doe by lia.
  rewrite (Z.div_small doe 146097) by lia.
  replace (doe - 0 * 146097) with doe by lia.
  cbv zeta.
  set (yoe := (doe - doe / 1460 + doe / 36524 - doe / 146096) / 365).
  set (doy := doe - (365 * yoe + yoe / 4 - yoe / 100)).
  set (mp := (5 * doy + 2) / 153).
  assert (B : 0 <= yoe <= 399 /\ 0 <= doy <= 365).
  { subst doy yoe. Z.to_euclidean_division_equations; lia. }
  assert (Bmp : 0 <= mp <= 11)
    by (subst mp; Z.to_euclidean_division_equations; lia).
  unfold days_in_month, is_leap.
  case_tests; bool_to_prop;
    subst mp doy yoe; Z.to_euclidean_division_equations; lia.
Qed.

(** Every day from 1900-01-01 to 9999-12-31 has a date that exists, in a
    year from 1900 to 9999. *)
Lemma civil_from_days_valid (z : Z) :
  -25567 <= z <= 2932896 ->
  let '(y, m, d) := civil_from_days z in
  1900 <= y <= 9999 /\ 1 <= m <= 12 /\ 1 <= d <= days_in_month y m.
Proof.
  intros Hz. rewrite civil_from_days_era.
  set (era := (z + 719468) / 146097). set (doe := (z + 719468) mod 146097).
  assert (Hdoe : 0 <= doe < 146097) by (apply Z.mod_pos_bound; lia).
  assert (E : z + 719468 = 146097 * era + doe) by (apply Z.div_mod; lia).
  pose proof (civil_from_days_era0 doe Hdoe) as C.
  destruct (civil_from_days (doe - 719468)) as [[y m] d].
  rewrite days_in_month_era.
  destruct C as (Hm & Hd & Hy & Hlo & Hhi).
  assert (4 <= era <= 24) by lia.
  repeat split; lia.
Qed.

(** ** Printing and reading dates *)

(** Case analysis on a number known to lie between two constants. *)
Ltac enumerate n lo hi :=
  let b := eval compute in (lo <=? hi) in
  match b with
  | true =>
      let H := fresh "Hneq" in
      destruct (Z.eq_dec n lo) as [->|H];
      [|let lo' := eval compute in (lo + 1) in enumerate n lo' hi]
  | false => exfalso; lia
  end.

Lemma digit_char_value (k : Z) :
  0 <= k <= 9 ->
  is_digit (digit_char k) = true /\ digit_value (digit_char k) = k.
Proof. intros H. enumerate k 0 9; split; reflexivity. Qed.

Lemma decimal_year (y : Z) :
  1000 <= y <= 9999 ->
  exists a b c e,
    decimal y = [a; b; c; e] /\
    is_digit a = true /\ is_digit b = true /\
    is_digit c = true /\ is_digit e = true /\
    digits_value [a; b; c; e] 0 = Some y.
Proof.
  intros Hy.
  exists (digit_char (y / 1000)), (digit_char (y / 100 mod 10)),
         (digit_char (y / 10 mod 10)), (digit_char (y mod 10)).
  destruct (digit_char_value (y / 1000)) as [Ha Va];
    [Z.to_euclidean_division_equations; lia|].
  destruct (digit_char_value (y / 100 mod 10)) as [Hb Vb];
    [Z.to_euclidean_division_equations; lia|].
  destruct (digit_char_value (y / 10 mod 10)) as [Hc Vc];
    [Z.to_euclidean_division_equations; lia|].
  destruct (digit_char_value (y mod 10)) as [He Ve];
    [Z.to_euclidean_division_equations; lia|].
  repeat split; try assumption.
  - unfold decimal.
    assert (L : 9 <= Z.log2 y) by (apply Z.log2_le_pow2; lia).
    destruct (Z.to_nat (Z.log2 y)) as [|[|[|f]]] eqn:F; try lia.
    cbn [decimal_aux].
    replace (y <? 10) with false by (symmetry; apply Z.ltb_ge; lia).
    replace (y / 10 <? 10) with false
      by (symmetry; apply Z.ltb_ge; Z.to_euclidean_division_equations; lia).
    replace (y / 10 / 10 <? 10) with false
      by (symmetry; apply Z.ltb_ge; Z.to_euclidean_division_equations; lia).
    replace (y / 10 / 10 / 10 <? 10) with true
      by (symmetry; apply Z.ltb_lt; Z.to_euclidean_division_equations; lia).
    rewrite !Z.div_div by lia. reflexivity.
  - cbn [digits_value]. rewrite Ha, Hb, Hc, He, Va, Vb, Vc, Ve.
    f_equal. Z.to_euclidean_division_equations; lia.
Qed.

Lemma consumed_two (a b : ascii) (rest : list ascii) :
  consumed (a :: b :: rest) rest = [a; b].
Proof. apply (consumed_app [a; b] rest). Qed.

Section PrintedDates.
Context {A : Type}.
Variable k : list ascii -> groups -> option A.
Variable rest : list ascii.
Variable g : groups.
Variable x : A.

(** The pattern of [%m] takes both digits of a month as [strftime]
    prints it, when what follows matches. *)
Lemma month_regex_printed (m : Z) :
  1 <= m <= 12 ->
  k rest ((2%nat, two_digits m) :: g) = Some x ->
  rmatch MONTH_REGEX (two_digits m ++ rest) g k = Some x.
Proof.
  intros Hm. unfold MONTH_REGEX, Lit.
  enumerate m 1 12; intros H;
    match goal with
    | |- context [two_digits ?n] =>
        let t := eval vm_compute in (two_digits n) in
        change (two_digits n) with t in *
    end;
    cbn [rmatch app]; rewrite ?consumed_two, H; reflexivity.
Qed.

(** So does the pattern of [%d] with the digits of a day. *)
Lemma day_regex_printed (d : Z) :
  1 <= d <= 31 ->
  k rest ((3%nat, two_digits d) :: g) = Some x ->
  rmatch DAY_REGEX (two_digits d ++ rest) g k = Some x.
Proof.
  intros Hd. unfold DAY_REGEX, Lit.
  enumerate d 1 31; intros H;
    match goal with
    | |- context [two_digits ?n] =>
        let t := eval vm_compute in (two_digits n) in
        change (two_digits n) with t in *
    end;
    cbn [rmatch app]; rewrite ?consumed_two, H; reflexivity.
Qed.
End PrintedDates.

(** The pattern of [strptime] on a date as [strftime] prints it. *)
Lemma time_stamp_regex_printed (a b c e : ascii) (m d : Z) :
  is_digit a = true -> is_digit b = true ->
  is_digit c = true -> is_digit e = true ->
  1 <= m <= 12 -> 1 <= d <= 31 ->
  re_match TIME_STAMP_REGEX
    (str (a :: b :: c :: e :: "-"%char :: two_digits m
            ++ "-"%char :: two_digits d))
  = Some (mkMatch [(3%nat, two_digits d); (2%nat, two_digits m);
                   (1%nat, [a; b; c; e])] []).
Proof.
  intros Ha Hb Hc He Hm Hd. unfold re_match. rewrite chars_str.
  unfold TIME_STAMP_REGEX, YEAR_REGEX, Lit. cbn [rmatch].
  rewrite Ha, Hb, Hc, He.
  change (Ascii.eqb "-" "-") with true. cbv iota.
  apply month_regex_printed; [exact Hm|].
  change (Ascii.eqb "-" "-") with true. cbv iota.
  rewrite <- (app_nil_r (two_digits d)) at 1.
  apply day_regex_printed; [exact Hd|].
  pose proof (consumed_app [a; b; c; e]
                ("-"%char :: two_digits m ++ "-"%char :: two_digits d)) as E.
  cbn [app] in E. now rewrite E.
Qed.

Lemma py_int_two_digits (n : Z) :
  1 <= n <= 31 -> py_int (str (two_digits n)) = Ok n.
Proof. intros H. enumerate n 1 31; reflexivity. Qed.

(** [strptime] reads back the date that [strftime] printed. *)
Lemma strptime_printed (y m d : Z) :
  1900 <= y <= 9999 -> 1 <= m <= 12 -> 1 <= d <= days_in_month y m ->
  strptime (str (decimal y ++ "-"%char :: two_digits m
                          ++ "-"%char :: two_digits d))
  = Ok (mkTime y m d 0 0 0).
Proof.
  intros Hy Hm Hd.
  pose proof (days_in_month_le y m) as Hle.
  destruct (decimal_year y ltac:(lia)) as (a & b & c & e & -> & Ha & Hb & Hc & He & Hv).
  unfold strptime. cbn [app].
  rewrite (time_stamp_regex_printed a b c e m d) by (auto; lia).
  cbn [m_rest]. unfold m_group. cbn [m_groups group Nat.eqb option_map required bind].
  destruct (py_int_digits [a; b; c; e]) as (n & -> & _ & Hn).
  { discriminate. }
  { cbn [forallb]. now rewrite Ha, Hb, Hc, He. }
  rewrite Hv in Hn. injection Hn as <-. cbn [bind].
  rewrite !py_int_two_digits by lia. cbn [bind].
  replace (1 <=? y) with true by (symmetry; apply Z.leb_le; lia).
  replace (1 <=? d) with true by (symmetry; apply Z.leb_le; lia).
  replace (d <=? days_in_month y m) with true by (symmetry; apply Z.leb_le; lia).
  reflexivity.
Qed.

Lemma gettmarg_year_modern (y : Z) : 1900 <= y -> gettmarg_year y = Ok y.
Proof.
  intros H. unfold gettmarg_year.
  now replace (y <? 1900) with false by (symmetry; apply Z.ltb_ge; lia).
Qed.

(** Local midnight is an instant that [mktime] returns when the offset of
    the zone is a whole number of minutes. *)
Lemma mktime_midnight (tz y m d : Z) :
  tz mod 60 = 0 -> 1900 <= y ->
  mktime tz (mkTime y m d 0 0 0) = Ok (days_from_civil y m d * 86400 - tz).
Proof.
  intros Htz Hy. unfold mktime. cbn [tm_year tm_mon tm_mday tm_hour tm_min tm_sec].
  rewrite gettmarg_year_modern by exact Hy. cbn [bind].
  set (D := days_from_civil y m d).
  replace (D * 86400 + 0 * 3600 + 0 * 60 + 0 - tz) with (D * 86400 - tz) by lia.
  destruct (D * 86400 - tz =? -1) eqn:E; [|reflexivity].
  apply Z.eqb_eq in E. exfalso.
  apply Z.mod_divide in Htz; [|lia]. destruct Htz as [q ->]. lia.
Qed.

(** The day of an instant between [MIN_INSTANT] and [MAX_INSTANT], as
    [TimeStampRule.__match__] computes it. *)
Lemma instant_day (tz n : Z) :
  tz mod 60 = 0 -> MIN_INSTANT <= n <= MAX_INSTANT ->
  exists y m d,
    civil_from_days (n / 86400) = (y, m, d) /\
    (s <- strftime (gmtime n) ;; ts <- strptime s ;; mktime tz ts)
    = Ok (days_from_civil y m d * 86400 - tz).
Proof.
  unfold MIN_INSTANT, MAX_INSTANT. intros Htz Hn.
  assert (Hz : -25567 <= n / 86400 <= 2932896).
  { assert (n / 86400 < 2932897) by (apply Z.div_lt_upper_bound; lia).
    split; [apply Z.div_le_lower_bound; lia|lia]. }
  pose proof (civil_from_days_valid _ Hz) as V.
  unfold gmtime.
  destruct (civil_from_days (n / 86400)) as [[y m] d].
  destruct V as (Hy & Hm & Hd).
  exists y, m, d. split; [reflexivity|].
  unfold strftime. cbn [tm_year tm_mon tm_mday].
  rewrite gettmarg_year_modern by lia. cbn [bind].
  rewrite strptime_printed by assumption. cbn [bind].
  apply mktime_midnight; [exact Htz|lia].
Qed.

(** ** Matching without error *)

(** An absolute-date rule compares the local midnight of the day that the
    instant of the field has in UTC. *)
Lemma TimeStampRule_match_day (tz : Z) (self : AbstractRule Z) (v : string)
      (n : Z) (op : Z -> Z -> bool) :
  tz mod 60 = 0 -> py_float v = Ok n -> MIN_INSTANT <= n <= MAX_INSTANT ->
  lookup TIME_OPERATORS (operator self) = Some op ->
  exists y m d,
    civil_from_days (n / 86400) = (y, m, d) /\
    TimeStampRule_match tz self v
    = Ok (op (days_from_civil y m d * 86400 - tz) (value self)).
Proof.
  intros Htz Hv Hn Hop.
  destruct (instant_day tz n Htz Hn) as (y & m & d & E & H).
  exists y, m, d. split; [exact E|].
  unfold TimeStampRule_match. rewrite Hv. cbn [bind].
  destruct (strftime (gmtime n)) as [s|]; [|discriminate]. cbn [bind] in *.
  destruct (strptime s) as [ts|]; [|discriminate]. cbn [bind] in *.
  rewrite H. cbn [bind]. unfold getitem. rewrite Hop. reflexivity.
Qed.

Lemma C2_counterexample :
  exists r r',
    getRule 0 "ar</foo/" = Ok r /\
    (forall re_search,
        Rule_match 0 re_search r Track.__init__ = Raise (KeyError "<")) /\
    getRule 0 "mt<%3days%" = Ok r' /\
    (forall re_search,
        Rule_match 0 re_search r' Track.__init__ = Raise ValueError).
Proof.
  eexists _, _. split; [vm_compute; reflexivity|].
  split; [intros re_search; reflexivity|].
  split; [vm_compute; reflexivity|].
  intros re_search. reflexivity.
Qed.

(** C2 (amended): matching a rule against a track raises no error when the
    field code of the rule is in the registry, its operator is in the
    operator table of its class, and the field of the track is valid for
    the class (the zone offset being whole minutes); none of this is
    checked when the rule is constructed. *)
Theorem C2_matching_total_on_valid_input :
  forall tz re_search (r : Rule) (track : Track.t) (kw : string * string),
    tz mod 60 = 0 ->
    lookup KEYWORDS (rule_key r) = Some kw ->
    operator_known r = true ->
    (forall v, Track.getattr track (lower (fst kw)) = Ok v ->
               field_valid re_search r v = true) ->
    exists b, Rule_match tz re_search r track = Ok b.
Proof.
  intros tz re_search r track kw Htz Hkw Hop Hfield.
  unfold Rule_match, getitem. rewrite Hkw. cbn [bind].
  destruct (keyword_attribute _ _ track Hkw) as [v Hv].
  specialize (Hfield v Hv). rewrite Hv. cbn [bind].
  assert (M : exists b, Rule__match__ tz re_search r v = Ok b).
  { destruct r as [self reFlags|self number unit td|self];
      cbn [Rule__match__ operator_known field_valid] in *.
    - apply String.eqb_eq in Hop.
      unfold RegexRule_match, getitem, RegexRule_OPERATORS. rewrite Hop.
      cbn [lookup String.eqb Ascii.eqb Bool.eqb bind].
      destruct (re_search (value self) v reFlags); [eauto|discriminate].
    - unfold TimeDeltaRule_match, getitem.
      destruct (lookup TIME_OPERATORS (operator self)); [|discriminate].
      cbn [bind]. destruct (py_int v); [|discriminate]. cbn [bind]. eauto.
    - destruct (lookup TIME_OPERATORS (operator self)) as [op|] eqn:E;
        [|discriminate].
      destruct (py_float v) as [n|] eqn:Ev; [|discriminate].
      apply andb_prop in Hfield as [Hlo Hhi].
      apply Z.leb_le in Hlo. apply Z.leb_le in Hhi.
      destruct (TimeStampRule_match_day tz self v n op Htz Ev (conj Hlo Hhi) E)
        as (y & m & d & _ & ->). eauto. }
  destruct M as [b ->]. cbn [bind]. eauto.
Qed.

Lemma C2_witness :
  let track := Track.mk "" "" "" "" "" "" "" "a.mp3" "" "1262430000" "" in
  exists r,
    getRule 3600 "mt=@2010-01-02@" = Ok r /\
    exists b, Rule_match 3600 literal_search r track = Ok b.
Proof.
  intros track. eexists. split; [vm_compute; reflexivity|].
  apply (C2_matching_total_on_valid_input 3600 literal_search _ track
           ("mtime", "File modification time")).
  - reflexivity.
  - reflexivity.
  - reflexivity.
  - intros v H. injection H as <-. vm_compute. reflexivity.
Defined.

(** ** The day that an absolute-date rule compares *)

Lemma days_from_civil_era (y m d era : Z) :
  days_from_civil (y + era * 400) m d = days_from_civil y m d + era * 146097.
Proof.
  unfold days_from_civil. cbv zeta.
  destruct (m <=? 2); Z.to_euclidean_division_equations; lia.
Qed.

Lemma days_from_civil_era0 (doe : Z) :
  0 <= doe < 146097 ->
  let '(y, m, d) := civil_from_days (doe - 719468) in
  days_from_civil y m d = doe - 719468.
Proof.
  intros H. unfold civil_from_days.
  replace (doe - 719468 + 719468) with doe by lia.
  rewrite (Z.div_small doe 146097) by lia.
  replace (doe - 0 * 146097) with doe by lia.
  cbv zeta.
  set (yoe := (doe - doe / 1460 + doe / 36524 - doe / 146096) / 365).
  set (doy := doe - (365 * yoe + yoe / 4 - yoe / 100)).
  set (mp := (5 * doy + 2) / 153).
  assert (B : 0 <= yoe <= 399 /\ 0 <= doy <= 365).
  { subst doy yoe. Z.to_euclidean_division_equations; lia. }
  assert (Bmp : 0 <= mp <= 11)
    by (subst mp; Z.to_euclidean_division_equations; lia).
  unfold days_from_civil.
  case_tests; bool_to_prop; try lia;
    subst mp doy yoe; Z.to_euclidean_division_equations; lia.
Qed.

(** The two calendar conversions are inverse on every day number. *)
Lemma days_from_civil_of_day (z : Z) :
  let '(y, m, d) := civil_from_days z in days_from_civil y m d = z.
Proof.
  rewrite civil_from_days_era.
  set (era := (z + 719468) / 146097). set (doe := (z + 719468) mod 146097).
  assert (Hdoe : 0 <= doe < 146097) by (apply Z.mod_pos_bound; lia).
  assert (E : z + 719468 = 146097 * era + doe) by (apply Z.div_mod; lia).
  pose proof (days_from_civil_era0 doe Hdoe) as C.
  destruct (civil_from_days (doe - 719468)) as [[y m] d].
  rewrite days_from_civil_era. lia.
Qed.

(** With the operator [=], an absolute-date rule for the day [Y]-[M]-[D]
    matches the instants whose day in UTC is that day, whatever the local
    zone in which the rule's date was read. *)
Lemma date_rule_matches_utc_day (tz : Z) (self : AbstractRule Z) (v : string)
      (n Y M D : Z) :
  tz mod 60 = 0 -> py_float v = Ok n -> MIN_INSTANT <= n <= MAX_INSTANT ->
  operator self = "=" ->
  value self = days_from_civil Y M D * 86400 - tz ->
  TimeStampRule_match tz self v = Ok (n / 86400 =? days_from_civil Y M D).
Proof.
  intros Htz Hv Hn Hop Hval.
  destruct (TimeStampRule_match_day tz self v n Z.eqb Htz Hv Hn)
    as (y & m & d & E & ->).
  { rewrite Hop. reflexivity. }
  pose proof (days_from_civil_of_day (n / 86400)) as I. rewrite E in I.
  rewrite I, Hval. f_equal.
  destruct (n / 86400 =? days_from_civil Y M D) eqn:Q.
  - apply Z.eqb_eq in Q. apply Z.eqb_eq. lia.
  - apply Z.eqb_neq in Q. apply Z.eqb_neq. lia.
Qed.

(** C7: in a zone one hour east of UTC, the rule [mt=@2010-01-02@] holds
    the local midnight of 2010-01-02; of two instants of that local day,
    00:30 and 12:00, the first does not match and the second does, because
    the day of the field is taken in UTC. *)
Theorem C7_day_taken_in_utc :
  let tz := 3600 in
  let early := Track.mk "" "" "" "" "" "" "" "a.mp3" "" "1262388600" "" in
  let noon := Track.mk "" "" "" "" "" "" "" "b.mp3" "" "1262430000" "" in
  civil_from_days ((1262388600 + tz) / 86400) = (2010, 1, 2) /\
  civil_from_days ((1262430000 + tz) / 86400) = (2010, 1, 2) /\
  civil_from_days (1262388600 / 86400) = (2010, 1, 1) /\
  exists r,
    getRule tz "mt=@2010-01-02@" = Ok r /\
    (forall re_search, Rule_match tz re_search r early = Ok false) /\
    (forall re_search, Rule_match tz re_search r noon = Ok true).
Proof.
  cbv zeta.
  split; [vm_compute; reflexivity|].
  split; [vm_compute; reflexivity|].
  split; [vm_compute; reflexivity|].
  eexists. split; [vm_compute; reflexivity|].
  split; intros re_search; vm_compute; reflexivity.
Qed.

(** * Further properties *)

(** ** Segments that the rule factory refuses or accepts *)

Lemma one_of_In (l : list ascii) (c : ascii) : one_of l c = true -> In c l.
Proof.
  unfold one_of. intros H. apply existsb_exists in H as (x & Hx & E).
  apply Ascii.eqb_eq in E. now subst x.
Qed.

Lemma getRule_parse_error (tz : Z) (s : string) :
  re_match RULE_REGEX s = None ->
  getRule tz s = Raise (Exception ("Could not parse rule '" ++ s ++ "'")).
Proof. unfold getRule. now intros ->. Qed.

(** X1: a segment in which no delimiter character occurs twice is refused
    with the parse error that quotes the segment. *)
Theorem X1_segment_needs_two_delimiters :
  forall tz (s : string),
    (forall d, In d DELIMITERS ->
               (count_occ ascii_dec (chars s) d < 2)%nat) ->
    getRule tz s = Raise (Exception ("Could not parse rule '" ++ s ++ "'")).
Proof.
  intros tz s H. apply getRule_parse_error.
  destruct (re_match RULE_REGEX s) as [m|] eqn:Hm; [|reflexivity].
  exfalso.
  apply rule_regex_inv in Hm
    as (k & o & d & v & fl & rest & Es & _ & _ & _ & Hd & _).
  specialize (H d (one_of_In _ _ Hd)). rewrite Es in H.
  rewrite count_occ_app in H. cbn [count_occ] in H.
  destruct (ascii_dec o d); destruct (ascii_dec d d); try congruence;
    rewrite count_occ_app in H; cbn [count_occ] in H;
    destruct (ascii_dec d d); try congruence; lia.
Qed.

Lemma X1_witness :
  (forall d, In d DELIMITERS ->
             (count_occ ascii_dec (chars "ar=/foo") d < 2)%nat) /\
  getRule 3600 "ar=/foo" = Raise (Exception "Could not parse rule 'ar=/foo'").
Proof.
  assert (H : forall d, In d DELIMITERS ->
                        (count_occ ascii_dec (chars "ar=/foo") d < 2)%nat).
  { intros d [<-|[<-|[<-|[]]]]; vm_compute; lia. }
  split; [exact H|]. exact (X1_segment_needs_two_delimiters 3600 "ar=/foo" H).
Defined.

(** X2: the class of the rule that the factory returns is the one of the
    delimiter, and its key, operator, delimiter, flags and negation are
    those of the segment. *)
Theorem X2_factory_dispatch :
  forall tz (s : string) (r : Rule),
    getRule tz s = Ok r ->
    exists m k o d,
      re_match RULE_REGEX s = Some m /\
      m_group m 1 = Some k /\ rule_key r = k /\
      m_group m 2 = Some o /\ rule_operator r = o /\
      m_group m 3 = Some d /\ rule_delimiter r = d /\
      rule_flags r = match m_group m 5 with
                     | Some f => chars f
                     | None => []
                     end /\
      rule_negate r = existsb (Ascii.eqb "n") (rule_flags r) /\
      match r with
      | RegexRule _ _ => d = "/"
      | TimeDeltaRule _ _ _ _ => d = "%"
      | TimeStampRule _ => d = "@"
      end.
Proof.
  intros tz s r. unfold getRule.
  destruct (re_match RULE_REGEX s) as [m|]; [|discriminate].
  destruct (m_group m 1) as [k|] eqn:G1; [|discriminate].
  cbn [required bind].
  destruct (m_group m 2) as [o|] eqn:G2; [|discriminate].
  cbn [required bind].
  destruct (m_group m 3) as [d|] eqn:G3; [|discriminate].
  cbn [required bind].
  destruct (m_group m 4) as [v|] eqn:G4; [|discriminate].
  cbn [required bind].
  unfold getitem, DELIMITER_TO_RULE. cbn [lookup].
  intros H. exists m, k, o, d.
  destruct (String.eqb d "/") eqn:E1;
    [|destruct (String.eqb d "%") eqn:E2;
      [|destruct (String.eqb d "@") eqn:E3; [|discriminate]]];
    cbn [bind] in H.
  - apply String.eqb_eq in E1. revert H. unfold RegexRule_init.
    cbn [flags AbstractRule_init].
    destruct (RegexRule_reFlags _ 0); [|discriminate]. cbn [bind].
    intros H. injection H as <-. cbn. repeat split; auto.
  - apply String.eqb_eq in E2. revert H. unfold TimeDeltaRule_init.
    cbn [value AbstractRule_init].
    destruct (re_match TIME_DELTA_REGEX v) as [m'|]; [|discriminate].
    destruct (required (m_group m' 1)); [|discriminate]. cbn [bind].
    destruct (required (m_group m' 2)); [|discriminate]. cbn [bind].
    destruct (py_int _); [|discriminate]. cbn [bind].
    destruct (timedelta_kw _ _); [|discriminate]. cbn [bind].
    intros H. injection H as <-. cbn. repeat split; auto.
  - apply String.eqb_eq in E3. revert H. unfold TimeStampRule_init.
    cbn [value AbstractRule_init].
    destruct (strptime v); [|discriminate]. cbn [bind].
    destruct (mktime tz _); [|discriminate]. cbn [bind].
    intros H. injection H as <-. cbn. repeat split; auto.
Qed.

Lemma X2_witness :
  exists r,
    getRule 3600 "mt>%2 Weeks%n" = Ok r /\
    exists m k o d,
      re_match RULE_REGEX "mt>%2 Weeks%n" = Some m /\
      m_group m 1 = Some k /\ rule_key r = k /\
      m_group m 2 = Some o /\ rule_operator r = o /\
      m_group m 3 = Some d /\ rule_delimiter r = d /\
      rule_flags r = match m_group m 5 with
                     | Some f => chars f
                     | None => []
                     end /\
      rule_negate r = existsb (Ascii.eqb "n") (rule_flags r) /\
      match r with
      | RegexRule _ _ => d = "/"
      | TimeDeltaRule _ _ _ _ => d = "%"
      | TimeStampRule _ => d = "@"
      end.
Proof.
  eexists. split; [vm_compute; reflexivity|].
  apply (X2_factory_dispatch 3600 "mt>%2 Weeks%n"). vm_compute. reflexivity.
Defined.

(** ** Flags *)

Lemma RegexRule_reFlags_bits (fl : list ascii) :
  forallb (fun c => Ascii.eqb c "i" || Ascii.eqb c "l") fl = true ->
  forall acc,
    RegexRule_reFlags fl acc
    = Ok (Z.lor acc (Z.lor (if existsb (Ascii.eqb "i") fl then 2 else 0)
                           (if existsb (Ascii.eqb "l") fl then 4 else 0))).
Proof.
  induction fl as [|c fl IH]; cbn [forallb existsb RegexRule_reFlags];
    intros H acc.
  - now rewrite Z.lor_0_r.
  - apply andb_prop in H as [Hc Hfl]. apply orb_prop in Hc as [Hc|Hc];
      apply Ascii.eqb_eq in Hc; subst c;
      change (getitem RegexRule_FLAGS "i") with (@Ok Z 2);
      change (getitem RegexRule_FLAGS "l") with (@Ok Z 4);
      cbn [bind]; rewrite (IH Hfl), <- Z.lor_assoc; f_equal;
      change (Ascii.eqb "i" "i") with true;
      change (Ascii.eqb "i" "l") with false;
      change (Ascii.eqb "l" "i") with false;
      change (Ascii.eqb "l" "l") with true; cbn [orb];
      destruct (existsb (Ascii.eqb "i") fl);
      destruct (existsb (Ascii.eqb "l") fl); reflexivity.
Qed.

(** The flags are looked up from left to right: the first one that is not
    in the table raises. *)
Lemma RegexRule_reFlags_first (pre post : list ascii) (c : ascii) :
  forallb (fun c => Ascii.eqb c "i" || Ascii.eqb c "l") pre = true ->
  Ascii.eqb c "i" || Ascii.eqb c "l" = false ->
  forall acc,
    RegexRule_reFlags (pre ++ c :: post) acc = Raise (KeyError (String c "")).
Proof.
  intros Hpre Hc. induction pre as [|a pre IH]; cbn [app RegexRule_reFlags];
    intros acc.
  - apply orb_false_elim in Hc as [Hi Hl].
    unfold getitem, RegexRule_FLAGS. cbn [lookup String.eqb].
    rewrite Hi, Hl. reflexivity.
  - cbn [forallb] in Hpre. apply andb_prop in Hpre as [Ha Hpre].
    assert (G : exists f, getitem RegexRule_FLAGS (String a "") = Ok f).
    { apply orb_prop in Ha as [Ha|Ha]; apply Ascii.eqb_eq in Ha; subst a;
        eexists; reflexivity. }
    destruct G as [f ->]. cbn [bind]. apply (IH Hpre).
Qed.

(** A list with an element outside a class splits at the first one. *)
Lemma first_outside (p : ascii -> bool) (l : list ascii) :
  forallb p l = false ->
  exists pre c post,
    l = (pre ++ c :: post)%list /\ forallb p pre = true /\ p c = false.
Proof.
  induction l as [|a l IH]; cbn [forallb]; intros H; [discriminate|].
  destruct (p a) eqn:Ha.
  - destruct (IH H) as (pre & c & post & -> & Hpre & Hc).
    exists (a :: pre), c, post. cbn [forallb app]. now rewrite Ha, Hpre.
  - exists [], a, l. auto.
Qed.

(** X3: a Pattern rule constructs exactly when each of its flags is [i] or
    [l]; its search flags are then IGNORECASE when [i] occurs together with
    LOCALE when [l] does, whatever their order and number; otherwise the
    constructor raises [KeyError] for the first other flag, the one that
    only [i] and [l] come before. *)
Theorem X3_pattern_flags :
  forall (k o d v : string) (f : option string),
    let self := AbstractRule_init k o d v f in
    let known := fun c => Ascii.eqb c "i" || Ascii.eqb c "l" in
    (forallb known (flags self) = true ->
     RegexRule_init k o d v f
     = Ok (RegexRule self
             (Z.lor (if existsb (Ascii.eqb "i") (flags self) then 2 else 0)
                    (if existsb (Ascii.eqb "l") (flags self) then 4 else 0))))
    /\
    (forallb known (flags self) = false ->
     exists pre c post,
       flags self = (pre ++ c :: post)%list /\
       forallb known pre = true /\ known c = false /\
       RegexRule_init k o d v f = Raise (KeyError (String c "")))
    /\
    (forall pre c post,
       flags self = (pre ++ c :: post)%list ->
       forallb known pre = true -> known c = false ->
       RegexRule_init k o d v f = Raise (KeyError (String c ""))).
Proof.
  intros k o d v f self known.
  assert (F : forall pre c post,
             flags self = (pre ++ c :: post)%list ->
             forallb known pre = true -> known c = false ->
             RegexRule_init k o d v f = Raise (KeyError (String c ""))).
  { intros pre c post E Hpre Hc. unfold RegexRule_init. fold self.
    rewrite E, (RegexRule_reFlags_first pre post c Hpre Hc 0). reflexivity. }
  split; [|split].
  - intros H. unfold RegexRule_init. fold self.
    rewrite (RegexRule_reFlags_bits _ H 0). reflexivity.
  - intros H. destruct (first_outside known _ H) as (pre & c & post & E & Hpre & Hc).
    exists pre, c, post. repeat split; auto. exact (F pre c post E Hpre Hc).
  - exact F.
Qed.

Lemma X3_witness :
  RegexRule_init "ti" "=" "/" "when" (Some "lil")
  = Ok (RegexRule (AbstractRule_init "ti" "=" "/" "when" (Some "lil")) 6) /\
  RegexRule_init "ti" "=" "/" "when" (Some "ixly")
  = Raise (KeyError "x").
Proof.
  split.
  - apply (proj1 (X3_pattern_flags "ti" "=" "/" "when" (Some "lil"))).
    vm_compute. reflexivity.
  - apply (proj2 (proj2 (X3_pattern_flags "ti" "=" "/" "when" (Some "ixly")))
             (chars "i") "x"%char (chars "ly")); vm_compute; reflexivity.
Defined.

(** X4: the two time rules take any flags: a rule that constructs with
    some flags constructs with any others, and the two rules give the same
    result on every track up to the negation that [n] asks for. *)
Theorem X4_time_rules_take_any_flags :
  forall tz re_search ruleClass (k o d v : string) (f f' : option string)
         (r : Rule),
    ruleClass = TimeDeltaRule_init \/ ruleClass = TimeStampRule_init tz ->
    ruleClass k o d v f = Ok r ->
    exists r',
      ruleClass k o d v f' = Ok r' /\
      rule_negate r' = existsb (Ascii.eqb "n") (rule_flags r') /\
      forall (t : Track.t) (b : bool),
        Rule_match tz re_search r t = Ok b ->
        Rule_match tz re_search r' t
        = Ok (xorb b (xorb (rule_negate r) (rule_negate r'))).
Proof.
  intros tz re_search ruleClass k o d v f f' r [->| ->].
  - unfold TimeDeltaRule_init. cbn [value AbstractRule_init].
    destruct (re_match TIME_DELTA_REGEX v) as [m|]; [|discriminate].
    destruct (required (m_group m 1)) as [ns|]; [|discriminate]. cbn [bind].
    destruct (required (m_group m 2)) as [us|]; [|discriminate]. cbn [bind].
    destruct (py_int ns) as [n|]; [|discriminate]. cbn [bind].
    destruct (timedelta_kw _ n) as [td|]; [|discriminate]. cbn [bind].
    intros H. injection H as <-. eexists. split; [reflexivity|].
    split; [reflexivity|]. intros t b.
    unfold Rule_match. cbn [Rule__match__]. unfold TimeDeltaRule_match.
    cbn [rule_key rule_negate set_value key negate operator value
         AbstractRule_init].
    destruct (getitem KEYWORDS k); [|discriminate]. cbn [bind].
    destruct (Track.getattr t _); [|discriminate]. cbn [bind].
    destruct (getitem TIME_OPERATORS o); [|cbn [bind]; discriminate].
    cbn [bind].
    destruct (py_int a0); [|cbn [bind]; discriminate]. cbn [bind].
    intros H. injection H as <-. f_equal.
    destruct (a1 a2 (seconds td)); destruct (existsb _ _);
      destruct (existsb _ _); reflexivity.
  - unfold TimeStampRule_init. cbn [value AbstractRule_init].
    destruct (strptime v) as [ts|]; [|discriminate]. cbn [bind].
    destruct (mktime tz ts) as [day|]; [|discriminate]. cbn [bind].
    intros H. injection H as <-. eexists. split; [reflexivity|].
    split; [reflexivity|]. intros t b.
    unfold Rule_match. cbn [Rule__match__]. unfold TimeStampRule_match.
    cbn [rule_key rule_negate set_value key negate operator value
         AbstractRule_init].
    destruct (getitem KEYWORDS k); [|discriminate]. cbn [bind].
    destruct (Track.getattr t _); [|discriminate]. cbn [bind].
    destruct (py_float a0); [|cbn [bind]; discriminate]. cbn [bind].
    destruct (strftime _); [|cbn [bind]; discriminate]. cbn [bind].
    destruct (strptime _); [|cbn [bind]; discriminate]. cbn [bind].
    destruct (mktime tz _); [|cbn [bind]; discriminate]. cbn [bind].
    destruct (getitem TIME_OPERATORS o); [|cbn [bind]; discriminate].
    cbn [bind].
    intros H. injection H as <-. f_equal.
    destruct (a5 a4 day); destruct (existsb _ _);
      destruct (existsb _ _); reflexivity.
Qed.

Lemma X4_witness :
  let t := Track.mk "" "" "" "" "" "" "" "a.mp3" "" "7200" "" in
  exists r r',
    TimeDeltaRule_init "mt" "<" "%" "3hours" None = Ok r /\
    TimeDeltaRule_init "mt" "<" "%" "3hours" (Some "xn") = Ok r' /\
    Rule_match 3600 literal_search r t = Ok true /\
    Rule_match 3600 literal_search r' t = Ok false.
Proof.
  intros t.
  destruct (X4_time_rules_take_any_flags 3600 literal_search
              TimeDeltaRule_init "mt" "<" "%" "3hours" None (Some "xn") _
              (or_introl eq_refl) eq_refl) as (r' & E & _ & H).
  eexists _, r'. split; [reflexivity|]. split; [exact E|].
  split; [reflexivity|].
  vm_compute in E. injection E as <-.
  exact (H t true eq_refl).
Defined.

(** ** Relative time spans *)

(** What the constructor of the relative-time-span rule has computed when
    it returns. *)
Lemma TimeDeltaRule_init_inv (k o d v : string) (f : option string)
      (self : AbstractRule Z) (number : Z) (unit : string) (td : timedelta) :
  TimeDeltaRule_init k o d v f = Ok (TimeDeltaRule self number unit td) ->
  0 <= number /\ timedelta_kw unit number = Ok td /\
  self = set_value (AbstractRule_init k o d v f) (seconds td).
Proof.
  unfold TimeDeltaRule_init. cbn [value AbstractRule_init].
  destruct (re_match TIME_DELTA_REGEX v) as [m|] eqn:Hm; [|discriminate].
  apply time_delta_regex_inv in Hm
    as (ds & ws & w & rest & Ev & Hne & Hds & _ & _ & _ & G1 & G2).
  rewrite G1, G2. cbn [required bind].
  destruct (py_int_digits ds Hne Hds) as (n & Hn & Hpos & Hdv).
  rewrite Hn. cbn [bind].
  destruct (timedelta_kw _ n) as [td'|] eqn:Htd; [|discriminate].
  cbn [bind]. intros H. injection H as <- <- <- <-. auto.
Qed.

(** X5: whatever the number, the threshold of a span in days or weeks is
    0, and the threshold of a span in hours, minutes or seconds is the
    span reduced modulo one day. *)
Theorem X5_threshold_by_unit :
  forall (k o d v : string) (f : option string)
         (self : AbstractRule Z) (number : Z) (unit : string) (td : timedelta),
    TimeDeltaRule_init k o d v f = Ok (TimeDeltaRule self number unit td) ->
    (unit = "days" \/ unit = "weeks" -> value self = 0) /\
    (unit = "hours" -> value self = (number mod 24) * 3600) /\
    (unit = "minutes" -> value self = (number mod 1440) * 60) /\
    (unit = "seconds" -> value self = number mod 86400).
Proof.
  intros k o d v f self number unit td H.
  apply TimeDeltaRule_init_inv in H as (Hpos & Htd & ->).
  cbn [value set_value]. unfold timedelta_kw in Htd.
  repeat split; intros E; try destruct E as [E|E]; subst unit;
    cbn [lookup TIMEDELTA_KEYWORDS] in Htd;
    repeat match type of Htd with
           | context [String.eqb ?a ?b] =>
               let t := eval vm_compute in (String.eqb a b) in
               change (String.eqb a b) with t in Htd
           end;
    cbv iota in Htd;
    match type of Htd with
    | (if ?c then _ else _) = _ => destruct c; [discriminate|]
    end;
    injection Htd as <-; cbn [seconds];
    Z.to_euclidean_division_equations; lia.
Qed.

Lemma X5_witness :
  exists self td,
    TimeDeltaRule_init "mt" "<" "%" "50hours" None
    = Ok (TimeDeltaRule self 50 "hours" td) /\
    value self = (50 mod 24) * 3600.
Proof.
  assert (E : exists self td,
             TimeDeltaRule_init "mt" "<" "%" "50hours" None
             = Ok (TimeDeltaRule self 50 "hours" td)).
  { eexists _, _. vm_compute. reflexivity. }
  destruct E as (self & td & E). exists self, td. split; [exact E|].
  exact (proj1 (proj2 (X5_threshold_by_unit _ _ _ _ _ _ _ _ _ E)) eq_refl).
Defined.

(** A greedy repetition takes the whole run when the continuation
    succeeds after it. *)
Lemma star_greedy {A : Type} (p : ascii -> bool)
      (k : list ascii -> option A) (run rest : list ascii) (x : A) :
  forallb p run = true -> stops p rest -> k rest = Some x ->
  star p (run ++ rest) k = Some x.
Proof.
  intros Hrun Hrest Hk. induction run as [|c run IH]; cbn [app].
  - destruct rest as [|c rest]; cbn [star]; [exact Hk|].
    cbn [stops] in Hrest. now rewrite Hrest.
  - cbn [forallb] in Hrun. apply andb_prop in Hrun as [Hc Hrun].
    cbn [star]. now rewrite Hc, (IH Hrun).
Qed.

(** The duration pattern on a number, whitespace and a word. *)
Lemma time_delta_regex_complete (ds ws w rest : list ascii) :
  ds <> [] -> forallb is_digit ds = true ->
  forallb is_space ws = true ->
  w <> [] -> forallb is_word w = true ->
  (ws = [] -> stops is_digit w) ->
  stops is_word rest ->
  exists m,
    re_match TIME_DELTA_REGEX (str (ds ++ ws ++ w ++ rest)) = Some m /\
    m_group m 1 = Some (str ds) /\ m_group m 2 = Some (str w).
Proof.
  intros Hds Dds Dws Hw Dw Hsep Hrest.
  destruct ds as [|c1 ds]; [congruence|]. destruct w as [|c3 w]; [congruence|].
  cbn [forallb] in Dds, Dw.
  apply andb_prop in Dds as [Hc1 Dds]. apply andb_prop in Dw as [Hc3 Dw].
  unfold re_match, TIME_DELTA_REGEX, Plus. rewrite chars_str.
  cbn [rmatch app]. rewrite Hc1.
  eexists. split.
  - apply star_greedy; [exact Dds| |].
    { destruct ws as [|c2 ws]; cbn [app stops].
      - now apply Hsep.
      - cbn [forallb] in Dws. apply andb_prop in Dws as [Hc2 _].
        now apply space_not_digit. }
    apply star_greedy; [exact Dws| |].
    { cbn [stops]. now apply word_not_space. }
    rewrite Hc3. apply star_greedy; [exact Dw|exact Hrest|]. reflexivity.
  - unfold m_group. cbn [m_groups group Nat.eqb option_map].
    rewrite (consumed_cons_app c1 ds (ws ++ c3 :: w ++ rest)).
    rewrite (consumed_cons_app c3 w rest). split; reflexivity.
Qed.

(** X6: a value made of a number, optional whitespace and a unit word
    (then anything that is not a word character) constructs exactly when
    [timedelta] accepts the unit, lower-cased and with a final [s] added
    when it has none, as a keyword with that number. *)
Theorem X6_duration_syntax :
  forall (k o d : string) (f : option string) (ds ws w rest : list ascii),
    ds <> [] -> forallb is_digit ds = true ->
    forallb is_space ws = true ->
    w <> [] -> forallb is_word w = true ->
    (ws = [] -> stops is_digit w) ->
    stops is_word rest ->
    let v := str (ds ++ ws ++ w ++ rest) in
    let unit := if endswith_s (lower (str w)) then lower (str w)
                else (lower (str w) ++ "s")%string in
    exists number,
      digits_value ds 0 = Some number /\
      TimeDeltaRule_init k o d v f
      = (td <- timedelta_kw unit number ;;
         Ok (TimeDeltaRule
               (set_value (AbstractRule_init k o d v f) (seconds td))
               number unit td)).
Proof.
  intros k o d f ds ws w rest Hds Dds Dws Hw Dw Hsep Hrest v unit.
  destruct (time_delta_regex_complete ds ws w rest Hds Dds Dws Hw Dw Hsep Hrest)
    as (m & Hm & G1 & G2).
  destruct (py_int_digits ds Hds Dds) as (n & Hn & _ & Hv).
  exists n. split; [exact Hv|].
  subst v unit. unfold TimeDeltaRule_init. cbn [value AbstractRule_init].
  rewrite Hm, G1, G2. cbn [required bind]. rewrite Hn. cbn [bind].
  reflexivity.
Qed.

Lemma X6_witness :
  exists number,
    digits_value (chars "3") 0 = Some number /\
    TimeDeltaRule_init "mt" "<" "%" "3 Day ago" None
    = (td <- timedelta_kw "days" number ;;
       Ok (TimeDeltaRule
             (set_value (AbstractRule_init "mt" "<" "%" "3 Day ago" None)
                        (seconds td))
             number "days" td)).
Proof.
  apply (X6_duration_syntax "mt" "<" "%" None (chars "3") (chars " ")
           (chars "Day") (chars " ago")).
  - discriminate.
  - reflexivity.
  - reflexivity.
  - discriminate.
  - reflexivity.
  - discriminate.
  - reflexivity.
Defined.

(** ** Absolute dates *)

(** [strptime] on a printed date, whether the day exists or not. *)
Lemma strptime_printed_check (y m d : Z) :
  1000 <= y <= 9999 -> 1 <= m <= 12 -> 1 <= d <= 31 ->
  strptime (str (decimal y ++ "-"%char :: two_digits m
                          ++ "-"%char :: two_digits d))
  = if d <=? days_in_month y m then Ok (mkTime y m d 0 0 0)
    else Raise ValueError.
Proof.
  intros Hy Hm Hd.
  destruct (decimal_year y Hy) as (a & b & c & e & -> & Ha & Hb & Hc & He & Hv).
  unfold strptime. cbn [app].
  rewrite (time_stamp_regex_printed a b c e m d) by (auto; lia).
  cbn [m_rest]. unfold m_group.
  cbn [m_groups group Nat.eqb option_map required bind].
  destruct (py_int_digits [a; b; c; e]) as (n & -> & _ & Hn).
  { discriminate. }
  { cbn [forallb]. now rewrite Ha, Hb, Hc, He. }
  rewrite Hv in Hn. injection Hn as <-. cbn [bind].
  rewrite !py_int_two_digits by lia. cbn [bind].
  replace (1 <=? y) with true by (symmetry; apply Z.leb_le; lia).
  replace (1 <=? d) with true by (symmetry; apply Z.leb_le; lia).
  reflexivity.
Qed.

(** X7: a date written as four digits, two digits and two digits with
    dashes constructs when the day exists and the year is 1900 or later,
    and the rule then holds the local midnight of that day; the
    constructor raises [ValueError] when the month has no such day and
    when the year is before 1900. *)
Theorem X7_date_syntax :
  forall tz (k o d : string) (f : option string) (y m dd : Z),
    tz mod 60 = 0 -> 1000 <= y <= 9999 -> 1 <= m <= 12 -> 1 <= dd <= 31 ->
    let v := str (decimal y ++ "-"%char :: two_digits m
                            ++ "-"%char :: two_digits dd) in
    (1900 <= y -> dd <= days_in_month y m ->
     TimeStampRule_init tz k o d v f
     = Ok (TimeStampRule
             (set_value (AbstractRule_init k o d v f)
                        (days_from_civil y m dd * 86400 - tz)))) /\
    (days_in_month y m < dd ->
     TimeStampRule_init tz k o d v f = Raise ValueError) /\
    (y < 1900 -> TimeStampRule_init tz k o d v f = Raise ValueError).
Proof.
  intros tz k o d f y m dd Htz Hy Hm Hd v.
  unfold TimeStampRule_init. cbn [value AbstractRule_init]. subst v.
  rewrite strptime_printed_check by assumption.
  split; [|split].
  - intros Hy' Hdd.
    replace (dd <=? days_in_month y m) with true
      by (symmetry; apply Z.leb_le; lia).
    cbn [bind]. rewrite mktime_midnight by assumption. reflexivity.
  - intros Hdd.
    replace (dd <=? days_in_month y m) with false
      by (symmetry; apply Z.leb_gt; lia).
    reflexivity.
  - intros Hy'. destruct (dd <=? days_in_month y m); [|reflexivity].
    cbn [bind]. unfold mktime, gettmarg_year. cbn [tm_year].
    replace (y <? 1900) with true by (symmetry; apply Z.ltb_lt; lia).
    replace (y <=? 99) with false by (symmetry; apply Z.leb_gt; lia).
    replace (y <=? 68) with false by (symmetry; apply Z.leb_gt; lia).
    now rewrite !andb_false_r.
Qed.

Lemma X7_witness :
  TimeStampRule_init 3600 "mt" "<" "@" "2012-02-29" None
  = Ok (TimeStampRule
          (set_value (AbstractRule_init "mt" "<" "@" "2012-02-29" None)
                     (days_from_civil 2012 2 29 * 86400 - 3600))) /\
  TimeStampRule_init 3600 "mt" "<" "@" "2010-02-29" None = Raise ValueError /\
  TimeStampRule_init 3600 "mt" "<" "@" "1899-12-31" None = Raise ValueError.
Proof.
  split; [|split].
  - apply (proj1 (X7_date_syntax 3600 "mt" "<" "@" None 2012 2 29
                    eq_refl ltac:(lia) ltac:(lia) ltac:(lia)));
      [lia|vm_compute; discriminate].
  - apply (proj1 (proj2 (X7_date_syntax 3600 "mt" "<" "@" None 2010 2 29
                           eq_refl ltac:(lia) ltac:(lia) ltac:(lia)))).
    vm_compute. reflexivity.
  - apply (proj2 (proj2 (X7_date_syntax 3600 "mt" "<" "@" None 1899 12 31
                           eq_refl ltac:(lia) ltac:(lia) ltac:(lia)))).
    lia.
Defined.

Lemma time_operator_days (o : string) (op : Z -> Z -> bool) (a b tz : Z) :
  lookup TIME_OPERATORS o = Some op ->
  op (a * 86400 - tz) (b * 86400 - tz) = op a b.
Proof.
  unfold TIME_OPERATORS. cbn [lookup].
  repeat (destruct (String.eqb o _);
          [intros H; injection H as <-|]); try discriminate.
  - destruct (a =? b) eqn:E.
    + apply Z.eqb_eq in E. apply Z.eqb_eq. lia.
    + apply Z.eqb_neq in E. apply Z.eqb_neq. lia.
  - destruct (a <=? b) eqn:E.
    + apply Z.leb_le in E. apply Z.leb_le. lia.
    + apply Z.leb_gt in E. apply Z.leb_gt. lia.
  - rewrite !Z.geb_leb. destruct (b <=? a) eqn:E.
    + apply Z.leb_le in E. apply Z.leb_le. lia.
    + apply Z.leb_gt in E. apply Z.leb_gt. lia.
Qed.

(** X8: an absolute-date rule compares whole days in UTC: when the rule
    holds the local midnight of day number [day] and the field of the
    track is an instant [n] from 1900 to 9999, the result is its operator
    on the day number of [n] in UTC and [day], inverted under [n]; so it
    is the same for all the instants of one day in UTC. *)
Theorem X8_date_rule_compares_utc_days :
  forall tz re_search (self : AbstractRule Z) (track : Track.t)
         (kw : string * string) (v : string) (n day : Z)
         (op : Z -> Z -> bool),
    tz mod 60 = 0 ->
    lookup KEYWORDS (key self) = Some kw ->
    Track.getattr track (lower (fst kw)) = Ok v ->
    py_float v = Ok n -> MIN_INSTANT <= n <= MAX_INSTANT ->
    lookup TIME_OPERATORS (operator self) = Some op ->
    value self = day * 86400 - tz ->
    Rule_match tz re_search (TimeStampRule self) track
    = Ok (xorb (negate self) (op (n / 86400) day)).
Proof.
  intros tz re_search self track kw v n day op Htz Hkw Hv Hn Hr Hop Hval.
  unfold Rule_match, getitem. cbn [rule_key rule_negate Rule__match__].
  rewrite Hkw. cbn [bind]. rewrite Hv. cbn [bind].
  destruct (TimeStampRule_match_day tz self v n op Htz Hn Hr Hop)
    as (y & m & d & E & ->).
  cbn [bind]. pose proof (days_from_civil_of_day (n / 86400)) as I.
  rewrite E in I. rewrite I, Hval, (time_operator_days _ _ _ _ _ Hop).
  destruct (negate self); destruct (op (n / 86400) day); reflexivity.
Qed.

Lemma X8_witness :
  let early := Track.mk "" "" "" "" "" "" "" "a.mp3" "" "1262388600" "" in
  let self := mkAbstractRule "mt" "=" "@" (14611 * 86400 - 3600) [] false in
  Rule_match 3600 literal_search (TimeStampRule self) early
  = Ok (xorb false (1262388600 / 86400 =? 14611)).
Proof.
  intros early self.
  apply (X8_date_rule_compares_utc_days 3600 literal_search self early
           ("mtime", "File modification time") "1262388600" 1262388600
           14611 Z.eqb); try reflexivity.
  unfold MIN_INSTANT, MAX_INSTANT. lia.
Defined.

(** ** Rule strings *)

Lemma split_plus_last (p : ascii -> bool) (c : ascii) (pre : list ascii) :
  p c = true ->
  forall cur in_sep, (in_sep = true -> cur = []) ->
                     In [] (split_plus p (pre ++ [c]) cur in_sep).
Proof.
  intros Hc. induction pre as [|a pre IH]; cbn [app split_plus];
    intros cur in_sep Hcur.
  - rewrite Hc. destruct in_sep.
    + rewrite (Hcur eq_refl). now left.
    + right. now left.
  - destruct (p a).
    + destruct in_sep; [now apply IH|]. right. now apply IH.
    + apply IH. discriminate.
Qed.

Lemma getRules_empty_segment (tz : Z) (segments : list string) :
  In "" segments -> exists e, getRules tz segments = Raise e.
Proof.
  induction segments as [|s segments IH]; [intros []|].
  intros [->|H]; cbn [getRules].
  - eexists. reflexivity.
  - destruct (getRule tz s); [|eexists; reflexivity]. cbn [bind].
    destruct (IH H) as [e ->]. eexists. reflexivity.
Qed.

(** X9: a rule string that starts or ends with whitespace makes the
    playlist constructor raise, one of its segments being empty. *)
Theorem X9_rule_string_with_outer_whitespace :
  forall tz (name ruleString : string) (c : ascii) (rest : list ascii),
    is_space c = true ->
    chars ruleString = c :: rest \/ chars ruleString = (rest ++ [c])%list ->
    exists e, Playlist_init tz name ruleString = Raise e.
Proof.
  intros tz name ruleString c rest Hc H. unfold Playlist_init.
  assert (E : In "" (REGEX_split ruleString)).
  { unfold REGEX_split. change "" with (str []). apply in_map.
    destruct H as [-> | ->].
    - cbn [split_plus]. rewrite Hc. now left.
    - apply split_plus_last; [exact Hc|discriminate]. }
  destruct (getRules_empty_segment tz _ E) as [e ->]. eexists. reflexivity.
Qed.

Lemma X9_witness :
  exists e, Playlist_init 3600 "recent" "mt<%3hours% " = Raise e.
Proof.
  apply (X9_rule_string_with_outer_whitespace 3600 "recent" "mt<%3hours% "
           " "%char (chars "mt<%3hours%")).
  - reflexivity.
  - right. reflexivity.
Defined.





(** ** Evaluating a playlist *)

Section Evaluation.
Variable tz : Z.
Variable re_search : string -> string -> Z -> result bool.

Lemma toAdd_true (rules : list Rule) (t : Track.t) :
  toAdd tz re_search rules t = Ok true <->
  forall r, In r rules -> Rule_match tz re_search r t = Ok true.
Proof.
  induction rules as [|r rules IH]; cbn [toAdd].
  - split; [intros _ r []|reflexivity].
  - destruct (Rule_match tz re_search r t) as [[|]|e] eqn:E; cbn [bind].
    + rewrite IH. split.
      * intros H r' [<-|Hin]; auto.
      * intros H r' Hin. apply H. now right.
    + split; [discriminate|]. intros H.
      specialize (H r (or_introl eq_refl)). congruence.
    + split; [discriminate|]. intros H.
      specialize (H r (or_introl eq_refl)). congruence.
Qed.

Lemma toAdd_false (rules : list Rule) (t : Track.t) :
  toAdd tz re_search rules t = Ok false ->
  exists r, In r rules /\ Rule_match tz re_search r t = Ok false.
Proof.
  induction rules as [|r rules IH]; cbn [toAdd]; [discriminate|].
  destruct (Rule_match tz re_search r t) as [[|]|e] eqn:E; cbn [bind].
  - intros H. destruct (IH H) as (r' & Hin & Hr'). exists r'. split; auto.
    now right.
  - intros _. exists r. split; [now left|exact E].
  - discriminate.
Qed.

(** The tracks found are those on which the inner loop ends with [toAdd]
    set, in the order of the record set. *)
Lemma matching_filter (rules : list Rule) (values found : list Track.t) :
  matching tz re_search rules values = Ok found ->
  (forall t, In t values -> exists b, toAdd tz re_search rules t = Ok b) /\
  found = filter (fun t => match toAdd tz re_search rules t with
                           | Ok true => true
                           | _ => false
                           end) values.
Proof.
  revert found. induction values as [|t values IH]; cbn [matching filter];
    intros found H.
  - injection H as <-. split; [intros t []|reflexivity].
  - destruct (toAdd tz re_search rules t) as [b|] eqn:E; [|discriminate].
    cbn [bind] in H.
    destruct (matching tz re_search rules values) as [found'|];
      [|discriminate].
    cbn [bind] in H. injection H as <-.
    destruct (IH found' eq_refl) as [Hall ->]. split.
    + intros t' [<-|Hin]; [eauto|auto].
    + destruct b; reflexivity.
Qed.
End Evaluation.

(** X11: an evaluation that returns keeps the name and the rules, and its
    tracks are the records that every rule matches, in the order of the
    record set; each record left out is one that some rule does not
    match. *)
Theorem X11_evaluation_is_a_filter :
  forall tz re_search (self self' : Playlist)
         (records : list (string * Track.t)),
    findMatchingTracks tz re_search self records = Ok self' ->
    name self' = name self /\ rules self' = rules self /\
    exists keep : Track.t -> bool,
      tracks self' = filter keep (map snd records) /\
      forall t, In t (map snd records) ->
        (keep t = true <->
         forall r, In r (rules self) -> Rule_match tz re_search r t = Ok true)
        /\
        (keep t = false ->
         exists r, In r (rules self) /\
                   Rule_match tz re_search r t = Ok false).
Proof.
  intros tz re_search self self' records. unfold findMatchingTracks.
  cbn [rules name m3u].
  destruct (matching tz re_search (rules self) (map snd records))
    as [found|] eqn:E; [|discriminate].
  cbn [bind]. intros H. injection H as <-. unfold setM3u.
  cbn [name rules tracks]. split; [reflexivity|]. split; [reflexivity|].
  apply matching_filter in E as [Hall ->].
  eexists. split; [reflexivity|]. intros t Hin. cbv beta.
  destruct (Hall t Hin) as [b Hb]. rewrite Hb. destruct b; split.
  - split; [intros _; now apply toAdd_true|reflexivity].
  - discriminate.
  - split; [discriminate|]. intros H. apply toAdd_true in H. congruence.
  - intros _. now apply toAdd_false.
Qed.

Lemma X11_witness :
  let a := Track.mk "Fred" "" "The Band and Me" "" "" "" "" "a.mp3" "" "" "" in
  let b := Track.mk "George" "" "Nothing" "" "" "" "" "b.mp3" "" "" "" in
  let records := [("b.mp3", b); ("a.mp3", a)] in
  let self := mkPlaylist "fred"
                [RegexRule (mkAbstractRule "ar" "=" "/" "Fred" [] false) 0]
                [b] None in
  exists self',
    findMatchingTracks 3600 literal_search self records = Ok self' /\
    name self' = "fred" /\ rules self' = rules self /\
    exists keep : Track.t -> bool,
      tracks self' = filter keep (map snd records) /\
      forall t, In t (map snd records) ->
        (keep t = true <->
         forall r, In r (rules self) ->
                   Rule_match 3600 literal_search r t = Ok true)
        /\
        (keep t = false ->
         exists r, In r (rules self) /\
                   Rule_match 3600 literal_search r t = Ok false).
Proof.
  intros a b records self. eexists. split; [vm_compute; reflexivity|].
  apply (X11_evaluation_is_a_filter 3600 literal_search self _ records).
  vm_compute. reflexivity.
Defined.

(** X12: when one rule matches no record, an evaluation that returns has
    no track and renders as a single newline; and when the first rule
    matches no record the evaluation does return, the later rules not
    being tried. *)
Theorem X12_rule_that_matches_nothing :
  forall tz re_search (self : Playlist) (records : list (string * Track.t))
         (r : Rule),
    (forall t, In t (map snd records) ->
               Rule_match tz re_search r t = Ok false) ->
    (forall self', In r (rules self) ->
       findMatchingTracks tz re_search self records = Ok self' ->
       tracks self' = [] /\ m3u self' = Some (String newline "")) /\
    (forall rest, rules self = r :: rest ->
       findMatchingTracks tz re_search self records
       = Ok (mkPlaylist (name self) (rules self) []
                        (Some (String newline "")))).
Proof.
  intros tz re_search self records r Hr. split.
  - intros self' Hin. unfold findMatchingTracks. cbn [rules name m3u].
    destruct (matching tz re_search (rules self) (map snd records))
      as [found|] eqn:E; [|discriminate].
    cbn [bind]. intros H. injection H as <-. unfold setM3u. cbn [tracks m3u].
    apply matching_filter in E as [_ ->].
    assert (F : forall l, (forall t, In t l ->
                  Rule_match tz re_search r t = Ok false) ->
                filter (fun t => match toAdd tz re_search (rules self) t with
                                 | Ok true => true
                                 | _ => false
                                 end) l = []).
    { induction l as [|t l IH]; [reflexivity|]. intros Hl. cbn [filter].
      destruct (toAdd tz re_search (rules self) t) as [[|]|] eqn:Et.
      - apply toAdd_true with (r := r) in Et; [|exact Hin].
        rewrite (Hl t (or_introl eq_refl)) in Et. discriminate.
      - apply IH. intros t' Ht'. apply Hl. now right.
      - apply IH. intros t' Ht'. apply Hl. now right. }
    rewrite (F _ Hr). split; reflexivity.
  - intros rest Hrules. unfold findMatchingTracks. cbn [rules name m3u].
    rewrite Hrules.
    assert (M : forall l, (forall t, In t l ->
                  Rule_match tz re_search r t = Ok false) ->
                matching tz re_search (r :: rest) l = Ok []).
    { induction l as [|t l IH]; [reflexivity|]. intros Hl.
      cbn [matching toAdd]. rewrite (Hl t (or_introl eq_refl)). cbn [bind].
      rewrite IH; [reflexivity|]. intros t' Ht'. apply Hl. now right. }
    rewrite (M _ Hr). reflexivity.
Qed.

Lemma X12_witness :
  let a := Track.mk "Fred" "" "" "" "" "" "" "a.mp3" "" "" "" in
  let never := RegexRule (mkAbstractRule "ar" "=" "/" "Xavier" [] false) 0 in
  let broken := RegexRule (mkAbstractRule "zz" "<" "/" "x" [] false) 0 in
  let self := mkPlaylist "none" [never; broken] [] None in
  findMatchingTracks 3600 literal_search self [("a.mp3", a)]
  = Ok (mkPlaylist "none" [never; broken] [] (Some (String newline ""))).
Proof.
  intros a never broken self.
  apply (proj2 (X12_rule_that_matches_nothing 3600 literal_search self
                  [("a.mp3", a)] never
                  ltac:(intros t [<-|[]]; reflexivity)) [broken]).
  reflexivity.
Defined.

(** X13: the order of the rules does not change the tracks found: two
    playlists whose rules are the same up to order, both evaluated without
    error on one record set, hold the same tracks. *)
Theorem X13_rule_order_is_irrelevant :
  forall tz re_search (p1 p2 p1' p2' : Playlist)
         (records : list (string * Track.t)),
    Permutation (rules p1) (rules p2) ->
    findMatchingTracks tz re_search p1 records = Ok p1' ->
    findMatchingTracks tz re_search p2 records = Ok p2' ->
    tracks p1' = tracks p2' /\ m3u p1' = m3u p2'.
Proof.
  intros tz re_search p1 p2 p1' p2' records Hperm.
  unfold findMatchingTracks. cbn [rules name m3u].
  destruct (matching tz re_search (rules p1) (map snd records))
    as [f1|] eqn:E1; [|discriminate].
  destruct (matching tz re_search (rules p2) (map snd records))
    as [f2|] eqn:E2; [|discriminate].
  cbn [bind]. intros H1 H2. injection H1 as <-. injection H2 as <-.
  unfold setM3u. cbn [tracks m3u].
  apply matching_filter in E1 as [A1 ->]. apply matching_filter in E2 as [A2 ->].
  assert (F : filter (fun t => match toAdd tz re_search (rules p1) t with
                               | Ok true => true
                               | _ => false
                               end) (map snd records)
              = filter (fun t => match toAdd tz re_search (rules p2) t with
                                 | Ok true => true
                                 | _ => false
                                 end) (map snd records)).
  { apply filter_ext_in. intros t Hin.
    destruct (A1 t Hin) as [b1 Hb1]. destruct (A2 t Hin) as [b2 Hb2].
    rewrite Hb1, Hb2. destruct b1, b2; try reflexivity; exfalso.
    - assert (toAdd tz re_search (rules p2) t = Ok true); [|congruence].
      apply toAdd_true. intros r Hr.
      apply (proj1 (toAdd_true tz re_search (rules p1) t) Hb1).
      apply Permutation_in with (l := rules p2); [now symmetry|exact Hr].
    - assert (toAdd tz re_search (rules p1) t = Ok true); [|congruence].
      apply toAdd_true. intros r Hr.
      apply (proj1 (toAdd_true tz re_search (rules p2) t) Hb2).
      apply Permutation_in with (l := rules p1); assumption. }
  rewrite F. split; reflexivity.
Qed.

Lemma X13_witness :
  let a := Track.mk "Fred" "" "The Band and Me" "" "" "" "" "a.mp3" "" "" "" in
  let b := Track.mk "George" "" "Nothing" "" "" "" "" "b.mp3" "" "" "" in
  let records := [("a.mp3", a); ("b.mp3", b)] in
  let r1 := RegexRule (mkAbstractRule "ar" "=" "/" "Fred" [] false) 0 in
  let r2 := RegexRule (mkAbstractRule "ti" "=" "/" "Band" [] false) 0 in
  exists p1' p2',
    findMatchingTracks 3600 literal_search
      (mkPlaylist "x" [r1; r2] [] None) records = Ok p1' /\
    findMatchingTracks 3600 literal_search
      (mkPlaylist "y" [r2; r1] [] None) records = Ok p2' /\
    tracks p1' = tracks p2' /\ m3u p1' = m3u p2'.
Proof.
  intros a b records r1 r2. eexists _, _.
  split; [vm_compute; reflexivity|]. split; [vm_compute; reflexivity|].
  apply (X13_rule_order_is_irrelevant 3600 literal_search
           (mkPlaylist "x" [r1; r2] [] None) (mkPlaylist "y" [r2; r1] [] None)
           _ _ records).
  - apply perm_swap.
  - vm_compute. reflexivity.
  - vm_compute. reflexivity.
Defined.

(** ** Paths of a playlist *)

(** [endswith_slash] holds of the texts that a slash ends. *)
Lemma endswith_slash_iff (s : string) :
  endswith_slash s = true <-> exists d, s = (d ++ "/")%string.
Proof.
  unfold endswith_slash. split.
  - induction s as [|c s IH]; cbn [chars list_ascii_of_string ends_with];
      [discriminate|].
    destruct s as [|c' s].
    + cbn [list_ascii_of_string]. intros H. apply Ascii.eqb_eq in H. subst c.
      now exists "".
    + cbn [chars list_ascii_of_string] in *. intros H.
      destruct (IH H) as [d E]. exists (String c d). cbn [append].
      now rewrite <- E.
  - intros [d ->]. induction d as [|c d IH]; [reflexivity|].
    cbn [append chars list_ascii_of_string ends_with] in *.
    unfold chars in IH.
    destruct (list_ascii_of_string (d ++ "/")) eqn:E; [|exact IH].
    destruct d; discriminate E.
Qed.

(** X14: the file of a playlist and its rendering lie in the directory
    given, under the name of the playlist: the directory, a slash unless
    the directory is empty or ends with one, and the name; unless that
    name starts with a slash: then the directory is not used at all. *)
Theorem X14_playlist_paths :
  forall (self : Playlist) (dir : string),
    (startswith "/" (name self) = true ->
     getSaveFile self dir = name self /\
     getM3uPath self dir = (name self ++ ".m3u")%string) /\
    (startswith "/" (name self) = false ->
     (dir = "" ->
      getSaveFile self dir = name self /\
      getM3uPath self dir = (name self ++ ".m3u")%string) /\
     (forall d, dir = (d ++ "/")%string ->
      getSaveFile self dir = (d ++ "/" ++ name self)%string /\
      getM3uPath self dir = (d ++ "/" ++ name self ++ ".m3u")%string) /\
     (dir <> "" -> (forall d, dir <> (d ++ "/")%string) ->
      getSaveFile self dir = (dir ++ "/" ++ name self)%string /\
      getM3uPath self dir = (dir ++ "/" ++ name self ++ ".m3u")%string)).
Proof.
  intros self dir. unfold getSaveFile, getM3uPath, path_join.
  assert (E : startswith "/" (name self ++ ".m3u") = startswith "/" (name self)).
  { destruct (name self) as [|c a]; [reflexivity|].
    unfold startswith. cbn [chars list_ascii_of_string append strip_prefix].
    destruct (Ascii.eqb "/" c); reflexivity. }
  rewrite E. split; intros H; rewrite H.
  - split; reflexivity.
  - split; [|split].
    + intros ->. split; reflexivity.
    + intros d ->.
      assert (S : endswith_slash (d ++ "/") = true)
        by (apply endswith_slash_iff; now exists d).
      rewrite S, orb_true_r, !string_app_assoc. split; reflexivity.
    + intros Hne Hno.
      assert (N : String.eqb dir "" = false) by now apply String.eqb_neq.
      assert (S : endswith_slash dir = false).
      { destruct (endswith_slash dir) eqn:S; [|reflexivity].
        apply endswith_slash_iff in S as [d Ed]. now destruct (Hno d). }
      rewrite N, S. split; reflexivity.
Qed.

Lemma X14_witness :
  let inside := mkPlaylist "rock" [] [] None in
  let outside := mkPlaylist "/tmp/rock" [] [] None in
  getM3uPath outside "/var/lib/mpd/playlists" = "/tmp/rock.m3u" /\
  getSaveFile inside "" = "rock" /\
  getM3uPath inside "/var/lib/mpd/playlists/"
  = "/var/lib/mpd/playlists/rock.m3u" /\
  getSaveFile inside "/var/lib/mpd/playlists" = "/var/lib/mpd/playlists/rock" /\
  getM3uPath inside "/var/lib/mpd/playlists"
  = "/var/lib/mpd/playlists/rock.m3u".
Proof.
  intros inside outside.
  pose proof (proj2 (X14_playlist_paths inside "") eq_refl) as H0.
  pose proof (proj2 (X14_playlist_paths inside "/var/lib/mpd/playlists/")
                eq_refl) as H1.
  pose proof (proj2 (X14_playlist_paths inside "/var/lib/mpd/playlists")
                eq_refl) as H2.
  assert (N : forall d, "/var/lib/mpd/playlists" <> (d ++ "/")%string).
  { intros d E. apply (f_equal endswith_slash) in E.
    rewrite (proj2 (endswith_slash_iff (d ++ "/")) (ex_intro _ d eq_refl)) in E.
    discriminate E. }
  split; [|split; [|split; [|split]]].
  - apply (proj1 (X14_playlist_paths outside "/var/lib/mpd/playlists")).
    reflexivity.
  - exact (proj1 (proj1 H0 eq_refl)).
  - exact (proj2 (proj1 (proj2 H1) "/var/lib/mpd/playlists" eq_refl)).
  - exact (proj1 (proj2 (proj2 H2) ltac:(discriminate) N)).
  - exact (proj2 (proj2 (proj2 H2) ltac:(discriminate) N)).
Defined.

(** ** The configuration file *)

Lemma lower_char_underscore (c : ascii) :
  c <> underscore -> lower_char c <> underscore.
Proof.
  destruct c as [[] [] [] [] [] [] [] []]; vm_compute; intros H E;
    first [discriminate E | now apply H].
Qed.

Lemma upper_char_underscore (c : ascii) :
  c <> underscore -> upper_char c <> underscore.
Proof.
  destruct c as [[] [] [] [] [] [] [] []]; vm_compute; intros H E;
    first [discriminate E | now apply H].
Qed.

Lemma capitalize_underscore (t : list ascii) :
  ~ In underscore t -> ~ In underscore (capitalize t).
Proof.
  destruct t as [|c t]; [auto|]. cbn [capitalize]. intros H [E|Hin].
  - apply (upper_char_underscore c); [|exact E]. intros ->. apply H. now left.
  - apply in_map_iff in Hin as (x & E & Hx).
    apply (lower_char_underscore x); [|exact E]. intros ->. apply H. now right.
Qed.

Lemma split_char_tokens (s : list ascii) :
  forall cur, ~ In underscore cur ->
              Forall (fun t => ~ In underscore t) (split_char underscore s cur).
Proof.
  induction s as [|c s IH]; cbn [split_char]; intros cur Hcur.
  - constructor; [|constructor]. now rewrite <- in_rev.
  - destruct (Ascii.eqb c underscore) eqn:E.
    + constructor; [now rewrite <- in_rev|]. apply IH. intros [].
    + apply IH. intros [Hc|H]; [|auto].
      rewrite Hc, Ascii.eqb_refl in E. discriminate.
Qed.

Lemma split_char_plain (s : list ascii) :
  ~ In underscore s ->
  forall cur, split_char underscore s cur = [(rev cur ++ s)%list].
Proof.
  induction s as [|c s IH]; cbn [split_char]; intros H cur.
  - now rewrite app_nil_r.
  - destruct (Ascii.eqb c underscore) eqn:E.
    + apply Ascii.eqb_eq in E. subst c. exfalso. apply H. now left.
    + rewrite IH by (intros Hin; apply H; now right).
      cbn [rev]. now rewrite <- app_assoc.
Qed.

Lemma camel_tokens_underscore (tokens : list (list ascii)) :
  Forall (fun t => ~ In underscore t) tokens ->
  ~ In underscore (camel_tokens tokens).
Proof.
  induction 1 as [|t tokens Ht _ IH]; cbn [camel_tokens]; [auto|].
  intros Hin. apply in_app_or in Hin as [Hin|Hin]; [|auto].
  now apply (capitalize_underscore t).
Qed.

(** X15: the name that [_underscoreToCamelCase] returns holds no
    underscore; a name without underscore is returned as it is; and the
    function applied twice gives what it gives applied once. *)
Theorem X15_camel_case :
  forall s : string,
    ~ In underscore (chars (_underscoreToCamelCase s)) /\
    (~ In underscore (chars s) -> _underscoreToCamelCase s = s) /\
    _underscoreToCamelCase (_underscoreToCamelCase s)
    = _underscoreToCamelCase s.
Proof.
  assert (P : forall s, ~ In underscore (chars s) ->
                        _underscoreToCamelCase s = s).
  { intros s H. unfold _underscoreToCamelCase.
    change "_"%char with underscore. rewrite (split_char_plain _ H []).
    cbn [rev app camel_tokens]. rewrite app_nil_r. apply str_chars. }
  assert (N : forall s, ~ In underscore (chars (_underscoreToCamelCase s))).
  { intros s. unfold _underscoreToCamelCase. change "_"%char with underscore.
    pose proof (split_char_tokens (chars s) [] (fun H => H)) as F.
    destruct (split_char underscore (chars s) []) as [|first tokens];
      [intros []|].
    inversion F as [|? ? Hfirst Htokens]; subst.
    rewrite chars_str. intros Hin. apply in_app_or in Hin as [Hin|Hin];
      [auto|]. now apply (camel_tokens_underscore tokens). }
  intros s. split; [apply N|]. split; [apply P|]. apply P, N.
Qed.

Lemma X15_witness :
  ~ In underscore (chars "port") /\ _underscoreToCamelCase "port" = "port".
Proof.
  assert (H : ~ In underscore (chars "port")).
  { intros [E|[E|[E|[E|[]]]]]; discriminate E. }
  split; [exact H|]. exact (proj1 (proj2 (X15_camel_case "port")) H).
Defined.

Section ConfigFacts.
Variable expanduser : string -> string.
Variable user : option string.

Lemma parsempdconf_loop_app (l1 l2 : list string) :
  forall d,
    parsempdconf_loop expanduser user d (l1 ++ l2)
    = (d' <- parsempdconf_loop expanduser user d l1 ;;
       parsempdconf_loop expanduser user d' l2).
Proof.
  induction l1 as [|raw l1 IH]; intros d; cbn [app parsempdconf_loop bind];
    [reflexivity|].
  destruct (parsempdconf_line expanduser user d raw); cbn [bind];
    [apply IH|reflexivity].
Qed.

Lemma split_first_space_none (s : list ascii) :
  forallb (fun c => negb (is_space c)) s = true ->
  forall key, split_first_space s key = None.
Proof.
  induction s as [|c s IH]; cbn [forallb split_first_space]; intros H key;
    [reflexivity|].
  apply andb_prop in H as [Hc Hs]. apply negb_true_iff in Hc.
  rewrite Hc. now apply IH.
Qed.

Lemma split_first_space_word (key ws value : list ascii) :
  forallb (fun c => negb (is_space c)) key = true ->
  ws <> [] -> forallb is_space ws = true -> stops is_space value ->
  forall acc,
    split_first_space (key ++ ws ++ value) acc
    = Some ((rev acc ++ key)%list, value).
Proof.
  intros Hkey Hws Dws Hvalue.
  induction key as [|c key IH]; intros acc.
  - cbn [app]. destruct ws as [|w ws]; [congruence|].
    cbn [forallb] in Dws. apply andb_prop in Dws as [Hw Dws].
    cbn [app split_first_space]. rewrite Hw, app_nil_r. f_equal. f_equal.
    clear Hws Hw. induction ws as [|w' ws IHws]; cbn [app drop_while].
    + destruct value as [|v value]; [reflexivity|].
      cbn [stops] in Hvalue. cbn [drop_while]. now rewrite Hvalue.
    + cbn [forallb] in Dws. apply andb_prop in Dws as [Hw' Dws].
      rewrite Hw'. now apply IHws.
  - cbn [forallb] in Hkey. apply andb_prop in Hkey as [Hc Hkey].
    apply negb_true_iff in Hc. cbn [app split_first_space]. rewrite Hc.
    rewrite (IH Hkey). cbn [rev]. now rewrite <- app_assoc.
Qed.
End ConfigFacts.

(** X16: a line of the configuration file that is blank, or that holds one
    of the characters [#], [{] and [}] anywhere, has no effect wherever it
    stands. *)
Theorem X16_config_skips_comments :
  forall expanduser (user : option string) (before after : list string)
         (raw : string),
    strip (chars raw) = [] \/ has_comment_char (strip (chars raw)) = true ->
    parsempdconf expanduser (before ++ raw :: after) user
    = parsempdconf expanduser (before ++ after) user.
Proof.
  intros expanduser user before after raw H. unfold parsempdconf.
  rewrite !parsempdconf_loop_app.
  destruct (parsempdconf_loop expanduser user [] before) as [d|];
    [|reflexivity].
  cbn [bind parsempdconf_loop].
  assert (E : parsempdconf_line expanduser user d raw = Ok d).
  { unfold parsempdconf_line. destruct H as [-> | H]; [reflexivity|].
    destruct (strip (chars raw)); [reflexivity|]. now rewrite H. }
  rewrite E. reflexivity.
Qed.

Lemma X16_witness :
  parsempdconf (fun s => s)
    ["port 6600"; "music_directory /srv/#1 hits"; "user mpd"] None
  = parsempdconf (fun s => s) ["port 6600"; "user mpd"] None.
Proof.
  apply (X16_config_skips_comments (fun s => s) None ["port 6600"]
           ["user mpd"] "music_directory /srv/#1 hits").
  right. reflexivity.
Defined.

(** X17: a line that is one word, without comment character, makes
    [parsempdconf] raise [ValueError] when the lines before it parse. *)
Theorem X17_config_line_of_one_word :
  forall expanduser (user : option string) (before after : list string)
         (raw : string) (d : list (string * string)),
    parsempdconf expanduser before user = Ok d ->
    strip (chars raw) <> [] ->
    has_comment_char (strip (chars raw)) = false ->
    forallb (fun c => negb (is_space c)) (strip (chars raw)) = true ->
    parsempdconf expanduser (before ++ raw :: after) user = Raise ValueError.
Proof.
  intros expanduser user before after raw d Hd Hne Hc Hw.
  unfold parsempdconf in *. rewrite parsempdconf_loop_app, Hd.
  cbn [bind parsempdconf_loop]. unfold parsempdconf_line.
  destruct (strip (chars raw)) as [|c line] eqn:E; [congruence|].
  rewrite Hc, split_first_space_none by exact Hw. reflexivity.
Qed.

Lemma X17_witness :
  parsempdconf (fun s => s) ["port 6600"; "gapless_mp3_playback"; "user mpd"]
               None
  = Raise ValueError.
Proof.
  apply (X17_config_line_of_one_word (fun s => s) None ["port 6600"]
           ["user mpd"] "gapless_mp3_playback" [("port", "6600")]).
  - reflexivity.
  - discriminate.
  - reflexivity.
  - reflexivity.
Defined.

(** ** Dictionaries *)

Lemma lookup_dict_set_same {V : Type} (d : list (string * V)) (k : string)
      (v : V) :
  lookup (dict_set d k v) k = Some v.
Proof.
  induction d as [|[k' v'] d IH]; cbn [dict_set lookup].
  - now rewrite String.eqb_refl.
  - destruct (String.eqb k k') eqn:E; cbn [lookup].
    + now rewrite String.eqb_refl.
    + now rewrite E.
Qed.

Lemma lookup_dict_set_other {V : Type} (d : list (string * V))
      (k k0 : string) (v : V) :
  k0 <> k -> lookup (dict_set d k v) k0 = lookup d k0.
Proof.
  intros Hne. apply String.eqb_neq in Hne.
  induction d as [|[k' v'] d IH]; cbn [dict_set lookup].
  - now rewrite Hne.
  - destruct (String.eqb k k') eqn:E; cbn [lookup].
    + apply String.eqb_eq in E. subst k'. now rewrite Hne.
    + now rewrite IH.
Qed.

Lemma dict_set_keys {V : Type} (d : list (string * V)) (k : string) (v : V) :
  map fst (dict_set d k v)
  = if existsb (String.eqb k) (map fst d) then map fst d
    else (map fst d ++ [k])%list.
Proof.
  induction d as [|[k' v'] d IH]; cbn [dict_set map fst existsb app];
    [reflexivity|].
  destruct (String.eqb k k') eqn:E; cbn [map fst orb].
  - apply String.eqb_eq in E. now subst k'.
  - rewrite IH. now destruct (existsb (String.eqb k) (map fst d)).
Qed.

(** ** Settings *)

Lemma strip_tight (l : list ascii) :
  stops is_space l -> stops is_space (rev l) -> strip l = l.
Proof.
  intros H1 H2. unfold strip.
  assert (D : forall x, stops is_space x -> drop_while is_space x = x).
  { intros [|c x] Hx; [reflexivity|]. cbn [stops] in Hx. cbn [drop_while].
    now rewrite Hx. }
  now rewrite (D l H1), (D _ H2), rev_involutive.
Qed.

Lemma remove_last_quote_app (v : list ascii) :
  remove_last_quote (v ++ [quote]) = v.
Proof.
  induction v as [|c v IH]; [reflexivity|].
  cbn [app]. destruct v as [|c' v]; cbn [app remove_last_quote] in *.
  - reflexivity.
  - now rewrite IH.
Qed.

Lemma space_not_comment (c : ascii) :
  is_space c = true -> one_of ["#"; "{"; "}"]%char c = false.
Proof.
  destruct c as [[] [] [] [] [] [] [] []]; vm_compute; intros H;
    first [reflexivity | discriminate H].
Qed.

Lemma has_comment_char_app (a b : list ascii) :
  has_comment_char (a ++ b) = has_comment_char a || has_comment_char b.
Proof. unfold has_comment_char. apply existsb_app. Qed.

Lemma spaces_no_comment (ws : list ascii) :
  forallb is_space ws = true -> has_comment_char ws = false.
Proof.
  unfold has_comment_char. induction ws as [|c ws IH]; cbn [forallb existsb];
    intros H; [reflexivity|].
  apply andb_prop in H as [Hc Hws].
  now rewrite (space_not_comment c Hc), IH.
Qed.

(** X18: a line made of a key, whitespace and a value between double
    quotes, all without comment character and the value without the
    tilde forms, defines the key in camel case as the value without its
    quotes: it replaces an earlier definition of that key and leaves the
    other keys as they were. *)
Theorem X18_config_setting :
  forall expanduser (user : option string) (before : list string)
         (d : list (string * string)) (key ws value : list ascii),
    parsempdconf expanduser before user = Ok d ->
    key <> [] -> forallb (fun c => negb (is_space c)) key = true ->
    has_comment_char key = false ->
    ws <> [] -> forallb is_space ws = true ->
    has_comment_char value = false ->
    String.eqb (str value) "~" || has_tilde_slash value = false ->
    let raw := str (key ++ ws ++ quote :: value ++ [quote]) in
    let name := _underscoreToCamelCase (str key) in
    exists d',
      parsempdconf expanduser (before ++ [raw]) user = Ok d' /\
      lookup d' name = Some (str value) /\
      forall k, k <> name -> lookup d' k = lookup d k.
Proof.
  intros expanduser user before d key ws value Hd Hkey Dkey Ckey Hws Dws
         Cvalue Htilde raw name.
  exists (dict_set d name (str value)).
  split; [|split; [apply lookup_dict_set_same|]].
  - unfold parsempdconf in *. rewrite parsempdconf_loop_app, Hd.
    cbn [bind parsempdconf_loop]. unfold parsempdconf_line. subst raw.
    rewrite chars_str.
    assert (S : strip (key ++ ws ++ quote :: value ++ [quote])
                = (key ++ ws ++ quote :: value ++ [quote])%list).
    { apply strip_tight.
      - destruct key as [|c key]; [congruence|]. cbn [app stops].
        cbn [forallb] in Dkey. apply andb_prop in Dkey as [Hc _].
        now apply negb_true_iff in Hc.
      - rewrite !rev_app_distr. cbn [rev app].
        rewrite rev_app_distr. reflexivity. }
    rewrite S.
    assert (C : has_comment_char (key ++ ws ++ quote :: value ++ [quote])
                = false).
    { rewrite !has_comment_char_app, Ckey, (spaces_no_comment ws Dws).
      change (quote :: value ++ [quote])
        with ([quote] ++ value ++ [quote])%list.
      rewrite !has_comment_char_app, Cvalue. reflexivity. }
    destruct key as [|c key]; [congruence|].
    cbn [app]. cbn [app] in C. rewrite C.
    change (c :: key ++ ws ++ quote :: value ++ [quote])
      with ((c :: key) ++ ws ++ quote :: value ++ [quote])%list.
    rewrite split_first_space_word by (auto; reflexivity).
    cbn [rev app]. unfold unquote. rewrite Ascii.eqb_refl.
    rewrite remove_last_quote_app, Htilde. reflexivity.
  - intros k Hk. now apply lookup_dict_set_other.
Qed.

Lemma X18_witness :
  exists d',
    parsempdconf (fun s => s)
      ["music_directory /old"; "port 6600";
       str (chars "music_directory" ++ chars "  "
            ++ quote :: chars "/srv/my music" ++ [quote])] None
    = Ok d' /\
    lookup d' "musicDirectory" = Some "/srv/my music" /\
    forall k, k <> "musicDirectory" ->
              lookup d' k
              = lookup [("musicDirectory", "/old"); ("port", "6600")] k.
Proof.
  apply (X18_config_setting (fun s => s) None
           ["music_directory /old"; "port 6600"]
           [("musicDirectory", "/old"); ("port", "6600")]
           (chars "music_directory") (chars "  ") (chars "/srv/my music"));
    try reflexivity; discriminate.
Defined.

(** ** The database parser *)

Lemma parsedatabase_loop_app (l1 l2 : list string) :
  forall st,
    parsedatabase_loop st (l1 ++ l2)
    = (st' <- parsedatabase_loop st l1 ;; parsedatabase_loop st' l2).
Proof.
  induction l1 as [|raw l1 IH]; intros st; cbn [app parsedatabase_loop bind];
    [reflexivity|].
  destruct (parsedatabase_line st raw); cbn [bind]; [apply IH|reflexivity].
Qed.

Lemma dict_set_In {V : Type} (d : list (string * V)) (k k0 : string)
      (v v0 : V) :
  In (k0, v0) (dict_set d k v) -> (k0, v0) = (k, v) \/ In (k0, v0) d.
Proof.
  induction d as [|[k' v'] d IH]; cbn [dict_set].
  - intros [E|[]]. now left.
  - destruct (String.eqb k k').
    + intros [E|H]; [now left|right; now right].
    + intros [E|H]; [right; now left|].
      destruct (IH H) as [E|H']; [now left|right; now right].
Qed.

Lemma dict_set_NoDup {V : Type} (d : list (string * V)) (k : string) (v : V) :
  NoDup (map fst d) -> NoDup (map fst (dict_set d k v)).
Proof.
  intros H. rewrite dict_set_keys.
  destruct (existsb (String.eqb k) (map fst d)) eqn:E; [exact H|].
  apply NoDup_app; [exact H|constructor; [intros []|constructor]|].
  intros x Hx [Ek|[]]. subst x.
  assert (existsb (String.eqb k) (map fst d) = true); [|congruence].
  apply existsb_exists. exists k. split; [exact Hx|apply String.eqb_refl].
Qed.


Lemma parsedatabase_line_keyed (st st' : db_state) (raw : string) :
  parsedatabase_line st raw = Ok st' ->
  keyed_by_file (db_tracks st) -> keyed_by_file (db_tracks st').
Proof.
  unfold parsedatabase_line. intros H Hinv.
  destruct (String.eqb _ "songList begin"); [now injection H as <-|].
  destruct (String.eqb _ "songList end"); [now injection H as <-|].
  destruct (parsing st); [|now injection H as <-].
  destruct (startswith "key: " _).
  - cbn [track db_tracks parsing] in H.
    destruct (partition _ _) as [[key value]|]; [|discriminate].
    destruct (py_setattr _ _ _) as [t'|]; [|discriminate]. cbn [bind] in H.
    injection H as <-. cbn [db_tracks].
    destruct (track st) as [t|]; [|exact Hinv].
    destruct Hinv as [Hnd Hfile]. split; [now apply dict_set_NoDup|].
    intros k o Hin. apply dict_set_In in Hin as [E|Hin]; [|now apply Hfile].
    now injection E as -> ->.
  - destruct (partition _ _) as [[key value]|]; [|discriminate].
    destruct (py_setattr _ _ _) as [t'|]; [|discriminate]. cbn [bind] in H.
    now injection H as <-.
Qed.

(** X19: in the dictionary that [parsedatabase] returns every track
    stands under its own [file] attribute, and no key occurs twice. *)
Theorem X19_database_keyed_by_file :
  forall (lines : list string) (tracks : list (string * TrackObject)),
    parsedatabase lines = Ok tracks ->
    NoDup (map fst tracks) /\
    forall k o, In (k, o) tracks -> Track.file (attrs o) = k.
Proof.
  intros lines tracks. unfold parsedatabase.
  destruct (parsedatabase_loop _ lines) as [st|] eqn:E; [|discriminate].
  cbn [bind]. intros H. injection H as <-.
  assert (G : forall lines st0 st1,
             parsedatabase_loop st0 lines = Ok st1 ->
             keyed_by_file (db_tracks st0) -> keyed_by_file (db_tracks st1)).
  { clear. induction lines as [|raw lines IH]; cbn [parsedatabase_loop];
      intros st0 st1 H Hinv.
    - now injection H as <-.
    - destruct (parsedatabase_line st0 raw) as [st'|] eqn:E; [|discriminate].
      cbn [bind] in H. apply (IH _ _ H).
      now apply (parsedatabase_line_keyed st0 st' raw). }
  apply (G _ _ _ E). split; [constructor|intros k o []].
Qed.

Lemma X19_witness :
  exists tracks,
    parsedatabase ["songList begin"; "key: a.mp3"; "file: d/a.mp3";
                   "Time: 12"; "key: b.mp3"; "file: d/b.mp3";
                   "key: c.mp3"; "file: d/c.mp3"; "songList end"]
    = Ok tracks /\
    NoDup (map fst tracks) /\
    forall k o, In (k, o) tracks -> Track.file (attrs o) = k.
Proof.
  eexists. split; [vm_compute; reflexivity|].
  apply (X19_database_keyed_by_file
           ["songList begin"; "key: a.mp3"; "file: d/a.mp3";
            "Time: 12"; "key: b.mp3"; "file: d/b.mp3";
            "key: c.mp3"; "file: d/c.mp3"; "songList end"]).
  vm_compute. reflexivity.
Defined.




(** X21: within a song list, the attribute lines that follow the line
    starting the last track, each one naming an attribute other than
    [__class__] and [__dict__], have no effect on the dictionary
    returned. *)
Theorem X21_database_ignores_last_attributes :
  forall (before after : list string) (st : db_state),
    parsedatabase_loop (mkDb false None []) before = Ok st ->
    parsing st = true -> track st <> None ->
    forallb attribute_line after = true ->
    parsedatabase (before ++ after) = parsedatabase before.
Proof.
  intros before after st Hst Hp Ht Hafter. unfold parsedatabase.
  rewrite parsedatabase_loop_app, Hst. cbn [bind].
  assert (G : forall lines st0,
             parsing st0 = true -> track st0 <> None ->
             forallb attribute_line lines = true ->
             exists st1, parsedatabase_loop st0 lines = Ok st1 /\
                         db_tracks st1 = db_tracks st0).
  { clear. induction lines as [|raw lines IH];
      cbn [parsedatabase_loop forallb]; intros st0 Hp Ht H; [eauto|].
    apply andb_prop in H as [Hraw Hlines]. unfold attribute_line in Hraw.
    apply andb_prop in Hraw as [Hraw Hpart].
    apply andb_prop in Hraw as [Hraw Hkey].
    apply andb_prop in Hraw as [Hb He].
    apply negb_true_iff in Hb, He, Hkey.
    unfold parsedatabase_line. rewrite Hb, He, Hp, Hkey.
    destruct (partition _ _) as [[key value]|]; [|discriminate].
    apply negb_true_iff in Hpart.
    destruct (track st0) as [t|]; [|congruence].
    cbn [py_setattr]. rewrite Hpart. cbn [bind].
    destruct (IH (mkDb (parsing st0) (Some (setattr t (lower (str key))
                                                    (str value)))
                       (db_tracks st0))) as (st1 & -> & E);
      [exact Hp|discriminate|exact Hlines|].
    eauto. }
  destruct (G after st Hp Ht Hafter) as (st1 & E1 & E2).
  rewrite E1. cbn [bind]. now rewrite E2.
Qed.

Lemma X21_witness :
  parsedatabase (["songList begin"; "key: a.mp3"; "file: d/a.mp3";
                  "key: b.mp3"]
                   ++ ["file: d/b.mp3"; "Artist: Fred"; "__doc__: x"])
  = parsedatabase ["songList begin"; "key: a.mp3"; "file: d/a.mp3";
                   "key: b.mp3"].
Proof.
  eapply X21_database_ignores_last_attributes.
  - vm_compute. reflexivity.
  - reflexivity.
  - discriminate.
  - reflexivity.
Defined.

(** X22: the lines before the first line [songList begin] have no effect
    and raise no error. *)
Theorem X22_database_ignores_preamble :
  forall (before rest : list string),
    forallb (fun raw => negb (String.eqb (str (strip (chars raw)))
                                         "songList begin")) before = true ->
    parsedatabase (before ++ rest) = parsedatabase rest.
Proof.
  intros before rest H. unfold parsedatabase.
  rewrite parsedatabase_loop_app.
  assert (G : parsedatabase_loop (mkDb false None []) before
              = Ok (mkDb false None [])).
  { induction before as [|raw before IH]; [reflexivity|].
    cbn [forallb] in H. apply andb_prop in H as [Hraw H].
    apply negb_true_iff in Hraw. cbn [parsedatabase_loop].
    unfold parsedatabase_line at 1. rewrite Hraw. cbn [parsing track db_tracks].
    destruct (String.eqb _ "songList end"); cbn [bind]; now apply IH. }
  rewrite G. reflexivity.
Qed.

Lemma X22_witness :
  parsedatabase (["info_begin"; "mpd_version: 0.15"; "no colon here";
                  "info_end"] ++ ["songList begin"; "key: a.mp3";
                                  "key: b.mp3"; "songList end"])
  = parsedatabase ["songList begin"; "key: a.mp3"; "key: b.mp3";
                   "songList end"].
Proof.
  apply X22_database_ignores_preamble. reflexivity.
Defined.

(** X23: within a song list, a line without colon and space (a blank line
    too) makes [parsedatabase] raise [ValueError]; an attribute line that
    comes before any track has started makes it raise [AttributeError],
    or [TypeError] when the attribute is [__class__]; and once a track has
    started, a line that sets [__class__] or [__dict__] makes it raise
    [TypeError]. *)
Theorem X23_database_errors :
  forall (before after : list string) (raw : string) (st : db_state),
    parsedatabase_loop (mkDb false None []) before = Ok st ->
    parsing st = true ->
    let line := str (strip (chars raw)) in
    line <> "songList begin" -> line <> "songList end" ->
    (partition (chars ": ") (chars line) = None ->
     parsedatabase (before ++ raw :: after) = Raise ValueError) /\
    (forall key value,
        track st = None -> startswith "key: " line = false ->
        partition (chars ": ") (chars line) = Some (key, value) ->
        (lower (str key) <> "__class__" ->
         parsedatabase (before ++ raw :: after)
         = Raise (AttributeError (lower (str key)))) /\
        (lower (str key) = "__class__" ->
         parsedatabase (before ++ raw :: after) = Raise TypeError)) /\
    (forall key value,
        track st <> None ->
        partition (chars ": ") (chars line) = Some (key, value) ->
        lower (str key) = "__class__" \/ lower (str key) = "__dict__" ->
        parsedatabase (before ++ raw :: after) = Raise TypeError).
Proof.
  intros before after raw st Hst Hp line Hb He.
  apply String.eqb_neq in Hb, He.
  unfold parsedatabase. rewrite parsedatabase_loop_app, Hst.
  cbn [bind parsedatabase_loop]. unfold parsedatabase_line. fold line.
  rewrite Hb, He, Hp. split; [|split].
  - intros Hpart. destruct (startswith "key: " line);
      cbn [track]; rewrite Hpart; reflexivity.
  - intros key value Ht Hk Hpart. rewrite Hk, Hpart, Ht. cbn [py_setattr].
    split; intros Hkey.
    + apply String.eqb_neq in Hkey. rewrite Hkey. reflexivity.
    + rewrite Hkey. reflexivity.
  - intros key value Ht Hpart Hkey.
    assert (R : setattr_refused (lower (str key)) = true).
    { unfold setattr_refused. destruct Hkey as [-> | ->]; reflexivity. }
    destruct (startswith "key: " line); cbn [track]; rewrite Hpart.
    + cbn [py_setattr]. rewrite R. reflexivity.
    + destruct (track st) as [t|]; [|congruence].
      cbn [py_setattr]. rewrite R. reflexivity.
Qed.

Lemma X23_witness :
  parsedatabase (["songList begin"; "key: a.mp3"] ++ "" :: ["key: b.mp3"])
  = Raise ValueError /\
  parsedatabase (["songList begin"] ++ "Artist: Fred" :: ["key: b.mp3"])
  = Raise (AttributeError "artist") /\
  parsedatabase (["songList begin"] ++ "__Class__: Fred" :: ["key: b.mp3"])
  = Raise TypeError /\
  parsedatabase (["songList begin"; "key: a.mp3"]
                   ++ "__dict__: Fred" :: ["key: b.mp3"])
  = Raise TypeError.
Proof.
  split; [|split; [|split]].
  - eapply (proj1 (X23_database_errors ["songList begin"; "key: a.mp3"]
                     ["key: b.mp3"] "" _ eq_refl eq_refl
                     ltac:(discriminate) ltac:(discriminate))).
    reflexivity.
  - eapply (proj1 (proj1 (proj2 (X23_database_errors ["songList begin"]
                     ["key: b.mp3"] "Artist: Fred" _ eq_refl eq_refl
                     ltac:(discriminate) ltac:(discriminate)))
              (chars "Artist") (chars "Fred") eq_refl eq_refl eq_refl)).
    discriminate.
  - eapply (proj2 (proj1 (proj2 (X23_database_errors ["songList begin"]
                     ["key: b.mp3"] "__Class__: Fred" _ eq_refl eq_refl
                     ltac:(discriminate) ltac:(discriminate)))
              (chars "__Class__") (chars "Fred") eq_refl eq_refl eq_refl)).
    reflexivity.
  - eapply (proj2 (proj2 (X23_database_errors
                     ["songList begin"; "key: a.mp3"]
                     ["key: b.mp3"] "__dict__: Fred" _ eq_refl eq_refl
                     ltac:(discriminate) ltac:(discriminate)))
              (chars "__dict__") (chars "Fred")).
    + discriminate.
    + reflexivity.
    + right. reflexivity.
Defined.

(** ** The sticker database *)

Lemma lookup_key_present {V : Type} (d : list (string * V)) (k : string)
      (v : V) :
  lookup d k = Some v -> existsb (String.eqb k) (map fst d) = true.
Proof.
  induction d as [|[k' v'] d IH]; cbn [lookup map fst existsb];
    [discriminate|].
  destruct (String.eqb k k'); [reflexivity|exact IH].
Qed.

Lemma setattr_rating_twice (o : TrackObject) (v1 v2 : string) :
  setattr (setattr o "rating" v1) "rating" v2 = setattr o "rating" v2.
Proof. destruct o as [[] ?]. reflexivity. Qed.

Lemma setattr_rating_same (o : TrackObject) :
  setattr o "rating" (Track.rating (attrs o)) = o.
Proof. destruct o as [[] ?]. reflexivity. Qed.

Lemma parseStickerDB_loop_spec (rows : list sticker_row) :
  forall tracks,
    let tracks' := parseStickerDB_loop rows tracks in
    map fst tracks' = map fst tracks /\
    (forall k o', lookup tracks' k = Some o' ->
                  exists o v, lookup tracks k = Some o /\
                              o' = setattr o "rating" v) /\
    (forall k o, lookup tracks k = Some o ->
                 (forall row, In row rows -> st_uri row <> k) ->
                 lookup tracks' k = Some o).
Proof.
  induction rows as [|row rows IH]; intros tracks; cbn [parseStickerDB_loop].
  - cbv zeta. split; [reflexivity|]. split; [|auto].
    intros k o' H. exists o', (Track.rating (attrs o')).
    split; [exact H|]. symmetry. apply setattr_rating_same.
  - destruct (lookup tracks (st_uri row)) as [o0|] eqn:L.
    + specialize (IH (dict_set tracks (st_uri row)
                               (setattr o0 "rating" (st_value row)))).
      cbv zeta in *. destruct IH as (K & S & U). split; [|split].
      * rewrite K, dict_set_keys, (lookup_key_present _ _ _ L). reflexivity.
      * intros k o' H. destruct (S k o' H) as (o & v & Ho & ->).
        destruct (string_dec k (st_uri row)) as [->|Hne].
        -- rewrite lookup_dict_set_same in Ho. injection Ho as <-.
           exists o0, v. split; [exact L|]. apply setattr_rating_twice.
        -- rewrite lookup_dict_set_other in Ho by exact Hne. eauto.
      * intros k o Ho Hrows. apply U.
        -- rewrite lookup_dict_set_other; [exact Ho|].
           intros E. apply (Hrows row (or_introl eq_refl)). now symmetry.
        -- intros r Hr. apply Hrows. now right.
    + specialize (IH tracks). cbv zeta in *. destruct IH as (K & S & U).
      split; [exact K|]. split; [exact S|].
      intros k o Ho Hrows. apply U; [exact Ho|].
      intros r Hr. apply Hrows. now right.
Qed.

(** X24: [parseStickerDB] keeps the keys of the dictionary and their
    order; each track it returns is the track it was given with at most
    its rating changed; and a track of which no rating row speaks is
    returned as it was. *)
Theorem X24_stickers_only_set_ratings :
  forall (table : list sticker_row) (tracks : list (string * TrackObject)),
    let tracks' := parseStickerDB table tracks in
    map fst tracks' = map fst tracks /\
    (forall k o', lookup tracks' k = Some o' ->
                  exists o v, lookup tracks k = Some o /\
                              o' = setattr o "rating" v) /\
    (forall k o, lookup tracks k = Some o ->
                 (forall row, In row table ->
                              st_type row = "song" -> st_name row = "rating" ->
                              st_uri row <> k) ->
                 lookup tracks' k = Some o).
Proof.
  intros table tracks tracks'. subst tracks'. unfold parseStickerDB.
  destruct (parseStickerDB_loop_spec (select_ratings table) tracks)
    as (K & S & U).
  split; [exact K|]. split; [exact S|].
  intros k o Ho Hrows. apply U; [exact Ho|].
  intros row Hin. unfold select_ratings in Hin.
  apply filter_In in Hin as [Hin Hsel]. apply andb_prop in Hsel as [Ht Hn].
  apply String.eqb_eq in Ht, Hn. now apply Hrows.
Qed.

Lemma X24_witness :
  let a := setattr (setattr Track_new "file" "d/a.mp3") "composer" "Me" in
  let b := setattr Track_new "file" "d/b.mp3" in
  let tracks := [("d/a.mp3", a); ("d/b.mp3", b)] in
  let table := [mkRow "song" "d/a.mp3" "rating" "5";
                mkRow "song" "d/b.mp3" "color" "red";
                mkRow "song" "d/z.mp3" "rating" "1"] in
  lookup (parseStickerDB table tracks) "d/b.mp3" = Some b /\
  lookup (parseStickerDB table tracks) "d/a.mp3"
  = Some (setattr a "rating" "5").
Proof.
  intros a b tracks table. split; [|reflexivity].
  apply (proj2 (proj2 (X24_stickers_only_set_ratings table tracks))).
  - reflexivity.
  - intros row [<-|[<-|[<-|[]]]] Ht Hn; discriminate.
Defined.

(** ** What the parser stores is what a rule reads *)

(** X25: for every field code of the registry, the value that the database
    parser sets under the attribute of that code is the value that a rule
    on that code reads, and setting it leaves what the rules on the other
    codes read as it was. *)
Theorem X25_setattr_then_getattr :
  forall (o : TrackObject) (code : string) (kw : string * string)
         (v : string),
    lookup KEYWORDS code = Some kw ->
    let attr := lower (fst kw) in
    Track.getattr (attrs (setattr o attr v)) attr = Ok v /\
    forall code' kw',
      lookup KEYWORDS code' = Some kw' ->
      lower (fst kw') <> attr ->
      Track.getattr (attrs (setattr o attr v)) (lower (fst kw'))
      = Track.getattr (attrs o) (lower (fst kw')).
Proof.
  intros o code kw v H attr. subst attr. destruct o as [[] others].
  unfold KEYWORDS in H. cbn [lookup] in H.
  repeat match type of H with
         | (if ?b then _ else _) = _ =>
             destruct b; [injection H as <-; split; [reflexivity|]|]
         end; try discriminate;
    intros code' kw' H' Hne; unfold KEYWORDS in H'; cbn [lookup] in H';
    repeat match type of H' with
           | (if ?b then _ else _) = _ =>
               destruct b; [injection H' as <-;
                            first [reflexivity | exfalso; now apply Hne]|]
           end; discriminate.
Qed.

Lemma X25_witness :
  let o := setattr Track_new "file" "d/a.mp3" in
  Track.getattr (attrs (setattr o "time" "215")) "time" = Ok "215" /\
  Track.getattr (attrs (setattr o "time" "215")) "file" = Ok "d/a.mp3".
Proof.
  intros o.
  destruct (X25_setattr_then_getattr o "le"
              ("Time", "Track duration (in seconds)") "215" eq_refl)
    as [G U].
  split; [exact G|].
  assert (N : lower (fst ("file", "File full path"))
              <> lower (fst ("Time", "Track duration (in seconds)"))).
  { vm_compute. discriminate. }
  exact (U "fp" ("file", "File full path") eq_refl N).
Defined.
